(** * Expression Multiplexer firmware: a model of ExpMultiplexer.ino

    The sketch keeps its whole configuration in global variables, reads two
    ADC channels and two push buttons, drives four digital potentiometers
    over SPI and eight LEDs, and keeps ten bytes in EEPROM.  The globals
    and the peripherals the sketch touches are collected in one record
    that every function takes and returns.

    Integers are [Z]; a [byte] variable wraps modulo 256, a [word] modulo
    65536.  Arrays are lists read and written by index.  A digital level is
    a [bool], [true] for HIGH. *)

From Stdlib Require Import ZArith Bool List Lia.
From stdpp Require Import base list.
Import ListNotations.
Local Open Scope Z_scope.

(** ** Machine integers and arrays *)

Definition byte (z : Z) : Z := z mod 256.
Definition word (z : Z) : Z := z mod 65536.

(** Conversions among [bool] and [byte], as C++ performs them. *)
Definition bool_to_byte (b : bool) : Z := if b then 1 else 0.
Definition byte_to_bool (z : Z) : bool := negb (z =? 0).

(** [rd a i] is [a[i]], [wr a i v] is [a[i] = v].  Outside the array C++
    leaves both undefined; here a read gives the type's default and a write
    does nothing, and the access is recorded by [chk] below. *)
Definition rd {A} `{Inhabited A} (a : list A) (i : Z) : A := a !!! Z.to_nat i.
Definition wr {A} (a : list A) (i : Z) (v : A) : list A := <[Z.to_nat i := v]> a.

(** [a[i][j] = v] on an array of arrays. *)
Definition wr2 {A} (a : list (list A)) (i j : Z) (v : A) : list (list A) :=
  alter (fun row => wr row j v) (Z.to_nat i) a.

(** [for (byte i = 0; i < n; i++) body]. *)
Definition for_upto {St} (n : Z) (body : Z -> St -> St) (s : St) : St :=
  foldl (fun acc i => body i acc) s (seqZ 0 n).

(** ** Lookup table for the logarithmic taper *)

Definition LogPot : list Z :=
  [0; 0; 0; 0; 0; 0; 0; 0; 0;
   0; 0; 0; 1; 1; 1; 1; 1; 1; 1; 1; 2; 2; 2; 2; 2;
   2; 3; 3; 3; 3; 4; 4; 4; 4; 5; 5; 5; 5; 6; 6; 6;
   7; 7; 7; 8; 8; 8; 9; 9; 9; 10; 10; 11; 11; 11;
   12; 12; 13; 13; 14; 14; 15; 15; 16; 16; 17; 17;
   18; 18; 19; 19; 20; 20; 21; 21; 22; 23; 23; 24;
   24; 25; 26; 26; 27; 28; 28; 29; 30; 30; 31; 32;
   32; 33; 34; 35; 35; 36; 37; 38; 38; 39; 40; 41;
   42; 42; 43; 44; 45; 46; 47; 47; 48; 49; 50; 51;
   52; 53; 54; 55; 56; 56; 57; 58; 59; 60; 61; 62;
   63; 64; 65; 66; 67; 68; 69; 70; 71; 73; 74; 75;
   76; 77; 78; 79; 80; 81; 82; 84; 85; 86; 87; 88;
   89; 91; 92; 93; 94; 95; 97; 98; 99; 100; 102;
   103; 104; 105; 107; 108; 109; 111; 112; 113;
   115; 116; 117; 119; 120; 121; 123; 124; 126;
   127; 128; 130; 131; 133; 134; 136; 137; 139;
   140; 142; 143; 145; 146; 148; 149; 151; 152;
   154; 155; 157; 158; 160; 162; 163; 165; 166;
   168; 170; 171; 173; 175; 176; 178; 180; 181;
   183; 185; 186; 188; 190; 192; 193; 195; 197;
   199; 200; 202; 204; 206; 207; 209; 211; 213;
   215; 217; 218; 220; 222; 224; 226; 228; 230;
   232; 233; 235; 237; 239; 241; 243; 245; 247;
   249; 251; 253; 255].

(** ** Global variables and peripherals *)

Record State : Type := mkState {
  ExpVal : Z; (* Exp pedal input value (byte) *)
  SelVal : Z; (* selector wheel input value (byte) *)
  PatchModeState : list (list Z); (* taper of each channel, per patch *)
  PatchChnlState : list (list bool); (* on/off of each channel, per patch *)
  PatchActive : Z; (* index of the active patch, 255 when none *)
  ChnlState : list bool; (* normal mode: on/off of each channel *)
  ChnlMode : list Z; (* normal mode: taper of each channel *)
  SelIndex : Z; (* selected channel / patch / save slot *)
  TimerCount : Z; (* timer overflow counter *)
  SaveModeCounter : Z; (* 500 ms windows the select button was held *)
  NvmData : list Z; (* EEPROM image, 10 bytes *)
  Btn0Pressed : bool;
  Btn0Released : bool;
  Btn1Pressed : bool;
  Btn1Released : bool;
  SelValChng : bool;
  LastSelVal : Z;
  PatchMode : bool;
  SaveMode : bool;
  SvMdCntrActive : bool;
  ChnlLedState : list Z; (* Leds0..3: 0 off, 1 on, 2 slow blink, 3 fast blink *)
  ModeLedState : list Z; (* Leds4..7 *)
  Eeprom : list Z; (* cells 0..9 of the EEPROM *)
  LedPins : list bool; (* output pins Led0..Led7 *)
  PotLog : list (Z * Z); (* SPI wiper writes (PotID, Data), oldest first *)
  OutOfBounds : option Z (* ghost: last index used outside its array *)
}.

Definition set_ExpVal (v : Z) (s : State) : State :=
  mkState v (SelVal s) (PatchModeState s) (PatchChnlState s) (PatchActive s)
    (ChnlState s) (ChnlMode s) (SelIndex s) (TimerCount s) (SaveModeCounter s)
    (NvmData s) (Btn0Pressed s) (Btn0Released s) (Btn1Pressed s)
    (Btn1Released s) (SelValChng s) (LastSelVal s) (PatchMode s) (SaveMode s)
    (SvMdCntrActive s) (ChnlLedState s) (ModeLedState s) (Eeprom s)
    (LedPins s) (PotLog s) (OutOfBounds s).

Definition set_SelVal (v : Z) (s : State) : State :=
  mkState (ExpVal s) v (PatchModeState s) (PatchChnlState s) (PatchActive s)
    (ChnlState s) (ChnlMode s) (SelIndex s) (TimerCount s) (SaveModeCounter s)
    (NvmData s) (Btn0Pressed s) (Btn0Released s) (Btn1Pressed s)
    (Btn1Released s) (SelValChng s) (LastSelVal s) (PatchMode s) (SaveMode s)
    (SvMdCntrActive s) (ChnlLedState s) (ModeLedState s) (Eeprom s)
    (LedPins s) (PotLog s) (OutOfBounds s).

Definition set_PatchModeState (v : list (list Z)) (s : State) : State :=
  mkState (ExpVal s) (SelVal s) v (PatchChnlState s) (PatchActive s)
    (ChnlState s) (ChnlMode s) (SelIndex s) (TimerCount s) (SaveModeCounter s)
    (NvmData s) (Btn0Pressed s) (Btn0Released s) (Btn1Pressed s)
    (Btn1Released s) (SelValChng s) (LastSelVal s) (PatchMode s) (SaveMode s)
    (SvMdCntrActive s) (ChnlLedState s) (ModeLedState s) (Eeprom s)
    (LedPins s) (PotLog s) (OutOfBounds s).

Definition set_PatchChnlState (v : list (list bool)) (s : State) : State :=
  mkState (ExpVal s) (SelVal s) (PatchModeState s) v (PatchActive s)
    (ChnlState s) (ChnlMode s) (SelIndex s) (TimerCount s) (SaveModeCounter s)
    (NvmData s) (Btn0Pressed s) (Btn0Released s) (Btn1Pressed s)
    (Btn1Released s) (SelValChng s) (LastSelVal s) (PatchMode s) (SaveMode s)
    (SvMdCntrActive s) (ChnlLedState s) (ModeLedState s) (Eeprom s)
    (LedPins s) (PotLog s) (OutOfBounds s).

Definition set_PatchActive (v : Z) (s : State) : State :=
  mkState (ExpVal s) (SelVal s) (PatchModeState s) (PatchChnlState s) v
    (ChnlState s) (ChnlMode s) (SelIndex s) (TimerCount s) (SaveModeCounter s)
    (NvmData s) (Btn0Pressed s) (Btn0Released s) (Btn1Pressed s)
    (Btn1Released s) (SelValChng s) (LastSelVal s) (PatchMode s) (SaveMode s)
    (SvMdCntrActive s) (ChnlLedState s) (ModeLedState s) (Eeprom s)
    (LedPins s) (PotLog s) (OutOfBounds s).

Definition set_ChnlState (v : list bool) (s : State) : State :=
  mkState (ExpVal s) (SelVal s) (PatchModeState s) (PatchChnlState s)
    (PatchActive s) v (ChnlMode s) (SelIndex s) (TimerCount s)
    (SaveModeCounter s) (NvmData s) (Btn0Pressed s) (Btn0Released s)
    (Btn1Pressed s) (Btn1Released s) (SelValChng s) (LastSelVal s)
    (PatchMode s) (SaveMode s) (SvMdCntrActive s) (ChnlLedState s)
    (ModeLedState s) (Eeprom s) (LedPins s) (PotLog s) (OutOfBounds s).

Definition set_ChnlMode (v : list Z) (s : State) : State :=
  mkState (ExpVal s) (SelVal s) (PatchModeState s) (PatchChnlState s)
    (PatchActive s) (ChnlState s) v (SelIndex s) (TimerCount s)
    (SaveModeCounter s) (NvmData s) (Btn0Pressed s) (Btn0Released s)
    (Btn1Pressed s) (Btn1Released s) (SelValChng s) (LastSelVal s)
    (PatchMode s) (SaveMode s) (SvMdCntrActive s) (ChnlLedState s)
    (ModeLedState s) (Eeprom s) (LedPins s) (PotLog s) (OutOfBounds s).

Definition set_SelIndex (v : Z) (s : State) : State :=
  mkState (ExpVal s) (SelVal s) (PatchModeState s) (PatchChnlState s)
    (PatchActive s) (ChnlState s) (ChnlMode s) v (TimerCount s)
    (SaveModeCounter s) (NvmData s) (Btn0Pressed s) (Btn0Released s)
    (Btn1Pressed s) (Btn1Released s) (SelValChng s) (LastSelVal s)
    (PatchMode s) (SaveMode s) (SvMdCntrActive s) (ChnlLedState s)
    (ModeLedState s) (Eeprom s) (LedPins s) (PotLog s) (OutOfBounds s).

Definition set_TimerCount (v : Z) (s : State) : State :=
  mkState (ExpVal s) (SelVal s) (PatchModeState s) (PatchChnlState s)
    (PatchActive s) (ChnlState s) (ChnlMode s) (SelIndex s) v
    (SaveModeCounter s) (NvmData s) (Btn0Pressed s) (Btn0Released s)
    (Btn1Pressed s) (Btn1Released s) (SelValChng s) (LastSelVal s)
    (PatchMode s) (SaveMode s) (SvMdCntrActive s) (ChnlLedState s)
    (ModeLedState s) (Eeprom s) (LedPins s) (PotLog s) (OutOfBounds s).

Definition set_SaveModeCounter (v : Z) (s : State) : State :=
  mkState (ExpVal s) (SelVal s) (PatchModeState s) (PatchChnlState s)
    (PatchActive s) (ChnlState s) (ChnlMode s) (SelIndex s) (TimerCount s) v
    (NvmData s) (Btn0Pressed s) (Btn0Released s) (Btn1Pressed s)
    (Btn1Released s) (SelValChng s) (LastSelVal s) (PatchMode s) (SaveMode s)
    (SvMdCntrActive s) (ChnlLedState s) (ModeLedState s) (Eeprom s)
    (LedPins s) (PotLog s) (OutOfBounds s).

Definition set_NvmData (v : list Z) (s : State) : State :=
  mkState (ExpVal s) (SelVal s) (PatchModeState s) (PatchChnlState s)
    (PatchActive s) (ChnlState s) (ChnlMode s) (SelIndex s) (TimerCount s)
    (SaveModeCounter s) v (Btn0Pressed s) (Btn0Released s) (Btn1Pressed s)
    (Btn1Released s) (SelValChng s) (LastSelVal s) (PatchMode s) (SaveMode s)
    (SvMdCntrActive s) (ChnlLedState s) (ModeLedState s) (Eeprom s)
    (LedPins s) (PotLog s) (OutOfBounds s).

Definition set_Btn0Pressed (v : bool) (s : State) : State :=
  mkState (ExpVal s) (SelVal s) (PatchModeState s) (PatchChnlState s)
    (PatchActive s) (ChnlState s) (ChnlMode s) (SelIndex s) (TimerCount s)
    (SaveModeCounter s) (NvmData s) v (Btn0Released s) (Btn1Pressed s)
    (Btn1Released s) (SelValChng s) (LastSelVal s) (PatchMode s) (SaveMode s)
    (SvMdCntrActive s) (ChnlLedState s) (ModeLedState s) (Eeprom s)
    (LedPins s) (PotLog s) (OutOfBounds s).

Definition set_Btn0Released (v : bool) (s : State) : State :=
  mkState (ExpVal s) (SelVal s) (PatchModeState s) (PatchChnlState s)
    (PatchActive s) (ChnlState s) (ChnlMode s) (SelIndex s) (TimerCount s)
    (SaveModeCounter s) (NvmData s) (Btn0Pressed s) v (Btn1Pressed s)
    (Btn1Released s) (SelValChng s) (LastSelVal s) (PatchMode s) (SaveMode s)
    (SvMdCntrActive s) (ChnlLedState s) (ModeLedState s) (Eeprom s)
    (LedPins s) (PotLog s) (OutOfBounds s).

Definition set_Btn1Pressed (v : bool) (s : State) : State :=
  mkState (ExpVal s) (SelVal s) (PatchModeState s) (PatchChnlState s)
    (PatchActive s) (ChnlState s) (ChnlMode s) (SelIndex s) (TimerCount s)
    (SaveModeCounter s) (NvmData s) (Btn0Pressed s) (Btn0Released s) v
    (Btn1Released s) (SelValChng s) (LastSelVal s) (PatchMode s) (SaveMode s)
    (SvMdCntrActive s) (ChnlLedState s) (ModeLedState s) (Eeprom s)
    (LedPins s) (PotLog s) (OutOfBounds s).

Definition set_Btn1Released (v : bool) (s : State) : State :=
  mkState (ExpVal s) (SelVal s) (PatchModeState s) (PatchChnlState s)
    (PatchActive s) (ChnlState s) (ChnlMode s) (SelIndex s) (TimerCount s)
    (SaveModeCounter s) (NvmData s) (Btn0Pressed s) (Btn0Released s)
    (Btn1Pressed s) v (SelValChng s) (LastSelVal s) (PatchMode s) (SaveMode s)
    (SvMdCntrActive s) (ChnlLedState s) (ModeLedState s) (Eeprom s)
    (LedPins s) (PotLog s) (OutOfBounds s).

Definition set_SelValChng (v : bool) (s : State) : State :=
  mkState (ExpVal s) (SelVal s) (PatchModeState s) (PatchChnlState s)
    (PatchActive s) (ChnlState s) (ChnlMode s) (SelIndex s) (TimerCount s)
    (SaveModeCounter s) (NvmData s) (Btn0Pressed s) (Btn0Released s)
    (Btn1Pressed s) (Btn1Released s) v (LastSelVal s) (PatchMode s)
    (SaveMode s) (SvMdCntrActive s) (ChnlLedState s) (ModeLedState s)
    (Eeprom s) (LedPins s) (PotLog s) (OutOfBounds s).

Definition set_LastSelVal (v : Z) (s : State) : State :=
  mkState (ExpVal s) (SelVal s) (PatchModeState s) (PatchChnlState s)
    (PatchActive s) (ChnlState s) (ChnlMode s) (SelIndex s) (TimerCount s)
    (SaveModeCounter s) (NvmData s) (Btn0Pressed s) (Btn0Released s)
    (Btn1Pressed s) (Btn1Released s) (SelValChng s) v (PatchMode s)
    (SaveMode s) (SvMdCntrActive s) (ChnlLedState s) (ModeLedState s)
    (Eeprom s) (LedPins s) (PotLog s) (OutOfBounds s).

Definition set_PatchMode (v : bool) (s : State) : State :=
  mkState (ExpVal s) (SelVal s) (PatchModeState s) (PatchChnlState s)
    (PatchActive s) (ChnlState s) (ChnlMode s) (SelIndex s) (TimerCount s)
    (SaveModeCounter s) (NvmData s) (Btn0Pressed s) (Btn0Released s)
    (Btn1Pressed s) (Btn1Released s) (SelValChng s) (LastSelVal s) v
    (SaveMode s) (SvMdCntrActive s) (ChnlLedState s) (ModeLedState s)
    (Eeprom s) (LedPins s) (PotLog s) (OutOfBounds s).

Definition set_SaveMode (v : bool) (s : State) : State :=
  mkState (ExpVal s) (SelVal s) (PatchModeState s) (PatchChnlState s)
    (PatchActive s) (ChnlState s) (ChnlMode s) (SelIndex s) (TimerCount s)
    (SaveModeCounter s) (NvmData s) (Btn0Pressed s) (Btn0Released s)
    (Btn1Pressed s) (Btn1Released s) (SelValChng s) (LastSelVal s)
    (PatchMode s) v (SvMdCntrActive s) (ChnlLedState s) (ModeLedState s)
    (Eeprom s) (LedPins s) (PotLog s) (OutOfBounds s).

Definition set_SvMdCntrActive (v : bool) (s : State) : State :=
  mkState (ExpVal s) (SelVal s) (PatchModeState s) (PatchChnlState s)
    (PatchActive s) (ChnlState s) (ChnlMode s) (SelIndex s) (TimerCount s)
    (SaveModeCounter s) (NvmData s) (Btn0Pressed s) (Btn0Released s)
    (Btn1Pressed s) (Btn1Released s) (SelValChng s) (LastSelVal s)
    (PatchMode s) (SaveMode s) v (ChnlLedState s) (ModeLedState s) (Eeprom s)
    (LedPins s) (PotLog s) (OutOfBounds s).

Definition set_ChnlLedState (v : list Z) (s : State) : State :=
  mkState (ExpVal s) (SelVal s) (PatchModeState s) (PatchChnlState s)
    (PatchActive s) (ChnlState s) (ChnlMode s) (SelIndex s) (TimerCount s)
    (SaveModeCounter s) (NvmData s) (Btn0Pressed s) (Btn0Released s)
    (Btn1Pressed s) (Btn1Released s) (SelValChng s) (LastSelVal s)
    (PatchMode s) (SaveMode s) (SvMdCntrActive s) v (ModeLedState s)
    (Eeprom s) (LedPins s) (PotLog s) (OutOfBounds s).

Definition set_ModeLedState (v : list Z) (s : State) : State :=
  mkState (ExpVal s) (SelVal s) (PatchModeState s) (PatchChnlState s)
    (PatchActive s) (ChnlState s) (ChnlMode s) (SelIndex s) (TimerCount s)
    (SaveModeCounter s) (NvmData s) (Btn0Pressed s) (Btn0Released s)
    (Btn1Pressed s) (Btn1Released s) (SelValChng s) (LastSelVal s)
    (PatchMode s) (SaveMode s) (SvMdCntrActive s) (ChnlLedState s) v
    (Eeprom s) (LedPins s) (PotLog s) (OutOfBounds s).

Definition set_Eeprom (v : list Z) (s : State) : State :=
  mkState (ExpVal s) (SelVal s) (PatchModeState s) (PatchChnlState s)
    (PatchActive s) (ChnlState s) (ChnlMode s) (SelIndex s) (TimerCount s)
    (SaveModeCounter s) (NvmData s) (Btn0Pressed s) (Btn0Released s)
    (Btn1Pressed s) (Btn1Released s) (SelValChng s) (LastSelVal s)
    (PatchMode s) (SaveMode s) (SvMdCntrActive s) (ChnlLedState s)
    (ModeLedState s) v (LedPins s) (PotLog s) (OutOfBounds s).

Definition set_LedPins (v : list bool) (s : State) : State :=
  mkState (ExpVal s) (SelVal s) (PatchModeState s) (PatchChnlState s)
    (PatchActive s) (ChnlState s) (ChnlMode s) (SelIndex s) (TimerCount s)
    (SaveModeCounter s) (NvmData s) (Btn0Pressed s) (Btn0Released s)
    (Btn1Pressed s) (Btn1Released s) (SelValChng s) (LastSelVal s)
    (PatchMode s) (SaveMode s) (SvMdCntrActive s) (ChnlLedState s)
    (ModeLedState s) (Eeprom s) v (PotLog s) (OutOfBounds s).

Definition set_PotLog (v : list (Z * Z)) (s : State) : State :=
  mkState (ExpVal s) (SelVal s) (PatchModeState s) (PatchChnlState s)
    (PatchActive s) (ChnlState s) (ChnlMode s) (SelIndex s) (TimerCount s)
    (SaveModeCounter s) (NvmData s) (Btn0Pressed s) (Btn0Released s)
    (Btn1Pressed s) (Btn1Released s) (SelValChng s) (LastSelVal s)
    (PatchMode s) (SaveMode s) (SvMdCntrActive s) (ChnlLedState s)
    (ModeLedState s) (Eeprom s) (LedPins s) v (OutOfBounds s).

Definition set_OutOfBounds (v : option Z) (s : State) : State :=
  mkState (ExpVal s) (SelVal s) (PatchModeState s) (PatchChnlState s)
    (PatchActive s) (ChnlState s) (ChnlMode s) (SelIndex s) (TimerCount s)
    (SaveModeCounter s) (NvmData s) (Btn0Pressed s) (Btn0Released s)
    (Btn1Pressed s) (Btn1Released s) (SelValChng s) (LastSelVal s)
    (PatchMode s) (SaveMode s) (SvMdCntrActive s) (ChnlLedState s)
    (ModeLedState s) (Eeprom s) (LedPins s) (PotLog s) v.
(** [chk n i s] accompanies an access [a[i]] to an array of [n] elements
    whose index is computed at run time: it leaves [s] alone when [i] is
    inside the array and records [i] otherwise. *)
Definition chk (n i : Z) (s : State) : State :=
  if (0 <=? i) && (i <? n) then s else set_OutOfBounds (Some i) s.

(** The state after the initialisers of the global variables, on a board
    whose EEPROM holds [rom]. *)
Definition power_on (rom : list Z) : State :=
  mkState 0 0 (replicate 4 (replicate 4 0)) (replicate 4 (replicate 4 false))
    255 (replicate 4 false) (replicate 4 0) 0 0 0 (replicate 10 0)
    false false false false false 0 false false false
    (replicate 4 0) (replicate 4 0) rom (replicate 8 false) [] None.

(** ** Selector and buttons *)

(** [adc] is the value [analogRead(SelIn)] returns. *)
Definition CheckSelector (adc : Z) (s : State) : State :=
  let SelInputVal := word adc in
  let s := set_SelVal (byte (Z.shiftr SelInputVal 8)) s in
  let s := if negb (SelVal s =? LastSelVal s) then set_SelValChng true s else s in
  set_LastSelVal (SelVal s) s.

(** [Btn0State] and [Btn1State] are the levels [digitalRead] returns; the
    buttons are active low. *)
Definition CheckBtns (Btn0State Btn1State : bool) (s : State) : State :=
  let s := if negb Btn0State && negb (Btn0Pressed s) && negb (Btn0Released s)
           then set_Btn0Pressed true s else s in
  let s := if Btn0State && Btn0Pressed s && negb (Btn0Released s)
           then set_Btn0Released true s else s in
  let s := if negb Btn1State && negb (Btn1Pressed s) && negb (Btn1Released s)
           then set_Btn1Pressed true s else s in
  let s := if Btn1State && Btn1Pressed s && negb (Btn1Released s)
           then set_Btn1Released true s else s in
  s.

Definition ClrBtns (s : State) : State :=
  set_Btn1Released false (set_Btn1Pressed false
    (set_Btn0Released false (set_Btn0Pressed false s))).

Definition CheckSaveMode (s : State) : State :=
  if SvMdCntrActive s then set_SaveModeCounter (byte (SaveModeCounter s + 1)) s
  else s.

(** ** LEDs *)

(** [digitalWrite(i + Led0, level)]; Led0..Led7 are consecutive pins, so
    [i + Led4] is pin [i + 4] of the row. *)
Definition digitalWriteLed (i : Z) (level : bool) (s : State) : State :=
  set_LedPins (wr (LedPins s) i level) s.

Definition toggleLed (i : Z) (s : State) : State :=
  digitalWriteLed i (negb (rd (LedPins s) i)) s.

Definition CheckLeds_patch (i : Z) (s : State) : State :=
  let s := chk 4 (PatchActive s) s in
  let s := set_ChnlLedState
             (wr (ChnlLedState s) i
                 (bool_to_byte (rd (rd (PatchChnlState s) (PatchActive s)) i))) s in
  if negb (SelIndex s =? PatchActive s) && (PatchActive s =? i) then
    set_ModeLedState (wr (ModeLedState s) i 1) s
  else if negb (SelIndex s =? i) && negb (PatchActive s =? i) then
    set_ModeLedState (wr (ModeLedState s) i 0) s
  else if (SelIndex s =? i) && (PatchActive s =? i) then
    set_ModeLedState (wr (ModeLedState s) i 3) s
  else if (SelIndex s =? i) && negb (PatchActive s =? i) then
    set_ModeLedState (wr (ModeLedState s) i 2) s
  else s.

Definition CheckLeds_normal (i : Z) (s : State) : State :=
  let s :=
    if negb (SelIndex s =? i) && rd (ChnlState s) i then
      set_ChnlLedState (wr (ChnlLedState s) i 1) s
    else if negb (SelIndex s =? i) && negb (rd (ChnlState s) i) then
      set_ChnlLedState (wr (ChnlLedState s) i 0) s
    else if (SelIndex s =? i) && rd (ChnlState s) i then
      set_ChnlLedState (wr (ChnlLedState s) i 3) s
    else if (SelIndex s =? i) && negb (rd (ChnlState s) i) then
      set_ChnlLedState (wr (ChnlLedState s) i 2) s
    else s in
  set_ModeLedState (wr (ModeLedState s) i 0) s.

Definition CheckLeds_save (i : Z) (s : State) : State :=
  let s := if SelIndex s =? i
           then set_ModeLedState (wr (ModeLedState s) i 3) s
           else set_ModeLedState (wr (ModeLedState s) i 0) s in
  set_ChnlLedState (wr (ChnlLedState s) i (bool_to_byte (rd (ChnlState s) i))) s.

Definition CheckLeds_pins (i : Z) (s : State) : State :=
  let s := if rd (ChnlLedState s) i =? 0 then digitalWriteLed i false s
           else if rd (ChnlLedState s) i =? 1 then digitalWriteLed i true s
           else s in
  if rd (ModeLedState s) i =? 0 then digitalWriteLed (i + 4) false s
  else if rd (ModeLedState s) i =? 1 then digitalWriteLed (i + 4) true s
  else s.

Definition CheckLeds (s : State) : State :=
  let s :=
    if PatchMode s then for_upto 4 CheckLeds_patch s
    else if negb (PatchMode s) && negb (SaveMode s) then
      let s := for_upto 4 CheckLeds_normal s in
      let s := chk 4 (SelIndex s) s in
      let s := chk 4 (rd (ChnlMode s) (SelIndex s)) s in
      set_ModeLedState (wr (ModeLedState s) (rd (ChnlMode s) (SelIndex s)) 1) s
    else for_upto 4 CheckLeds_save s in
  for_upto 4 CheckLeds_pins s.

Definition LedsSlowBlink (s : State) : State :=
  for_upto 4 (fun i s =>
    let s := if rd (ChnlLedState s) i =? 2 then toggleLed i s else s in
    if rd (ModeLedState s) i =? 2 then toggleLed (i + 4) s else s) s.

Definition LedsFastBlink (s : State) : State :=
  for_upto 4 (fun i s =>
    let s := if rd (ChnlLedState s) i =? 3 then toggleLed i s else s in
    if rd (ModeLedState s) i =? 3 then toggleLed (i + 4) s else s) s.

(** ** Digital potentiometers *)

(** One wiper write; a [PotID] outside 0..3 selects no chip. *)
Definition WritePotSPI (PotID Data : Z) (s : State) : State :=
  if (0 <=? PotID) && (PotID <=? 3)
  then set_PotLog (PotLog s ++ [(PotID, byte Data)]) s
  else s.

Definition DigPotsInit (s : State) : State :=
  for_upto 4 (fun i s => WritePotSPI i (ExpVal s) s) s.

(** The [switch] on the taper that [loop] runs for an enabled channel: the
    value handed to [WritePotSPI], none for a taper outside 0..3. *)
Definition taper_value (mode ExpVal : Z) : option Z :=
  match mode with
  | 0 => Some ExpVal
  | 1 => Some (255 - ExpVal)
  | 2 => Some (rd LogPot ExpVal)
  | 3 => Some (rd LogPot (255 - ExpVal))
  | _ => None
  end.

Definition taper_switch (i mode : Z) (s : State) : State :=
  match taper_value mode (ExpVal s) with
  | Some v => WritePotSPI i v s
  | None => s
  end.

(** ** EEPROM image *)

(** The two extractions of [ReadNvmData]: [(b >> (i * 2)) & 0x03] and
    [(b >> j) & 0x01], the latter stored in a [bool]. *)
Definition mode_field (b i : Z) : Z := Z.land (Z.shiftr b (i * 2)) 3.
Definition state_bit (b j : Z) : bool := byte_to_bool (Z.land (Z.shiftr b j) 1).

Definition ReadNvmData (s : State) : State :=
  let s := for_upto 10 (fun i s =>
             set_NvmData (wr (NvmData s) i (rd (Eeprom s) i)) s) s in
  let s := for_upto 4 (fun i s =>
             set_ChnlMode
               (wr (ChnlMode s) i (mode_field (rd (NvmData s) 0) i)) s) s in
  let s := for_upto 4 (fun i s => for_upto 4 (fun j s =>
             set_PatchChnlState
               (wr2 (PatchChnlState s) i j
                    (state_bit (rd (NvmData s) (1 + i * 2)) j)) s) s) s in
  let s := for_upto 4 (fun i s => for_upto 4 (fun j s =>
             set_PatchModeState
               (wr2 (PatchModeState s) i j
                    (mode_field (rd (NvmData s) (2 + i * 2)) j)) s) s) s in
  set_PatchMode (byte_to_bool (rd (NvmData s) 9)) s.

(** The three packings of [UpdateNvmData]: the one-line expression for
    [NvmData[0]], and the two [helper] loops over a patch. *)
Definition pack_ChnlMode (m : list Z) : Z :=
  byte (Z.lor (Z.lor (Z.lor (Z.shiftl (rd m 3) 6) (Z.shiftl (rd m 2) 4))
                     (Z.shiftl (rd m 1) 2))
              (rd m 0)).

Definition pack_states (row : list bool) : Z :=
  for_upto 4 (fun j helper =>
    byte (Z.lor helper (Z.shiftl (bool_to_byte (rd row j)) j))) 0.

Definition pack_modes (row : list Z) : Z :=
  for_upto 4 (fun j helper =>
    byte (Z.lor helper (Z.shiftl (rd row j) (j * 2)))) 0.

Definition UpdateNvmData (s : State) : State :=
  let s := set_NvmData (wr (NvmData s) 0 (pack_ChnlMode (ChnlMode s))) s in
  let s := for_upto 4 (fun i s =>
             set_NvmData
               (wr (NvmData s) (1 + i * 2)
                   (pack_states (rd (PatchChnlState s) i))) s) s in
  let s := for_upto 4 (fun i s =>
             set_NvmData
               (wr (NvmData s) (2 + i * 2)
                   (pack_modes (rd (PatchModeState s) i))) s) s in
  let s := set_NvmData (wr (NvmData s) 9 (bool_to_byte (PatchMode s))) s in
  for_upto 10 (fun i s => set_Eeprom (wr (Eeprom s) i (rd (NvmData s) i)) s) s.

(** ** The main loop *)

(** What one pass of [loop] reads from outside: the two ADC channels, and
    the button levels the [CheckBtns] calls see while the pass waits for a
    release, in order.  The timer interrupt keeps running during that wait;
    the levels it samples there are part of [levels], and what it does to
    the LED pins during the wait is left out. *)
Record PassInput : Type := mkInput {
  adcExp : Z;                     (* analogRead(ExpIn) *)
  adcSel : Z;                     (* analogRead(SelIn) *)
  levels : list (bool * bool)     (* digitalRead(Btn0), digitalRead(Btn1) *)
}.

(** [while(!Btn0Released && !Btn1Released){ CheckBtns(); delay(10); }]:
    no result when the levels run out before a release is seen, that is
    when the wait never ends. *)
Fixpoint wait_any_release (lv : list (bool * bool)) (s : State) : option State :=
  if negb (Btn0Released s) && negb (Btn1Released s) then
    match lv with
    | [] => None
    | (b0, b1) :: lv' => wait_any_release lv' (CheckBtns b0 b1 s)
    end
  else Some s.

(** [while(!Btn1Released){ CheckBtns(); delay(10); }]. *)
Fixpoint wait_Btn1_release (lv : list (bool * bool)) (s : State) : option State :=
  if negb (Btn1Released s) then
    match lv with
    | [] => None
    | (b0, b1) :: lv' => wait_Btn1_release lv' (CheckBtns b0 b1 s)
    end
  else Some s.

(** [SelIndex++] followed by the wrap to 0 above 3. *)
Definition next_SelIndex (s : State) : State :=
  let s := set_SelIndex (byte (SelIndex s + 1)) s in
  if 3 <? SelIndex s then set_SelIndex 0 s else s.

Definition loop_patch_buttons (lv : list (bool * bool)) (s : State) : option State :=
  if Btn0Pressed s && Btn0Released s && negb (Btn1Pressed s) && negb (Btn1Released s) then
    let s := if SelIndex s =? PatchActive s
             then set_PatchActive 255 s
             else set_PatchActive (SelIndex s) s in
    Some (ClrBtns (CheckLeds s))
  else if negb (Btn0Pressed s) && negb (Btn0Released s) && Btn1Pressed s && Btn1Released s then
    let s := next_SelIndex s in
    Some (ClrBtns (CheckLeds s))
  else if Btn0Pressed s && negb (Btn0Released s) && Btn1Pressed s && negb (Btn1Released s) then
    let s := set_PatchMode false s in
    let s := set_SelIndex 0 s in
    let s := CheckLeds s in
    s ← wait_any_release lv s;
    Some (ClrBtns (UpdateNvmData s))
  else Some s.

Definition loop_patch_outputs (s : State) : State :=
  if PatchActive s <? 5 then
    for_upto 4 (fun i s =>
      let s := chk 4 (PatchActive s) s in
      if rd (rd (PatchChnlState s) (PatchActive s)) i
      then taper_switch i (rd (rd (PatchModeState s) (PatchActive s)) i) s
      else s) s
  else s.

(** [if(SelValChng){...}] of Patch mode. *)
Definition loop_patch_selector (s : State) : State :=
  if SelValChng s then
    let s := set_SelIndex (SelVal s) s in
    let s := CheckLeds s in
    set_SelValChng false s
  else s.

Definition loop_patch (lv : list (bool * bool)) (s : State) : option State :=
  s ← loop_patch_buttons lv s;
  let s := loop_patch_selector s in
  Some (loop_patch_outputs s).

Definition loop_normal_buttons (lv : list (bool * bool)) (s : State) : option State :=
  if Btn0Pressed s && Btn0Released s && negb (Btn1Pressed s) && negb (Btn1Released s) then
    let s := chk 4 (SelIndex s) s in
    let s := set_ChnlState
               (wr (ChnlState s) (SelIndex s) (negb (rd (ChnlState s) (SelIndex s)))) s in
    let s := set_SvMdCntrActive false s in
    let s := set_SaveModeCounter 0 s in
    Some (ClrBtns (CheckLeds s))
  else if negb (Btn0Pressed s) && negb (Btn0Released s) && Btn1Pressed s && Btn1Released s then
    let s := next_SelIndex s in
    let s := set_SvMdCntrActive false s in
    let s := set_SaveModeCounter 0 s in
    Some (ClrBtns (CheckLeds s))
  else if Btn0Pressed s && negb (Btn0Released s) && Btn1Pressed s && negb (Btn1Released s) then
    let s := set_SvMdCntrActive false s in
    let s := set_SaveModeCounter 0 s in
    let s := set_SelIndex 0 s in
    let s := set_PatchMode true s in
    let s := CheckLeds s in
    s ← wait_any_release lv s;
    Some (ClrBtns (UpdateNvmData s))
  else if negb (Btn0Pressed s) && negb (Btn0Released s) && Btn1Pressed s && negb (Btn1Released s) then
    let s := set_SvMdCntrActive true s in
    if 3 <? SaveModeCounter s then
      let s := set_SvMdCntrActive false s in
      let s := set_SaveModeCounter 0 s in
      let s := set_SelIndex 0 s in
      let s := set_SvMdCntrActive false s in
      let s := set_SaveMode true s in
      let s := CheckLeds s in
      s ← wait_Btn1_release lv s;
      Some (ClrBtns (UpdateNvmData s))
    else Some s
  else Some s.

Definition loop_normal_outputs (s : State) : State :=
  for_upto 4 (fun i s =>
    if rd (ChnlState s) i then taper_switch i (rd (ChnlMode s) i) s else s) s.

(** [if(SelValChng){...}] of Normal mode. *)
Definition loop_normal_selector (s : State) : State :=
  if SelValChng s then
    let s := chk 4 (SelIndex s) s in
    let s := set_ChnlMode (wr (ChnlMode s) (SelIndex s) (SelVal s)) s in
    let s := set_SelValChng false s in
    let s := CheckLeds s in
    UpdateNvmData s
  else s.

Definition loop_normal (lv : list (bool * bool)) (s : State) : option State :=
  s ← loop_normal_buttons lv s;
  let s := loop_normal_selector s in
  Some (loop_normal_outputs s).

(** One iteration of the copy loop of the Save-mode commit. *)
Definition save_copy (i : Z) (s : State) : State :=
  let s := set_PatchModeState
             (wr2 (PatchModeState s) (SelIndex s) i (rd (ChnlMode s) i)) s in
  set_PatchChnlState
    (wr2 (PatchChnlState s) (SelIndex s) i (rd (ChnlState s) i)) s.

(** The body of [if(SaveModeCounter > 3)] in Save mode. *)
Definition loop_save_commit (lv : list (bool * bool)) (s : State) : option State :=
  let s := set_SvMdCntrActive false s in
  let s := set_SaveModeCounter 0 s in
  let s := chk 4 (SelIndex s) s in
  let s := for_upto 4 save_copy s in
  let s := set_SelIndex 0 s in
  let s := set_SelValChng false s in
  let s := set_SaveMode false s in
  let s := CheckLeds s in
  s ← wait_Btn1_release lv s;
  Some (ClrBtns (UpdateNvmData s)).

Definition loop_save (lv : list (bool * bool)) (s : State) : option State :=
  s ← (if Btn1Pressed s && negb (Btn1Released s) then
         let s := set_SvMdCntrActive true s in
         if 3 <? SaveModeCounter s then loop_save_commit lv s else Some s
       else Some s);
  let s := set_SelIndex (SelVal s) s in
  Some (set_SelValChng false s).

Definition loop (inp : PassInput) (s : State) : option State :=
  let ExpInputVal := word (adcExp inp) in
  let s := set_ExpVal (byte (Z.shiftr ExpInputVal 2)) s in
  let s := CheckSelector (adcSel inp) s in
  if PatchMode s then loop_patch (levels inp) s
  else if negb (PatchMode s) && negb (SaveMode s) then loop_normal (levels inp) s
  else loop_save (levels inp) s.

(** ** Timer interrupt and start-up *)

Definition Tmr10msTask (b0 b1 : bool) (s : State) : State := CheckBtns b0 b1 s.
Definition Tmr100msTask (s : State) : State := LedsFastBlink (CheckLeds s).
Definition Tmr250msTask (s : State) : State := LedsSlowBlink s.
Definition Tmr500msTask (s : State) : State := CheckSaveMode s.

(** [b0], [b1] are the button levels at the tick. *)
Definition IntTmr1 (b0 b1 : bool) (s : State) : State :=
  let s := set_TimerCount (byte (TimerCount s + 1)) s in
  let s := Tmr10msTask b0 b1 s in
  let s := if TimerCount s mod 10 =? 0 then Tmr100msTask s else s in
  let s := if TimerCount s mod 25 =? 0 then Tmr250msTask s else s in
  if TimerCount s mod 50 =? 0 then set_TimerCount 0 (Tmr500msTask s) else s.

(** [setup], from the ADC readings and button levels at reset and the
    EEPROM contents [rom]. *)
Definition setup (rom : list Z) (adcE adcS : Z) (b0 b1 : bool) : State :=
  let s := power_on rom in
  let s := set_SelVal (byte (Z.shiftr adcS 8)) s in
  let s := set_LastSelVal (SelVal s) s in
  let s := set_ExpVal (byte (Z.shiftr adcE 2)) s in
  let s := CheckBtns b0 b1 s in
  let s := DigPotsInit s in
  ReadNvmData s.

(** The three operating modes, as the branches of [loop] and [CheckLeds]
    tell them apart. *)
Inductive Mode : Type := Normal | Patch | Save.

Definition op_mode (s : State) : Mode :=
  if PatchMode s then Patch
  else if negb (PatchMode s) && negb (SaveMode s) then Normal
  else Save.

(** ** Well-formed states and inputs *)

(** The arrays behind the configuration and its EEPROM record have the
    sizes of their declarations. *)
Record sized (s : State) : Prop := mkSized {
  sz_PatchModeState : length (PatchModeState s) = 4%nat;
  sz_PatchModeRows : Forall (fun row => length row = 4%nat) (PatchModeState s);
  sz_PatchChnlState : length (PatchChnlState s) = 4%nat;
  sz_PatchChnlRows : Forall (fun row => length row = 4%nat) (PatchChnlState s);
  sz_ChnlState : length (ChnlState s) = 4%nat;
  sz_ChnlMode : length (ChnlMode s) = 4%nat;
  sz_NvmData : length (NvmData s) = 10%nat;
  sz_Eeprom : length (Eeprom s) = 10%nat
}.

(** A taper is one of 0 = lin, 1 = inv. lin, 2 = log, 3 = inv. log. *)
Definition taper_ok (m : Z) : Prop := 0 <= m <= 3.

(** The values the firmware keeps its variables in. *)
Record valid (s : State) : Prop := mkValid {
  v_sized : sized s;
  v_ChnlMode : Forall taper_ok (ChnlMode s);
  v_PatchModeState : Forall (Forall taper_ok) (PatchModeState s);
  v_SelIndex : 0 <= SelIndex s <= 3;
  v_PatchActive : PatchActive s = 255 \/ 0 <= PatchActive s <= 3;
  v_modes : PatchMode s = true -> SaveMode s = false;
  v_SelVal : 0 <= SelVal s <= 3;
  v_ExpVal : 0 <= ExpVal s <= 255
}.

(** [analogRead] returns a 10-bit conversion. *)
Definition adc_ok (inp : PassInput) : Prop :=
  0 <= adcExp inp < 1024 /\ 0 <= adcSel inp < 1024.

(** Some sampled level of the select button is HIGH: the button is let go
    while the pass waits. *)
Definition release_seen (lv : list (bool * bool)) : Prop :=
  Exists (fun l => snd l = true) lv.

(** States the firmware can be in between passes of [loop] and timer
    ticks, from any EEPROM contents. *)
Inductive reachable : State -> Prop :=
| reach_setup rom adcE adcS b0 b1 :
    length rom = 10%nat -> 0 <= adcE < 1024 -> 0 <= adcS < 1024 ->
    reachable (setup rom adcE adcS b0 b1)
| reach_loop s inp s' :
    reachable s -> adc_ok inp -> loop inp s = Some s' -> reachable s'
| reach_tick s b0 b1 :
    reachable s -> reachable (IntTmr1 b0 b1 s).

(** All four button flags at once, and everything [CheckLeds] writes at
    once. *)
Definition set_btns (p0 r0 p1 r1 : bool) (s : State) : State :=
  set_Btn1Released r1 (set_Btn1Pressed p1
    (set_Btn0Released r0 (set_Btn0Pressed p0 s))).

Definition set_leds (c m : list Z) (p : list bool) (o : option Z) (s : State)
  : State :=
  set_OutOfBounds o (set_LedPins p (set_ModeLedState m (set_ChnlLedState c s))).

(** [t] differs from [s] at most in what [CheckLeds] writes: the two LED
    tables, the LED pins and the record of an index out of bounds. *)
Definition leds_only (s t : State) : Prop :=
  exists c m p o, t = set_leds c m p o s.

(** The persisted part of the state. *)
Definition config (s : State) : list Z * list (list bool) * list (list Z) * bool :=
  (ChnlMode s, PatchChnlState s, PatchModeState s, PatchMode s).

(** Patch [k], one of 0..3, is the active one: the test
    [PatchActive == i] of [CheckLeds]. *)
Definition patch_is_active (s : State) (k : Z) : Prop :=
  0 <= k <= 3 /\ PatchActive s = k.

(** The button flags [loop] tests for its gestures. *)
Definition onoff_tap (s : State) : Prop :=
  Btn0Pressed s = true /\ Btn0Released s = true /\
  Btn1Pressed s = false /\ Btn1Released s = false.

Definition select_tap (s : State) : Prop :=
  Btn0Pressed s = false /\ Btn0Released s = false /\
  Btn1Pressed s = true /\ Btn1Released s = true.

Definition both_pressed (s : State) : Prop :=
  Btn0Pressed s = true /\ Btn0Released s = false /\
  Btn1Pressed s = true /\ Btn1Released s = false.

Definition select_held (s : State) : Prop :=
  Btn0Pressed s = false /\ Btn0Released s = false /\
  Btn1Pressed s = true /\ Btn1Released s = false.

(** The gesture of both buttons held, as [loop] tests it. *)
Definition both_held (s : State) : bool :=
  Btn0Pressed s && negb (Btn0Released s) && Btn1Pressed s && negb (Btn1Released s).

(** ** The taper mapper as the specification words it *)

(** Linear is the identity, InvLinear is [255 - raw], Log is the lookup
    curve [L], InvLog is [L[255 - raw]]; curves are numbered as the
    tapers are. *)
Definition TaperMapper (raw curve : Z) : Z :=
  if curve =? 0 then raw
  else if curve =? 1 then 255 - raw
  else if curve =? 2 then rd LogPot raw
  else rd LogPot (255 - raw).

(** The writes one pass owes the outputs: for each channel 0..3 that is
    enabled, in order, its mapped value. *)
Definition expected_writes (inputValue : Z) (enabled : list bool) (taper : list Z)
  : list (Z * Z) :=
  flat_map (fun i => if rd enabled i
                     then [(i, TaperMapper inputValue (rd taper i))]
                     else [])
           [0; 1; 2; 3].

(** The record [UpdateNvmData] builds, written out byte by byte. *)
Definition nvm_image (s : State) : list Z :=
  [ pack_ChnlMode (ChnlMode s);
    pack_states (rd (PatchChnlState s) 0); pack_modes (rd (PatchModeState s) 0);
    pack_states (rd (PatchChnlState s) 1); pack_modes (rd (PatchModeState s) 1);
    pack_states (rd (PatchChnlState s) 2); pack_modes (rd (PatchModeState s) 2);
    pack_states (rd (PatchChnlState s) 3); pack_modes (rd (PatchModeState s) 3);
    bool_to_byte (PatchMode s) ].

(** What [ReadNvmData] makes of one byte of the record. *)
Definition decoded_modes (b : Z) : list Z := map (mode_field b) [0; 1; 2; 3].
Definition decoded_states (b : Z) : list bool := map (state_bit b) [0; 1; 2; 3].

(** Bits [lo + width - 1 : lo] of a byte, as the layout of the record
    names them. *)
Definition bit_field (b lo width : Z) : Z := (b / 2 ^ lo) mod 2 ^ width.

(** Adjacent entries of the lookup table never decrease. *)
Definition LogPot_steps : bool :=
  forallb (fun i => rd LogPot i <=? rd LogPot (i + 1)) (seqZ 0 255).

(** A board for the examples: an EEPROM with tapers and patches stored,
    pedal at 400 and selector at 512 on reset, no button held. *)
Definition example_rom : list Z := [27; 5; 228; 10; 27; 0; 0; 15; 255; 0].
Definition example_state : State := setup example_rom 400 512 true true.

(** The example board in Normal mode with channel 0 on and linear, channel
    2 on and logarithmic, channels 1 and 3 off. *)
Definition example_normal : State :=
  set_ChnlState [true; false; true; false]
    (set_ChnlMode [0; 0; 2; 0] example_state).

(** A board that starts in Patch mode, after a tap on the On/Off button:
    one tick samples it LOW, the next HIGH. *)
Definition example_patch_rom : list Z := [27; 5; 228; 10; 27; 0; 0; 15; 255; 1].
Definition example_patch_tap : State :=
  IntTmr1 true true (IntTmr1 false true (setup example_patch_rom 400 0 true true)).

(** ** Scripted runs *)

(** What happens to the board, in order: a timer tick with the button
    levels it samples, or a pass of [loop] with what it reads. *)
Inductive Event : Type :=
| Tick (b0 b1 : bool)
| Pass (inp : PassInput).

Fixpoint run (evs : list Event) (s : State) : option State :=
  match evs with
  | [] => Some s
  | Tick b0 b1 :: evs' => run evs' (IntTmr1 b0 b1 s)
  | Pass inp :: evs' => s ← loop inp s; run evs' s
  end.

Definition event_ok (e : Event) : bool :=
  match e with
  | Tick _ _ => true
  | Pass inp => (0 <=? adcExp inp) && (adcExp inp <? 1024)
                && (0 <=? adcSel inp) && (adcSel inp <? 1024)
  end.

(** Gestures: a button is LOW while pressed.  A pass reads the pedal at
    400 and the selector at [sel], and sees both buttons HIGH should it
    wait for a release. *)
Definition tap_onoff : list Event := [Tick false true; Tick true true].
Definition tap_select : list Event := [Tick true false; Tick true true].
Definition press_select : list Event := [Tick true false].
Definition press_both : list Event := [Tick false false].
Definition hold_select (ticks : nat) : list Event := replicate ticks (Tick true false).
Definition idle (ticks : nat) : list Event := replicate ticks (Tick true true).
Definition pass (sel : Z) : Event := Pass (mkInput 400 sel [(true, true)]).

(** A board with channel tapers Linear, Linear, Log, Linear stored, started
    with the selector at 0. *)
Definition demo_rom : list Z := [32; 0; 0; 0; 0; 0; 0; 0; 0; 0].
Definition demo_boot : State := setup demo_rom 400 0 true true.

(** Channels 0 and 2 switched on. *)
Definition set_channels : list Event :=
  tap_onoff ++ [pass 0] ++ tap_select ++ [pass 0] ++ tap_select ++ [pass 0]
  ++ tap_onoff ++ [pass 0].

(** The select button held over four 500 ms windows (200 ticks), seen by
    a pass before and after: the long press. *)
Definition long_press (sel : Z) : list Event :=
  press_select ++ [pass sel] ++ hold_select 200 ++ [pass sel].

(** The select button let go after two windows. *)
Definition short_press (sel : Z) : list Event :=
  press_select ++ [pass sel] ++ hold_select 100 ++ [Tick true true; pass sel].

(** ** Definitions for the further properties *)

(** The configuration [ReadNvmData] makes of an EEPROM image. *)
Definition decode_config (rom : list Z)
  : list Z * list (list bool) * list (list Z) * bool :=
  (decoded_modes (rd rom 0),
   map (fun i => decoded_states (rd rom (1 + i * 2))) [0; 1; 2; 3],
   map (fun i => decoded_modes (rd rom (2 + i * 2))) [0; 1; 2; 3],
   byte_to_bool (rd rom 9)).

(** [t] has the EEPROM and the persisted variables of [s]. *)
Definition same_store (s t : State) : Prop :=
  Eeprom t = Eeprom s /\ config t = config s.

(** Timer ticks in a row, with the button levels each one samples. *)
Definition ticks (lv : list (bool * bool)) (s : State) : State :=
  foldl (fun acc l => IntTmr1 (fst l) (snd l) acc) s lv.

(** A pass either leaves the EEPROM and the persisted variables alone, or
    ends with the EEPROM holding their image. *)
Definition stored_or_same (s t : State) : Prop :=
  same_store s t \/ Eeprom t = nvm_image t.

(** Everything a timer tick can write: the two counters, the button
    flags and what [CheckLeds] writes. *)
Definition set_tick (tc smc : Z) (p0 r0 p1 r1 : bool) (c m : list Z)
    (p : list bool) (o : option Z) (s : State) : State :=
  set_leds c m p o
    (set_btns p0 r0 p1 r1 (set_SaveModeCounter smc (set_TimerCount tc s))).

(** The four button flags. *)
Definition btns (s : State) : bool * bool * bool * bool :=
  (Btn0Pressed s, Btn0Released s, Btn1Pressed s, Btn1Released s).

(** What one sample of an active-low button does to its two flags. *)
Definition latch (level : bool) (f : bool * bool) : bool * bool :=
  (fst f || negb level && negb (snd f), snd f || level && fst f).

(** No release is on record without its press. *)
Definition press_first (s : State) : Prop :=
  (Btn0Released s = true -> Btn0Pressed s = true) /\
  (Btn1Released s = true -> Btn1Pressed s = true).

(** What the timer interrupt leaves alone. *)
Definition beyond_tick (s : State) :=
  (config s, ChnlState s, SelIndex s, PatchActive s, SaveMode s,
   SvMdCntrActive s, SelValChng s, ExpVal s, SelVal s, PotLog s, Eeprom s).

(** The LED tables and the row of LED pins have the sizes of their
    declarations. *)
Definition panel_sized (s : State) : Prop :=
  length (ChnlLedState s) = 4%nat /\ length (ModeLedState s) = 4%nat /\
  length (LedPins s) = 8%nat.

(** The LED pins after every LED whose table entry is [k] has been
    toggled. *)
Definition blink_pins (k : Z) (s : State) : list bool :=
  map (fun i => if rd (ChnlLedState s) i =? k
                then negb (rd (LedPins s) i) else rd (LedPins s) i) [0; 1; 2; 3] ++
  map (fun i => if rd (ModeLedState s) i =? k
                then negb (rd (LedPins s) (i + 4)) else rd (LedPins s) (i + 4))
      [0; 1; 2; 3].

(** [digitalWrite(pin, !digitalRead(pin))] under a test, on the pin row. *)
Definition toggle_if (t : bool) (i : Z) (p : list bool) : list bool :=
  if t then wr p i (negb (rd p i)) else p.

(** The selector stands elsewhere than at the last reading, or an earlier
    move is still to be handled. *)
Definition selector_moved (inp : PassInput) (s : State) : Prop :=
  SelValChng s = true \/ byte (Z.shiftr (word (adcSel inp)) 8) <> LastSelVal s.

(** The select button is down and its release has not been seen. *)
Definition select_down (s : State) : Prop :=
  Btn1Pressed s = true /\ Btn1Released s = false.

(** Patch mode with no patch active: [PatchActive] holds the sentinel. *)
Definition patchless (s : State) : Prop :=
  PatchMode s = true /\ PatchActive s = 255.

(** ** Further example states *)

(** The demo board after a tap on the On/Off button, after a tap on the
    select button, and with the select button held past the long-press
    threshold. *)
Definition example_onoff_tap : State :=
  IntTmr1 true true (IntTmr1 false true demo_boot).
Definition example_select_tap : State :=
  IntTmr1 true true (IntTmr1 true false demo_boot).
Definition example_held : State :=
  set_SaveModeCounter 4 (set_SvMdCntrActive true (IntTmr1 true false demo_boot)).

(** The example board in Save mode, and the Patch-mode board with patch 1
    active. *)
Definition example_save : State := set_SaveMode true example_normal.
Definition example_patch : State :=
  set_PatchActive 1 (setup example_patch_rom 400 0 true true).

(** * Proofs *)

(** ** Loops and arrays *)

Lemma for_upto_4 {St} (body : Z -> St -> St) s :
  for_upto 4 body s = body 3 (body 2 (body 1 (body 0 s))).
Proof. reflexivity. Qed.

(** A property kept by every iteration is kept by the loop. *)
Lemma for_upto_ind {St} (P : St -> Prop) n (body : Z -> St -> St) s :
  (forall i t, 0 <= i < n -> P t -> P (body i t)) -> P s -> P (for_upto n body s).
Proof.
  unfold for_upto. intros Hbody.
  assert (Hin : forall i, i ∈ seqZ 0 n -> 0 <= i < n).
  { intros i Hi. apply elem_of_seqZ in Hi. lia. }
  revert s Hin. generalize (seqZ 0 n) as l.
  induction l as [|i l IH]; intros s Hin Hs; simpl; [exact Hs|].
  apply IH.
  - intros j Hj. apply Hin. now right.
  - apply Hbody; [apply Hin; now left | exact Hs].
Qed.

Lemma length_4_inv {A} (l : list A) :
  length l = 4%nat -> exists a b c d, l = [a; b; c; d].
Proof.
  destruct l as [|a [|b [|c [|d [|e l]]]]]; try discriminate. intros _. eauto.
Qed.

Lemma length_10_inv {A} (l : list A) :
  length l = 10%nat ->
  exists a0 a1 a2 a3 a4 a5 a6 a7 a8 a9,
    l = [a0; a1; a2; a3; a4; a5; a6; a7; a8; a9].
Proof.
  destruct l as [|a0 [|a1 [|a2 [|a3 [|a4 [|a5 [|a6 [|a7 [|a8 [|a9 [|e l]]]]]]]]]]];
    try discriminate.
  intros _. do 10 eexists. reflexivity.
Qed.

Lemma rows_4_inv {A} (l : list (list A)) :
  length l = 4%nat -> Forall (fun row => length row = 4%nat) l ->
  exists a0 a1 a2 a3 b0 b1 b2 b3 c0 c1 c2 c3 d0 d1 d2 d3,
    l = [[a0; a1; a2; a3]; [b0; b1; b2; b3]; [c0; c1; c2; c3]; [d0; d1; d2; d3]].
Proof.
  intros Hl Hrows. destruct (length_4_inv _ Hl) as (a & b & c & d & ->).
  inversion_clear Hrows as [|? ? Ha H1]. inversion_clear H1 as [|? ? Hb H2].
  inversion_clear H2 as [|? ? Hc H3]. inversion_clear H3 as [|? ? Hd _].
  destruct (length_4_inv _ Ha) as (? & ? & ? & ? & ->).
  destruct (length_4_inv _ Hb) as (? & ? & ? & ? & ->).
  destruct (length_4_inv _ Hc) as (? & ? & ? & ? & ->).
  destruct (length_4_inv _ Hd) as (? & ? & ? & ? & ->).
  do 16 eexists. reflexivity.
Qed.

(** Names for the fields of a state taken apart. *)
Ltac destruct_state s :=
  destruct s as [eV sV pms pcs pa cs cm si tc smc nvm b0p b0r b1p b1r svc lsv
                 pm sm sca cls mls ee lp pl oob].

(** Reduce field selections wherever they meet a constructor. *)
Ltac fields :=
  cbn [ExpVal SelVal PatchModeState PatchChnlState PatchActive ChnlState
       ChnlMode SelIndex TimerCount SaveModeCounter NvmData Btn0Pressed
       Btn0Released Btn1Pressed Btn1Released SelValChng LastSelVal PatchMode
       SaveMode SvMdCntrActive ChnlLedState ModeLedState Eeprom LedPins
       PotLog OutOfBounds] in *.

(** Replace every array of known size by its elements. *)
Ltac shapes :=
  repeat match goal with
  | H : sized _ |- _ => destruct H; fields
  | H : length ?l = 4%nat, H' : Forall (fun row => length row = 4%nat) ?l |- _ =>
      destruct (rows_4_inv l H H')
        as (?&?&?&?&?&?&?&?&?&?&?&?&?&?&?&?&?); clear H H'; subst l
  | H : length ?l = 4%nat |- _ =>
      destruct (length_4_inv l H) as (?&?&?&?&?); clear H; subst l
  | H : length ?l = 10%nat |- _ =>
      destruct (length_10_inv l H) as (?&?&?&?&?&?&?&?&?&?&?); clear H; subst l
  end.

(** Reduce setters and field selections wherever they meet. *)
Ltac sets :=
  cbn [set_ExpVal set_SelVal set_PatchModeState set_PatchChnlState
       set_PatchActive set_ChnlState set_ChnlMode set_SelIndex set_TimerCount
       set_SaveModeCounter set_NvmData set_Btn0Pressed set_Btn0Released
       set_Btn1Pressed set_Btn1Released set_SelValChng set_LastSelVal
       set_PatchMode set_SaveMode set_SvMdCntrActive set_ChnlLedState
       set_ModeLedState set_Eeprom set_LedPins set_PotLog set_OutOfBounds
       ExpVal SelVal PatchModeState PatchChnlState PatchActive ChnlState
       ChnlMode SelIndex TimerCount SaveModeCounter NvmData Btn0Pressed
       Btn0Released Btn1Pressed Btn1Released SelValChng LastSelVal PatchMode
       SaveMode SvMdCntrActive ChnlLedState ModeLedState Eeprom LedPins
       PotLog OutOfBounds] in *.

(** Run straight-line code on a state whose arrays are written out.  Only
    index arithmetic on literals is unfolded. *)
Ltac run_arrays :=
  cbv [ReadNvmData UpdateNvmData DigPotsInit WritePotSPI nvm_image
       decoded_modes decoded_states config setup power_on CheckBtns save_copy
       for_upto foldl seqZ fmap list_fmap seq replicate
       Z.to_nat Pos.to_nat Pos.iter_op Init.Nat.add Z.of_nat Pos.of_succ_nat
       Pos.succ Z.add Z.mul Pos.add Pos.mul Z.leb Z.compare Pos.compare
       Pos.compare_cont andb negb app
       rd wr wr2 lookup_total list_lookup_total insert list_insert
       alter list_alter map
       set_ExpVal set_SelVal set_PatchModeState set_PatchChnlState
       set_PatchActive set_ChnlState set_ChnlMode set_SelIndex set_TimerCount
       set_SaveModeCounter set_NvmData set_Btn0Pressed set_Btn0Released
       set_Btn1Pressed set_Btn1Released set_SelValChng set_LastSelVal
       set_PatchMode set_SaveMode set_SvMdCntrActive set_ChnlLedState
       set_ModeLedState set_Eeprom set_LedPins set_PotLog set_OutOfBounds
       ExpVal SelVal PatchModeState PatchChnlState PatchActive ChnlState
       ChnlMode SelIndex TimerCount SaveModeCounter NvmData Btn0Pressed
       Btn0Released Btn1Pressed Btn1Released SelValChng LastSelVal PatchMode
       SaveMode SvMdCntrActive ChnlLedState ModeLedState Eeprom LedPins
       PotLog OutOfBounds].
(** ** The EEPROM record *)

Lemma taper_cases m : taper_ok m -> m = 0 \/ m = 1 \/ m = 2 \/ m = 3.
Proof. unfold taper_ok. lia. Qed.

Lemma land_3_mod x : Z.land x 3 = x mod 4.
Proof. exact (Z.land_ones x 2 ltac:(lia)). Qed.

Lemma land_1_mod x : Z.land x 1 = x mod 2.
Proof. exact (Z.land_ones x 1 ltac:(lia)). Qed.

Lemma mode_field_range b i : taper_ok (mode_field b i).
Proof.
  unfold taper_ok, mode_field. rewrite land_3_mod.
  pose proof (Z.mod_pos_bound (Z.shiftr b (i * 2)) 4). lia.
Qed.

Lemma state_bit_testbit b j : state_bit b j = Z.testbit b j.
Proof.
  unfold state_bit, byte_to_bool.
  rewrite Z.testbit_odd, land_1_mod, Zmod_odd. now destruct (Z.odd (Z.shiftr b j)).
Qed.

Lemma ReadNvmData_eq s :
  sized s ->
  ReadNvmData s =
  set_PatchMode (byte_to_bool (rd (Eeprom s) 9))
    (set_PatchModeState
       (map (fun i => decoded_modes (rd (Eeprom s) (2 + i * 2))) [0; 1; 2; 3])
       (set_PatchChnlState
          (map (fun i => decoded_states (rd (Eeprom s) (1 + i * 2))) [0; 1; 2; 3])
          (set_ChnlMode (decoded_modes (rd (Eeprom s) 0))
             (set_NvmData (Eeprom s) s)))).
Proof. intros Hs. destruct_state s. shapes. run_arrays. reflexivity. Qed.

Lemma UpdateNvmData_eq s :
  sized s ->
  UpdateNvmData s = set_Eeprom (nvm_image s) (set_NvmData (nvm_image s) s).
Proof. intros Hs. destruct_state s. shapes. run_arrays. reflexivity. Qed.

(** One byte of four tapers: the one-line packing and the [helper] loop
    agree, and unpacking gives the tapers back. *)
Lemma pack_modes_fields a b c d :
  taper_ok a -> taper_ok b -> taper_ok c -> taper_ok d ->
  pack_modes [a; b; c; d] = a + 4 * b + 16 * c + 64 * d /\
  pack_ChnlMode [a; b; c; d] = a + 4 * b + 16 * c + 64 * d /\
  decoded_modes (a + 4 * b + 16 * c + 64 * d) = [a; b; c; d].
Proof.
  intros Ha Hb Hc Hd.
  destruct (taper_cases a Ha) as [->|[->|[->| ->]]];
  destruct (taper_cases b Hb) as [->|[->|[->| ->]]];
  destruct (taper_cases c Hc) as [->|[->|[->| ->]]];
  destruct (taper_cases d Hd) as [->|[->|[->| ->]]];
  vm_compute; repeat split.
Qed.

Lemma pack_states_fields (a b c d : bool) :
  pack_states [a; b; c; d] =
    bool_to_byte a + 2 * bool_to_byte b + 4 * bool_to_byte c + 8 * bool_to_byte d /\
  decoded_states (pack_states [a; b; c; d]) = [a; b; c; d].
Proof. destruct a, b, c, d; vm_compute; repeat split. Qed.

Lemma byte_to_bool_to_byte b : byte_to_bool (bool_to_byte b) = b.
Proof. now destruct b. Qed.

Lemma index_cases i : 0 <= i <= 3 -> i = 0 \/ i = 1 \/ i = 2 \/ i = 3.
Proof. lia. Qed.

Lemma rd_Forall {A} `{Inhabited A} (P : A -> Prop) (l : list A) i :
  Forall P l -> 0 <= i < Z.of_nat (length l) -> P (rd l i).
Proof.
  intros Hl Hi. unfold rd.
  destruct (lookup_lt_is_Some_2 l (Z.to_nat i)) as [x Hx]; [lia|].
  rewrite (list_lookup_total_correct _ _ _ Hx).
  eapply Forall_lookup_1; eauto.
Qed.

Lemma pack_modes_layout row :
  length row = 4%nat -> Forall taper_ok row ->
  pack_ChnlMode row = pack_modes row /\
  0 <= pack_modes row <= 255 /\
  decoded_modes (pack_modes row) = row /\
  forall j, 0 <= j <= 3 -> bit_field (pack_modes row) (2 * j) 2 = rd row j.
Proof.
  intros Hlen Hrow. destruct (length_4_inv _ Hlen) as (a & b & c & d & ->).
  apply Forall_cons in Hrow as [Ha Hrow]. apply Forall_cons in Hrow as [Hb Hrow].
  apply Forall_cons in Hrow as [Hc Hrow]. apply Forall_cons in Hrow as [Hd _].
  assert (forall j, 0 <= j <= 3 -> j = 0 \/ j = 1 \/ j = 2 \/ j = 3) as Hj by lia.
  destruct (taper_cases a Ha) as [->|[->|[->| ->]]];
  destruct (taper_cases b Hb) as [->|[->|[->| ->]]];
  destruct (taper_cases c Hc) as [->|[->|[->| ->]]];
  destruct (taper_cases d Hd) as [->|[->|[->| ->]]];
  (split; [reflexivity|]; split; [vm_compute; intuition discriminate|];
   split; [reflexivity|];
   intros j Hj'; destruct (Hj j Hj') as [->|[->|[->| ->]]]; reflexivity).
Qed.

Lemma pack_states_layout (row : list bool) :
  length row = 4%nat ->
  0 <= pack_states row <= 255 /\
  decoded_states (pack_states row) = row /\
  bit_field (pack_states row) 4 4 = 0 /\
  forall j, 0 <= j <= 3 ->
    bit_field (pack_states row) j 1 = bool_to_byte (rd row j).
Proof.
  intros Hlen. destruct (length_4_inv _ Hlen) as (a & b & c & d & ->).
  assert (forall j, 0 <= j <= 3 -> j = 0 \/ j = 1 \/ j = 2 \/ j = 3) as Hj by lia.
  destruct a, b, c, d;
  (split; [vm_compute; intuition discriminate|]; split; [reflexivity|];
   split; [reflexivity|];
   intros j Hj'; destruct (Hj j Hj') as [->|[->|[->| ->]]]; reflexivity).
Qed.

(** The rows of the patch tables of a valid state. *)
Lemma valid_patch_rows s i :
  valid s -> 0 <= i <= 3 ->
  length (rd (PatchChnlState s) i) = 4%nat /\
  length (rd (PatchModeState s) i) = 4%nat /\
  Forall taper_ok (rd (PatchModeState s) i).
Proof.
  intros [Hsz _ Hpm _ _ _ _ _] Hi. destruct Hsz.
  repeat split.
  - apply (rd_Forall (fun row => length row = 4%nat)); [assumption|lia].
  - apply (rd_Forall (fun row => length row = 4%nat)); [assumption|lia].
  - apply (rd_Forall (Forall taper_ok)); [assumption|lia].
Qed.

(** C3. The encoder writes the fixed ten-byte record: byte 0 packs the four
    channel tapers two bits each from bit 0 up, byte [1 + 2i] carries
    patch [i]'s enabled flags in bits 0..3 and nothing above, byte
    [2 + 2i] packs patch [i]'s tapers like byte 0, and byte 9 is 1 in
    Patch mode and 0 otherwise, so Save is stored as 0 like Normal.  The
    record is also what ends up in the EEPROM. *)
Theorem record_layout s :
  valid s ->
  let img := NvmData (UpdateNvmData s) in
  Eeprom (UpdateNvmData s) = img /\
  length img = 10%nat /\
  Forall (fun b => 0 <= b <= 255) img /\
  (forall j, 0 <= j <= 3 ->
     bit_field (rd img 0) (2 * j) 2 = rd (ChnlMode s) j) /\
  (forall i j, 0 <= i <= 3 -> 0 <= j <= 3 ->
     bit_field (rd img (1 + 2 * i)) j 1
       = bool_to_byte (rd (rd (PatchChnlState s) i) j) /\
     bit_field (rd img (1 + 2 * i)) 4 4 = 0 /\
     bit_field (rd img (2 + 2 * i)) (2 * j) 2
       = rd (rd (PatchModeState s) i) j) /\
  rd img 9 = (if PatchMode s then 1 else 0) /\
  (rd img 9 = 0 <-> op_mode s <> Patch).
Proof.
  intros Hv. cbv zeta.
  rewrite (UpdateNvmData_eq s (v_sized s Hv)). sets.
  pose proof (valid_patch_rows s 0 Hv ltac:(lia)) as (S0 & L0 & T0).
  pose proof (valid_patch_rows s 1 Hv ltac:(lia)) as (S1 & L1 & T1).
  pose proof (valid_patch_rows s 2 Hv ltac:(lia)) as (S2 & L2 & T2).
  pose proof (valid_patch_rows s 3 Hv ltac:(lia)) as (S3 & L3 & T3).
  pose proof (pack_modes_layout _ (sz_ChnlMode s (v_sized s Hv)) (v_ChnlMode s Hv))
    as (Ec & Rc & _ & Bc).
  destruct (pack_modes_layout _ L0 T0) as (_ & R0 & _ & B0).
  destruct (pack_modes_layout _ L1 T1) as (_ & R1 & _ & B1).
  destruct (pack_modes_layout _ L2 T2) as (_ & R2 & _ & B2).
  destruct (pack_modes_layout _ L3 T3) as (_ & R3 & _ & B3).
  destruct (pack_states_layout _ S0) as (Q0 & _ & Z0 & C0).
  destruct (pack_states_layout _ S1) as (Q1 & _ & Z1 & C1).
  destruct (pack_states_layout _ S2) as (Q2 & _ & Z2 & C2).
  destruct (pack_states_layout _ S3) as (Q3 & _ & Z3 & C3).
  split; [reflexivity|]. split; [reflexivity|].
  split.
  { unfold nvm_image. rewrite Ec. repeat constructor; try lia.
    all: destruct (PatchMode s); simpl; lia. }
  split.
  { intros j Hj. change (rd (nvm_image s) 0) with (pack_ChnlMode (ChnlMode s)).
    rewrite Ec. now apply Bc. }
  split.
  { intros i j Hi Hj.
    destruct (index_cases i Hi) as [->|[->|[->| ->]]]; cbn [Z.mul Z.add Pos.mul Pos.add].
    - change (rd (nvm_image s) 1) with (pack_states (rd (PatchChnlState s) 0)).
      change (rd (nvm_image s) 2) with (pack_modes (rd (PatchModeState s) 0)). auto.
    - change (rd (nvm_image s) 3) with (pack_states (rd (PatchChnlState s) 1)).
      change (rd (nvm_image s) 4) with (pack_modes (rd (PatchModeState s) 1)). auto.
    - change (rd (nvm_image s) 5) with (pack_states (rd (PatchChnlState s) 2)).
      change (rd (nvm_image s) 6) with (pack_modes (rd (PatchModeState s) 2)). auto.
    - change (rd (nvm_image s) 7) with (pack_states (rd (PatchChnlState s) 3)).
      change (rd (nvm_image s) 8) with (pack_modes (rd (PatchModeState s) 3)). auto. }
  change (rd (nvm_image s) 9) with (bool_to_byte (PatchMode s)).
  unfold op_mode. destruct (PatchMode s), (SaveMode s); simpl; intuition congruence.
Qed.

Lemma valid_example : valid example_state.
Proof.
  let v := eval vm_compute in example_state in
  assert (E : example_state = v) by (vm_compute; reflexivity).
  rewrite E. repeat constructor; cbn; lia.
Qed.

Lemma sized_UpdateNvmData_example : sized (UpdateNvmData example_state).
Proof.
  let v := eval vm_compute in (UpdateNvmData example_state) in
  assert (E : UpdateNvmData example_state = v) by (vm_compute; reflexivity).
  rewrite E. repeat constructor.
Qed.

Lemma record_layout_witness :
  valid example_state /\
  Eeprom (UpdateNvmData example_state) = example_rom /\
  rd (NvmData (UpdateNvmData example_state)) 9 = 0.
Proof.
  split; [exact valid_example|].
  destruct (record_layout example_state valid_example) as (_ & _ & _ & _ & _ & H9 & _).
  split; [reflexivity | exact H9].
Defined.

(** C2. Decoding the record that encodes a valid state gives the
    persisted part of that state back, on any board [t] (arrays of the
    declared sizes) whose EEPROM holds the record; outside Save mode the
    operating mode is the same after a restart, where [SaveMode] is
    false. *)
Theorem decode_encode s t :
  valid s -> sized t -> Eeprom t = Eeprom (UpdateNvmData s) ->
  config (ReadNvmData t) = config s /\
  (SaveMode t = false -> op_mode s <> Save ->
   op_mode (ReadNvmData t) = op_mode s).
Proof.
  intros Hv Ht He.
  rewrite (ReadNvmData_eq t Ht), He, (UpdateNvmData_eq s (v_sized s Hv)).
  unfold config, op_mode. sets.
  pose proof (valid_patch_rows s 0 Hv ltac:(lia)) as (S0 & L0 & T0).
  pose proof (valid_patch_rows s 1 Hv ltac:(lia)) as (S1 & L1 & T1).
  pose proof (valid_patch_rows s 2 Hv ltac:(lia)) as (S2 & L2 & T2).
  pose proof (valid_patch_rows s 3 Hv ltac:(lia)) as (S3 & L3 & T3).
  pose proof (pack_modes_layout _ (sz_ChnlMode s (v_sized s Hv)) (v_ChnlMode s Hv))
    as (Ec & _ & Dc & _).
  destruct (pack_modes_layout _ L0 T0) as (_ & _ & D0 & _).
  destruct (pack_modes_layout _ L1 T1) as (_ & _ & D1 & _).
  destruct (pack_modes_layout _ L2 T2) as (_ & _ & D2 & _).
  destruct (pack_modes_layout _ L3 T3) as (_ & _ & D3 & _).
  destruct (pack_states_layout _ S0) as (_ & E0 & _).
  destruct (pack_states_layout _ S1) as (_ & E1 & _).
  destruct (pack_states_layout _ S2) as (_ & E2 & _).
  destruct (pack_states_layout _ S3) as (_ & E3 & _).
  change (rd (nvm_image s) 9) with (bool_to_byte (PatchMode s)).
  change (rd (nvm_image s) 0) with (pack_ChnlMode (ChnlMode s)).
  cbn [map].
  change (rd (nvm_image s) (1 + 0 * 2)) with (pack_states (rd (PatchChnlState s) 0)).
  change (rd (nvm_image s) (2 + 0 * 2)) with (pack_modes (rd (PatchModeState s) 0)).
  change (rd (nvm_image s) (1 + 1 * 2)) with (pack_states (rd (PatchChnlState s) 1)).
  change (rd (nvm_image s) (2 + 1 * 2)) with (pack_modes (rd (PatchModeState s) 1)).
  change (rd (nvm_image s) (1 + 2 * 2)) with (pack_states (rd (PatchChnlState s) 2)).
  change (rd (nvm_image s) (2 + 2 * 2)) with (pack_modes (rd (PatchModeState s) 2)).
  change (rd (nvm_image s) (1 + 3 * 2)) with (pack_states (rd (PatchChnlState s) 3)).
  change (rd (nvm_image s) (2 + 3 * 2)) with (pack_modes (rd (PatchModeState s) 3)).
  rewrite Ec, Dc, D0, D1, D2, D3, E0, E1, E2, E3, byte_to_bool_to_byte.
  split.
  - destruct Hv as [[] _ _ _ _ _ _ _].
    destruct (rows_4_inv (PatchModeState s)) as (?&?&?&?&?&?&?&?&?&?&?&?&?&?&?&?&->); try assumption.
    destruct (rows_4_inv (PatchChnlState s)) as (?&?&?&?&?&?&?&?&?&?&?&?&?&?&?&?&->); try assumption.
    reflexivity.
  - intros Hsm Hns. rewrite Hsm.
    destruct (PatchMode s), (SaveMode s); simpl in *; congruence.
Qed.


Lemma decode_encode_witness :
  valid example_state /\
  config (ReadNvmData (UpdateNvmData example_state)) = config example_state.
Proof.
  split; [exact valid_example|].
  apply (decode_encode example_state (UpdateNvmData example_state) valid_example).
  - exact sized_UpdateNvmData_example.
  - reflexivity.
Defined.

(** ** The taper mapper *)

Lemma LogPot_step i : 0 <= i < 255 -> rd LogPot i <= rd LogPot (i + 1).
Proof.
  intros Hi.
  assert (H : LogPot_steps = true) by (vm_compute; reflexivity).
  unfold LogPot_steps in H. rewrite forallb_forall in H.
  apply Z.leb_le, H. apply list_elem_of_In, elem_of_seqZ. lia.
Qed.

Lemma LogPot_mono i j : 0 <= i <= j -> j <= 255 -> rd LogPot i <= rd LogPot j.
Proof.
  intros [Hi Hij] Hj.
  replace j with (i + Z.of_nat (Z.to_nat (j - i))) in * by lia.
  induction (Z.to_nat (j - i)) as [|k IH].
  - rewrite Z.add_0_r. lia.
  - etransitivity; [apply IH; lia|].
    replace (i + Z.of_nat (S k)) with (i + Z.of_nat k + 1) by lia.
    apply LogPot_step. lia.
Qed.

Lemma LogPot_ends : rd LogPot 0 = 0 /\ rd LogPot 255 = 255.
Proof. split; reflexivity. Qed.

Lemma LogPot_range i : 0 <= i <= 255 -> 0 <= rd LogPot i <= 255.
Proof.
  intros Hi. destruct LogPot_ends as [H0 H255].
  pose proof (LogPot_mono 0 i) as Hlo. pose proof (LogPot_mono i 255) as Hhi.
  lia.
Qed.

(** The [switch] of [loop] computes the mapper of the specification, and
    a byte. *)
Lemma taper_value_TaperMapper mode raw :
  taper_ok mode -> 0 <= raw <= 255 ->
  taper_value mode raw = Some (TaperMapper raw mode) /\
  0 <= TaperMapper raw mode <= 255.
Proof.
  intros Hm Hr. pose proof (LogPot_range raw). pose proof (LogPot_range (255 - raw)).
  destruct (taper_cases mode Hm) as [->|[->|[->| ->]]];
    cbn [taper_value TaperMapper Z.eqb Pos.eqb]; (split; [reflexivity|lia]).
Qed.

(** C8. Over the bytes, the linear taper is the identity, the inverse
    linear taper is 255 minus the linear one, the inverse log taper is the
    log taper of [255 - raw], and the lookup table never decreases, from 0
    at 0 to 255 at 255. *)
Theorem taper_mapper_laws raw i j :
  0 <= raw <= 255 -> 0 <= i <= j -> j <= 255 ->
  taper_value 0 raw = Some raw /\
  taper_value 1 raw = (fun lin => 255 - lin) <$> taper_value 0 raw /\
  taper_value 3 raw = taper_value 2 (255 - raw) /\
  rd LogPot i <= rd LogPot j /\
  rd LogPot 0 = 0 /\ rd LogPot 255 = 255.
Proof.
  intros Hraw Hij Hj. repeat split.
  now apply LogPot_mono.
Qed.

Lemma taper_mapper_laws_witness :
  taper_value 1 100 = (fun lin => 255 - lin) <$> taper_value 0 100 /\
  taper_value 3 100 = taper_value 2 155 /\
  rd LogPot 10 <= rd LogPot 200.
Proof.
  destruct (taper_mapper_laws 100 10 200) as (_ & H1 & H3 & Hm & _); [lia..|].
  split; [exact H1|]. split; [exact H3 | exact Hm].
Defined.

(** ** Start-up *)

(** C10. Whatever ten bytes the EEPROM holds, start-up leaves four channel
    tapers and four by four patch tapers all within 0..3, every patch
    enabled flag equal to one bit of its byte, and the mode Normal for a
    zero mode byte and Patch for any other. *)
Theorem startup_decode_in_range rom adcE adcS b0 b1 :
  length rom = 10%nat ->
  let s := setup rom adcE adcS b0 b1 in
  length (ChnlMode s) = 4%nat /\ Forall taper_ok (ChnlMode s) /\
  length (PatchModeState s) = 4%nat /\
  Forall (fun row => length row = 4%nat /\ Forall taper_ok row) (PatchModeState s) /\
  PatchChnlState s
    = map (fun i => map (Z.testbit (rd rom (1 + i * 2))) [0; 1; 2; 3]) [0; 1; 2; 3] /\
  op_mode s = (if rd rom 9 =? 0 then Normal else Patch).
Proof.
  intros Hrom. destruct (length_10_inv _ Hrom) as (r0&r1&r2&r3&r4&r5&r6&r7&r8&r9&->).
  cbv zeta. destruct b0, b1; run_arrays; unfold op_mode; sets;
    rewrite <- !state_bit_testbit;
    repeat match goal with
           | |- Forall _ _ => constructor
           | |- _ /\ _ => split
           | |- taper_ok (mode_field _ _) => apply mode_field_range
           | |- _ = _ => reflexivity
           end;
    unfold byte_to_bool; now destruct (r9 =? 0).
Qed.

Lemma startup_decode_in_range_witness :
  length example_rom = 10%nat /\
  Forall taper_ok (ChnlMode example_state) /\
  op_mode example_state = Normal.
Proof.
  split; [reflexivity|].
  destruct (startup_decode_in_range example_rom 400 512 true true)
    as (_ & Hc & _ & _ & _ & Hm); [reflexivity|].
  split; [exact Hc | exact Hm].
Defined.

(** ** What each routine leaves alone *)

Lemma set_btns_same s :
  s = set_btns (Btn0Pressed s) (Btn0Released s) (Btn1Pressed s) (Btn1Released s) s.
Proof. now destruct_state s. Qed.

Lemma set_btns_twice p0 r0 p1 r1 q0 t0 q1 t1 s :
  set_btns p0 r0 p1 r1 (set_btns q0 t0 q1 t1 s) = set_btns p0 r0 p1 r1 s.
Proof. reflexivity. Qed.

Lemma CheckBtns_btns b0 b1 s :
  exists p0 r0 r1,
    CheckBtns b0 b1 s
    = set_btns p0 r0 (Btn1Pressed s || negb b1 && negb (Btn1Released s)) r1 s /\
    (Btn1Pressed s = true -> b1 = true -> r1 = true).
Proof.
  destruct_state s.
  destruct b0, b1, b0p, b0r, b1p, b1r; vm_compute;
    do 3 eexists; (split; [reflexivity | try reflexivity; intros; congruence]).
Qed.

Lemma wait_any_release_btns lv s t :
  wait_any_release lv s = Some t ->
  exists p0 r0 p1 r1, t = set_btns p0 r0 p1 r1 s.
Proof.
  revert s. induction lv as [|[b0 b1] lv IH]; intros s; simpl.
  - destruct (negb (Btn0Released s) && negb (Btn1Released s)); [discriminate|].
    intros [= <-]. do 4 eexists. apply set_btns_same.
  - destruct (negb (Btn0Released s) && negb (Btn1Released s)).
    + intros H. destruct (IH _ H) as (p0 & r0 & p1 & r1 & ->).
      destruct (CheckBtns_btns b0 b1 s) as (q0 & t0 & t1 & -> & _).
      do 4 eexists. apply set_btns_twice.
    + intros [= <-]. do 4 eexists. apply set_btns_same.
Qed.

Lemma wait_Btn1_release_btns lv s t :
  wait_Btn1_release lv s = Some t ->
  exists p0 r0 p1 r1, t = set_btns p0 r0 p1 r1 s.
Proof.
  revert s. induction lv as [|[b0 b1] lv IH]; intros s; simpl.
  - destruct (negb (Btn1Released s)); [discriminate|].
    intros [= <-]. do 4 eexists. apply set_btns_same.
  - destruct (negb (Btn1Released s)).
    + intros H. destruct (IH _ H) as (p0 & r0 & p1 & r1 & ->).
      destruct (CheckBtns_btns b0 b1 s) as (q0 & t0 & t1 & -> & _).
      do 4 eexists. apply set_btns_twice.
    + intros [= <-]. do 4 eexists. apply set_btns_same.
Qed.

(** With the select button latched as pressed, a HIGH level ends both
    waits. *)
Lemma wait_Btn1_release_total lv s :
  Btn1Pressed s = true -> release_seen lv -> is_Some (wait_Btn1_release lv s).
Proof.
  intros Hp Hlv. revert s Hp.
  induction Hlv as [[b0 b1] lv Hb|[b0 b1] lv _ IH]; intros s Hp; simpl.
  - destruct (negb (Btn1Released s)) eqn:Hr; [|eauto].
    simpl in Hb. subst b1.
    destruct (CheckBtns_btns b0 true s) as (p0 & r0 & r1 & -> & Hr1).
    rewrite (Hr1 Hp eq_refl).
    destruct lv as [|[? ?] ?]; simpl; eauto.
  - destruct (negb (Btn1Released s)); [|eauto].
    apply IH. destruct (CheckBtns_btns b0 b1 s) as (p0 & r0 & r1 & -> & _).
    simpl. now rewrite Hp.
Qed.

Lemma wait_any_release_total lv s :
  Btn1Pressed s = true -> release_seen lv -> is_Some (wait_any_release lv s).
Proof.
  intros Hp Hlv. revert s Hp.
  induction Hlv as [[b0 b1] lv Hb|[b0 b1] lv _ IH]; intros s Hp; simpl.
  - destruct (negb (Btn0Released s) && negb (Btn1Released s)) eqn:Hr; [|eauto].
    simpl in Hb. subst b1.
    destruct (CheckBtns_btns b0 true s) as (p0 & r0 & r1 & -> & Hr1).
    rewrite (Hr1 Hp eq_refl).
    destruct lv as [|[? ?] ?]; simpl; rewrite andb_false_r; eauto.
  - destruct (negb (Btn0Released s) && negb (Btn1Released s)); [|eauto].
    apply IH. destruct (CheckBtns_btns b0 b1 s) as (p0 & r0 & r1 & -> & _).
    simpl. now rewrite Hp.
Qed.

Lemma leds_only_refl s : leds_only s s.
Proof.
  exists (ChnlLedState s), (ModeLedState s), (LedPins s), (OutOfBounds s).
  now destruct_state s.
Qed.

Lemma leds_only_step s t u : leds_only s t -> leds_only t u -> leds_only s u.
Proof. intros (c & m & p & o & ->) (c' & m' & p' & o' & ->). now exists c', m', p', o'. Qed.

Lemma leds_only_ChnlLedState s v : leds_only s (set_ChnlLedState v s).
Proof.
  exists v, (ModeLedState s), (LedPins s), (OutOfBounds s). now destruct_state s.
Qed.

Lemma leds_only_ModeLedState s v : leds_only s (set_ModeLedState v s).
Proof.
  exists (ChnlLedState s), v, (LedPins s), (OutOfBounds s). now destruct_state s.
Qed.

Lemma leds_only_LedPins s v : leds_only s (set_LedPins v s).
Proof.
  exists (ChnlLedState s), (ModeLedState s), v, (OutOfBounds s). now destruct_state s.
Qed.

Lemma leds_only_chk s n i : leds_only s (chk n i s).
Proof.
  unfold chk. destruct (_ && _); [apply leds_only_refl|].
  exists (ChnlLedState s), (ModeLedState s), (LedPins s), (Some i). now destruct_state s.
Qed.

(** Follow a routine through its branches, one write at a time. *)
Ltac leds_steps :=
  repeat match goal with
  | |- leds_only _ (if ?c then _ else _) => destruct c
  | |- leds_only ?s ?s => apply leds_only_refl
  | |- leds_only ?s (set_ChnlLedState ?v ?t) =>
      apply (leds_only_step s t); [|apply leds_only_ChnlLedState]
  | |- leds_only ?s (set_ModeLedState ?v ?t) =>
      apply (leds_only_step s t); [|apply leds_only_ModeLedState]
  | |- leds_only ?s (set_LedPins ?v ?t) =>
      apply (leds_only_step s t); [|apply leds_only_LedPins]
  | |- leds_only ?s (chk ?n ?i ?t) =>
      apply (leds_only_step s t); [|apply leds_only_chk]
  end.

Lemma CheckLeds_leds_only s : leds_only s (CheckLeds s).
Proof.
  unfold CheckLeds.
  apply for_upto_ind.
  - intros i t _ Ht. eapply leds_only_step; [exact Ht|].
    unfold CheckLeds_pins, digitalWriteLed. cbv zeta. leds_steps.
  - destruct (PatchMode s); [|destruct (negb false && negb (SaveMode s))].
    + apply for_upto_ind; [|apply leds_only_refl].
      intros i t _ Ht. eapply leds_only_step; [exact Ht|].
      unfold CheckLeds_patch. cbv zeta. leds_steps.
    + cbv zeta. leds_steps.
      apply for_upto_ind; [|apply leds_only_refl].
      intros i t _ Ht. eapply leds_only_step; [exact Ht|].
      unfold CheckLeds_normal. cbv zeta. leds_steps.
    + apply for_upto_ind; [|apply leds_only_refl].
      intros i t _ Ht. eapply leds_only_step; [exact Ht|].
      unfold CheckLeds_save. cbv zeta. leds_steps.
Qed.

(** ** The ADC readings *)

Lemma adc_to_SelVal adc :
  0 <= adc < 1024 -> 0 <= byte (Z.shiftr (word adc) 8) <= 3.
Proof.
  intros H. unfold byte, word. rewrite (Z.mod_small adc) by lia.
  rewrite Z.shiftr_div_pow2 by lia. change (2 ^ 8) with 256.
  assert (0 <= adc / 256 < 4).
  { split; [apply Z.div_pos; lia|]. apply Z.div_lt_upper_bound; lia. }
  rewrite Z.mod_small; lia.
Qed.

Lemma adc_to_ExpVal adc :
  0 <= adc < 1024 ->
  byte (Z.shiftr (word adc) 2) = Z.shiftr adc 2 /\ 0 <= Z.shiftr adc 2 <= 255.
Proof.
  intros H. unfold byte, word. rewrite (Z.mod_small adc) by lia.
  rewrite Z.shiftr_div_pow2 by lia. change (2 ^ 2) with 4.
  assert (0 <= adc / 4 < 256).
  { split; [apply Z.div_pos; lia|]. apply Z.div_lt_upper_bound; lia. }
  rewrite Z.mod_small; lia.
Qed.

Lemma CheckSelector_eq adc s :
  let v := byte (Z.shiftr (word adc) 8) in
  CheckSelector adc s
  = set_LastSelVal v
      (set_SelValChng (SelValChng s || negb (v =? LastSelVal s)) (set_SelVal v s)).
Proof.
  destruct_state s. unfold CheckSelector. sets.
  destruct (negb (_ =? lsv)); sets; [now rewrite orb_true_r | now rewrite orb_false_r].
Qed.

(** ** The output loops *)

Lemma taper_switch_eq i mode s :
  0 <= i <= 3 -> taper_ok mode -> 0 <= ExpVal s <= 255 ->
  taper_switch i mode s
  = set_PotLog (PotLog s ++ [(i, TaperMapper (ExpVal s) mode)]) s.
Proof.
  intros Hi Hm He. unfold taper_switch, WritePotSPI.
  destruct (taper_value_TaperMapper mode (ExpVal s) Hm He) as [-> Hr].
  replace ((0 <=? i) && (i <=? 3)) with true
    by (symmetry; apply andb_true_iff; split; apply Z.leb_le; lia).
  unfold byte. rewrite Z.mod_small by lia. reflexivity.
Qed.

(** The loop over the channels, started with any log: one write per
    enabled channel, in order.  [guard] stands for a bound check that
    lets the state through. *)
Lemma output_loop_eq (guard : State -> State) (enabled : State -> list bool)
      (taper : State -> list Z) (l : list Z) s :
  (forall log, guard (set_PotLog log s) = set_PotLog log s) ->
  (forall log, enabled (set_PotLog log s) = enabled s) ->
  (forall log, taper (set_PotLog log s) = taper s) ->
  Forall (fun i => 0 <= i <= 3) l ->
  length (taper s) = 4%nat -> Forall taper_ok (taper s) ->
  0 <= ExpVal s <= 255 ->
  forall log,
    foldl (fun acc i =>
             let acc := guard acc in
             if rd (enabled acc) i then taper_switch i (rd (taper acc) i) acc
             else acc) (set_PotLog log s) l
    = set_PotLog
        (log ++ flat_map (fun i => if rd (enabled s) i
                                   then [(i, TaperMapper (ExpVal s) (rd (taper s) i))]
                                   else []) l) s.
Proof.
  intros Hg Hen Htp Hl Hlen Htap He.
  induction Hl as [|i l Hi _ IH]; intros log; simpl.
  - now rewrite app_nil_r.
  - rewrite Hg, Hen, Htp. destruct (rd (enabled s) i).
    + rewrite taper_switch_eq; [| exact Hi | | exact He].
      * change (set_PotLog ?a (set_PotLog ?b s)) with (set_PotLog a s).
        sets. rewrite IH. now rewrite <- app_assoc.
      * apply (rd_Forall taper_ok); [assumption | lia].
    + apply IH.
Qed.

Lemma set_PotLog_same s : set_PotLog (PotLog s) s = s.
Proof. now destruct_state s. Qed.

Lemma loop_normal_outputs_eq s :
  valid s ->
  loop_normal_outputs s
  = set_PotLog (PotLog s ++ expected_writes (ExpVal s) (ChnlState s) (ChnlMode s)) s.
Proof.
  intros Hv. unfold loop_normal_outputs, for_upto, expected_writes.
  change (seqZ 0 4) with [0; 1; 2; 3].
  rewrite <- (set_PotLog_same s) at 1.
  apply (output_loop_eq (fun t => t) ChnlState ChnlMode); try reflexivity.
  - repeat (apply List.Forall_cons; [lia|]). apply List.Forall_nil.
  - apply Hv.
  - apply Hv.
  - apply Hv.
Qed.

Lemma chk_in_range n i s : 0 <= i < n -> chk n i s = s.
Proof.
  intros Hi. unfold chk.
  replace ((0 <=? i) && (i <? n)) with true; [reflexivity|].
  symmetry. apply andb_true_iff. split; [apply Z.leb_le | apply Z.ltb_lt]; lia.
Qed.

Lemma loop_patch_outputs_eq s :
  valid s ->
  loop_patch_outputs s
  = if PatchActive s =? 255 then s
    else set_PotLog
           (PotLog s ++ expected_writes (ExpVal s)
                          (rd (PatchChnlState s) (PatchActive s))
                          (rd (PatchModeState s) (PatchActive s))) s.
Proof.
  intros Hv. unfold loop_patch_outputs.
  destruct (v_PatchActive s Hv) as [E|Hpa].
  - rewrite E. reflexivity.
  - replace (PatchActive s <? 5) with true by (symmetry; apply Z.ltb_lt; lia).
    replace (PatchActive s =? 255) with false by (symmetry; apply Z.eqb_neq; lia).
    unfold for_upto, expected_writes.
    change (seqZ 0 4) with [0; 1; 2; 3].
    rewrite <- (set_PotLog_same s) at 1.
    destruct (valid_patch_rows s (PatchActive s) Hv Hpa) as (_ & Hlen & Htap).
    apply (output_loop_eq (fun t => chk 4 (PatchActive t) t)
             (fun t => rd (PatchChnlState t) (PatchActive t))
             (fun t => rd (PatchModeState t) (PatchActive t)));
      try reflexivity; try assumption.
    + intros log. apply chk_in_range. sets. lia.
    + repeat (apply List.Forall_cons; [lia|]). apply List.Forall_nil.
    + apply Hv.
Qed.

(** ** Validity is kept *)

Lemma valid_leds_only s t : leds_only s t -> valid s -> valid t.
Proof.
  intros (c & m & p & o & ->) [[] ? ? ? ? ? ? ?].
  constructor; [constructor|..]; sets; assumption.
Qed.

Lemma valid_set_btns p0 r0 p1 r1 s : valid s -> valid (set_btns p0 r0 p1 r1 s).
Proof.
  intros [[] ? ? ? ? ? ? ?]. constructor; [constructor|..]; sets; assumption.
Qed.

Lemma valid_UpdateNvmData s : valid s -> valid (UpdateNvmData s).
Proof.
  intros Hv. rewrite (UpdateNvmData_eq s (v_sized s Hv)).
  destruct Hv as [[] ? ? ? ? ? ? ?].
  constructor; [constructor|..]; sets; try assumption; reflexivity.
Qed.

Lemma valid_CheckLeds s : valid s -> valid (CheckLeds s).
Proof. apply valid_leds_only, CheckLeds_leds_only. Qed.

Lemma valid_ClrBtns s : valid s -> valid (ClrBtns s).
Proof. apply valid_set_btns. Qed.

Lemma valid_wait_any_release lv s t :
  wait_any_release lv s = Some t -> valid s -> valid t.
Proof.
  intros H Hv. destruct (wait_any_release_btns lv s t H) as (?&?&?&?&->).
  now apply valid_set_btns.
Qed.

Lemma valid_wait_Btn1_release lv s t :
  wait_Btn1_release lv s = Some t -> valid s -> valid t.
Proof.
  intros H Hv. destruct (wait_Btn1_release_btns lv s t H) as (?&?&?&?&->).
  now apply valid_set_btns.
Qed.

Lemma valid_chk n i s : valid s -> valid (chk n i s).
Proof. apply valid_leds_only, leds_only_chk. Qed.

(** Setters of variables no invariant mentions. *)
Lemma valid_set_SvMdCntrActive v s : valid s -> valid (set_SvMdCntrActive v s).
Proof. intros [[] ? ? ? ? ? ? ?]. constructor; [constructor|..]; sets; assumption. Qed.

Lemma valid_set_SaveModeCounter v s : valid s -> valid (set_SaveModeCounter v s).
Proof. intros [[] ? ? ? ? ? ? ?]. constructor; [constructor|..]; sets; assumption. Qed.

Lemma valid_set_SelValChng v s : valid s -> valid (set_SelValChng v s).
Proof. intros [[] ? ? ? ? ? ? ?]. constructor; [constructor|..]; sets; assumption. Qed.

Lemma valid_set_PotLog v s : valid s -> valid (set_PotLog v s).
Proof. intros [[] ? ? ? ? ? ? ?]. constructor; [constructor|..]; sets; assumption. Qed.

Lemma valid_set_TimerCount v s : valid s -> valid (set_TimerCount v s).
Proof. intros [[] ? ? ? ? ? ? ?]. constructor; [constructor|..]; sets; assumption. Qed.

(** Setters whose value must be in range. *)
Lemma valid_set_SelIndex v s : 0 <= v <= 3 -> valid s -> valid (set_SelIndex v s).
Proof. intros Hr [[] ? ? ? ? ? ? ?]. constructor; [constructor|..]; sets; assumption. Qed.

Lemma valid_set_PatchActive v s :
  v = 255 \/ 0 <= v <= 3 -> valid s -> valid (set_PatchActive v s).
Proof. intros Hr [[] ? ? ? ? ? ? ?]. constructor; [constructor|..]; sets; assumption. Qed.

Lemma valid_set_PatchMode_false s : valid s -> valid (set_PatchMode false s).
Proof.
  intros [[] ? ? ? ? ? ? ?]. constructor; [constructor|..]; sets; try assumption.
  discriminate.
Qed.

Lemma valid_set_PatchMode_true s :
  SaveMode s = false -> valid s -> valid (set_PatchMode true s).
Proof.
  intros Hs [[] ? ? ? ? ? ? ?]. constructor; [constructor|..]; sets; try assumption.
  now intros _.
Qed.

Lemma valid_set_SaveMode_true s :
  PatchMode s = false -> valid s -> valid (set_SaveMode true s).
Proof.
  intros Hs [[] ? ? ? ? ? ? ?]. constructor; [constructor|..]; sets; try assumption.
  congruence.
Qed.

Lemma valid_set_SaveMode_false s : valid s -> valid (set_SaveMode false s).
Proof.
  intros [[] ? ? ? ? ? ? ?]. constructor; [constructor|..]; sets; try assumption.
  reflexivity.
Qed.

Lemma valid_next_SelIndex s : valid s -> valid (next_SelIndex s).
Proof.
  intros Hv. unfold next_SelIndex. cbv zeta. sets.
  pose proof (v_SelIndex s Hv) as Hi.
  assert (E : byte (SelIndex s + 1) = SelIndex s + 1)
    by (unfold byte; apply Z.mod_small; lia).
  rewrite E. destruct (3 <? SelIndex s + 1) eqn:Hlt.
  - change (set_SelIndex 0 (set_SelIndex ?v s)) with (set_SelIndex 0 s).
    apply valid_set_SelIndex; [lia | assumption].
  - apply Z.ltb_ge in Hlt. apply valid_set_SelIndex; [lia | assumption].
Qed.

Lemma valid_set_ExpVal v s : 0 <= v <= 255 -> valid s -> valid (set_ExpVal v s).
Proof. intros Hr [[] ? ? ? ? ? ? ?]. constructor; [constructor|..]; sets; assumption. Qed.

Lemma valid_CheckSelector adc s :
  0 <= adc < 1024 -> valid s -> valid (CheckSelector adc s).
Proof.
  intros Ha [[] ? ? ? ? ? ? ?]. rewrite CheckSelector_eq. cbv zeta.
  pose proof (adc_to_SelVal adc Ha).
  constructor; [constructor|..]; sets; assumption.
Qed.

Lemma valid_toggle_channel s :
  valid s ->
  valid (set_ChnlState
           (wr (ChnlState s) (SelIndex s) (negb (rd (ChnlState s) (SelIndex s)))) s).
Proof.
  intros [[] ? ? ? ? ? ? ?]. constructor; [constructor|..]; sets; try assumption.
  unfold wr. now rewrite length_insert.
Qed.

Lemma valid_set_taper s :
  valid s -> valid (set_ChnlMode (wr (ChnlMode s) (SelIndex s) (SelVal s)) s).
Proof.
  intros [[] ? ? ? ? ? ? ?]. constructor; [constructor|..]; sets; try assumption.
  - unfold wr. now rewrite length_insert.
  - unfold wr. now apply Forall_insert.
Qed.

Lemma valid_loop_normal_outputs s : valid s -> valid (loop_normal_outputs s).
Proof. intros Hv. rewrite loop_normal_outputs_eq by assumption. now apply valid_set_PotLog. Qed.

Lemma valid_loop_patch_outputs s : valid s -> valid (loop_patch_outputs s).
Proof.
  intros Hv. rewrite loop_patch_outputs_eq by assumption.
  destruct (PatchActive s =? 255); [assumption | now apply valid_set_PotLog].
Qed.

Create HintDb valid discriminated.
#[local] Hint Resolve valid_CheckLeds valid_ClrBtns valid_UpdateNvmData valid_chk
  valid_set_SvMdCntrActive valid_set_SaveModeCounter valid_set_SelValChng
  valid_set_PotLog valid_set_TimerCount valid_set_PatchMode_false
  valid_set_SaveMode_false valid_next_SelIndex valid_toggle_channel
  valid_set_taper valid_loop_normal_outputs valid_loop_patch_outputs
  valid_set_btns : valid.

(** Split the next conditional of the goal on its test. *)
Ltac split_if :=
  match goal with
  | |- context [if ?c then _ else _] =>
      lazymatch c with
      | context [if _ then _ else _] => fail
      | _ => destruct c eqn:?
      end
  end.

(** A wait that returned left a valid state valid. *)
Ltac after_wait :=
  match goal with
  | |- (?w ≫= _) = Some _ -> _ =>
      let u := fresh "u" in let E := fresh "E" in
      destruct w as [u|] eqn:E; simpl; [|discriminate]
  end.

Ltac valid_waited E :=
  apply valid_ClrBtns, valid_UpdateNvmData;
  first [apply (valid_wait_any_release _ _ _ E)
        |apply (valid_wait_Btn1_release _ _ _ E)].

Lemma valid_loop_patch_buttons lv s t :
  valid s -> loop_patch_buttons lv s = Some t -> valid t.
Proof.
  intros Hv. pose proof (v_SelIndex s Hv).
  unfold loop_patch_buttons. repeat split_if; cbv zeta;
    try after_wait; intros [= <-]; auto 10 using valid_set_PatchActive, valid_set_SelIndex with valid.
  valid_waited E.
  apply valid_CheckLeds, valid_set_SelIndex; [lia|]. auto with valid.
Qed.

Lemma valid_loop_patch_selector s : valid s -> valid (loop_patch_selector s).
Proof.
  intros Hv. pose proof (v_SelVal s Hv). unfold loop_patch_selector.
  destruct (SelValChng s); cbv zeta; auto 10 using valid_set_SelIndex with valid.
Qed.

Lemma valid_loop_patch lv s t : valid s -> loop_patch lv s = Some t -> valid t.
Proof.
  intros Hv. unfold loop_patch.
  destruct (loop_patch_buttons lv s) as [u|] eqn:E; simpl; [|discriminate].
  apply valid_loop_patch_buttons in E; [|assumption].
  intros [= <-]. now apply valid_loop_patch_outputs, valid_loop_patch_selector.
Qed.

Lemma valid_loop_normal_buttons lv s t :
  valid s -> PatchMode s = false -> SaveMode s = false ->
  loop_normal_buttons lv s = Some t -> valid t.
Proof.
  intros Hv Hpm Hsm. pose proof (v_SelIndex s Hv).
  unfold loop_normal_buttons. repeat split_if; cbv zeta;
    try after_wait; intros [= <-]; auto 10 with valid.
  - valid_waited E.
    apply valid_CheckLeds, valid_set_PatchMode_true; [assumption|].
    apply valid_set_SelIndex; [lia|]. auto with valid.
  - valid_waited E.
    apply valid_CheckLeds, valid_set_SaveMode_true; [assumption|].
    apply valid_set_SvMdCntrActive, valid_set_SelIndex; [lia|]. auto with valid.
Qed.

Lemma valid_loop_normal_selector s : valid s -> valid (loop_normal_selector s).
Proof.
  intros Hv. unfold loop_normal_selector.
  destruct (SelValChng s); cbv zeta; auto 10 with valid.
Qed.

Lemma valid_loop_normal lv s t :
  valid s -> PatchMode s = false -> SaveMode s = false ->
  loop_normal lv s = Some t -> valid t.
Proof.
  intros Hv Hpm Hsm. unfold loop_normal.
  destruct (loop_normal_buttons lv s) as [u|] eqn:E; simpl; [|discriminate].
  apply valid_loop_normal_buttons in E; try assumption.
  intros [= <-]. now apply valid_loop_normal_outputs, valid_loop_normal_selector.
Qed.

(** The copy loop overwrites row [SelIndex] of both patch tables with the
    channel tables. *)
Lemma save_copy_eq s :
  valid s ->
  for_upto 4 save_copy s
  = set_PatchChnlState (wr (PatchChnlState s) (SelIndex s) (ChnlState s))
      (set_PatchModeState (wr (PatchModeState s) (SelIndex s) (ChnlMode s)) s).
Proof.
  intros [Hsz _ _ Hsi _ _ _ _]. destruct_state s. shapes.
  destruct (index_cases si Hsi) as [->|[->|[->| ->]]]; run_arrays;
    reflexivity.
Qed.

Lemma valid_save_copy s : valid s -> valid (for_upto 4 save_copy s).
Proof.
  intros Hv. rewrite (save_copy_eq s Hv).
  destruct Hv as [[] ? ? ? ? ? ? ?].
  constructor; [constructor|..]; sets; try assumption; unfold wr;
    rewrite ?length_insert; try assumption; now apply Forall_insert.
Qed.

Lemma valid_loop_save_commit lv s t :
  valid s -> loop_save_commit lv s = Some t -> valid t /\ SelVal t = SelVal s.
Proof.
  intros Hv. unfold loop_save_commit. cbv zeta. after_wait. intros [= <-].
  split.
  - valid_waited E.
    apply valid_CheckLeds, valid_set_SaveMode_false, valid_set_SelValChng.
    apply valid_set_SelIndex; [lia|]. apply valid_save_copy. auto with valid.
  - destruct (wait_Btn1_release_btns _ _ _ E) as (p0 & r0 & p1 & r1 & ->).
    match goal with |- context [CheckLeds ?x] =>
      destruct (CheckLeds_leds_only x) as (c & m & p & o & ->);
      assert (Hx : valid x)
        by (apply valid_set_SaveMode_false, valid_set_SelValChng,
              valid_set_SelIndex; [lia|]; apply valid_save_copy; auto with valid)
    end.
    rewrite UpdateNvmData_eq
      by (apply v_sized, valid_set_btns, (valid_leds_only _ _ (ex_intro _ c (ex_intro _ m (ex_intro _ p (ex_intro _ o eq_refl))))), Hx).
    sets. rewrite save_copy_eq by auto with valid. unfold chk. sets.
    now destruct (_ && _).
Qed.

Lemma valid_loop_save lv s t :
  valid s -> loop_save lv s = Some t -> valid t.
Proof.
  intros Hv. pose proof (v_SelVal s Hv) as Hsv. unfold loop_save.
  match goal with |- (?m ≫= _) = _ -> _ =>
    assert (Hm : forall u, m = Some u -> valid u /\ SelVal u = SelVal s) end.
  { intros u. repeat split_if; cbv zeta.
    - intros Hc. apply valid_loop_save_commit in Hc; [exact Hc | auto with valid].
    - intros [= <-]. split; [auto with valid | reflexivity].
    - intros [= <-]. now split. }
  destruct (_ : option State) as [u|] eqn:E; simpl; [|discriminate].
  destruct (Hm u eq_refl) as [Hu Hus]. intros [= <-].
  apply valid_set_SelValChng, valid_set_SelIndex; [lia | exact Hu].
Qed.

Lemma valid_loop inp s t : valid s -> adc_ok inp -> loop inp s = Some t -> valid t.
Proof.
  intros Hv [He Hs]. unfold loop. cbv zeta.
  destruct (adc_to_ExpVal _ He) as [-> Hr].
  assert (Hv' : valid (CheckSelector (adcSel inp) (set_ExpVal (Z.shiftr (adcExp inp) 2) s)))
    by (apply valid_CheckSelector; [assumption|]; now apply valid_set_ExpVal).
  revert Hv'. generalize (CheckSelector (adcSel inp) (set_ExpVal (Z.shiftr (adcExp inp) 2) s)).
  intros u Hu. destruct (PatchMode u) eqn:Hpm.
  - now apply valid_loop_patch.
  - destruct (SaveMode u) eqn:Hsm; simpl.
    + now apply valid_loop_save.
    + now apply valid_loop_normal.
Qed.
Lemma valid_CheckBtns b0 b1 s : valid s -> valid (CheckBtns b0 b1 s).
Proof.
  intros Hv. destruct (CheckBtns_btns b0 b1 s) as (p0 & r0 & r1 & -> & _).
  now apply valid_set_btns.
Qed.

Lemma LedsFastBlink_leds_only s : leds_only s (LedsFastBlink s).
Proof.
  unfold LedsFastBlink. apply for_upto_ind; [|apply leds_only_refl].
  intros i t _ Ht. eapply leds_only_step; [exact Ht|].
  unfold toggleLed, digitalWriteLed. cbv zeta. leds_steps.
Qed.

Lemma LedsSlowBlink_leds_only s : leds_only s (LedsSlowBlink s).
Proof.
  unfold LedsSlowBlink. apply for_upto_ind; [|apply leds_only_refl].
  intros i t _ Ht. eapply leds_only_step; [exact Ht|].
  unfold toggleLed, digitalWriteLed. cbv zeta. leds_steps.
Qed.

Lemma valid_CheckSaveMode s : valid s -> valid (CheckSaveMode s).
Proof.
  intros Hv. unfold CheckSaveMode.
  destruct (SvMdCntrActive s); [now apply valid_set_SaveModeCounter | assumption].
Qed.

Lemma valid_Tmr100msTask s : valid s -> valid (Tmr100msTask s).
Proof.
  intros Hv. unfold Tmr100msTask.
  apply (valid_leds_only (CheckLeds s)); [apply LedsFastBlink_leds_only|].
  now apply valid_CheckLeds.
Qed.

Lemma valid_Tmr250msTask s : valid s -> valid (Tmr250msTask s).
Proof.
  intros Hv. unfold Tmr250msTask.
  now apply (valid_leds_only s); [apply LedsSlowBlink_leds_only|].
Qed.

Lemma valid_IntTmr1 b0 b1 s : valid s -> valid (IntTmr1 b0 b1 s).
Proof.
  intros Hv. unfold IntTmr1, Tmr10msTask, Tmr500msTask.
  set (s1 := CheckBtns b0 b1 (set_TimerCount (byte (TimerCount s + 1)) s)).
  assert (H1 : valid s1) by (apply valid_CheckBtns, valid_set_TimerCount, Hv).
  clearbody s1. cbv zeta.
  set (s2 := if TimerCount s1 mod 10 =? 0 then Tmr100msTask s1 else s1).
  assert (H2 : valid s2)
    by (subst s2; destruct (_ =? 0); [now apply valid_Tmr100msTask | assumption]).
  clearbody s2.
  set (s3 := if TimerCount s2 mod 25 =? 0 then Tmr250msTask s2 else s2).
  assert (H3 : valid s3)
    by (subst s3; destruct (_ =? 0); [now apply valid_Tmr250msTask | assumption]).
  clearbody s3.
  destruct (_ =? 0); [|assumption].
  now apply valid_set_TimerCount, valid_CheckSaveMode.
Qed.

Lemma valid_power_on rom : length rom = 10%nat -> valid (power_on rom).
Proof.
  intros Hrom. constructor; [constructor|..]; cbn; try reflexivity; try lia;
    try assumption; try (repeat constructor; unfold taper_ok; lia).
Qed.

Lemma valid_set_SelVal v s : 0 <= v <= 3 -> valid s -> valid (set_SelVal v s).
Proof. intros Hr [[] ? ? ? ? ? ? ?]. constructor; [constructor|..]; sets; assumption. Qed.

Lemma valid_set_LastSelVal v s : valid s -> valid (set_LastSelVal v s).
Proof. intros [[] ? ? ? ? ? ? ?]. constructor; [constructor|..]; sets; assumption. Qed.

Lemma valid_DigPotsInit s : valid s -> valid (DigPotsInit s).
Proof.
  intros Hv. unfold DigPotsInit. apply for_upto_ind; [|assumption].
  intros i t _ Ht. unfold WritePotSPI. split_if; [now apply valid_set_PotLog|assumption].
Qed.

Lemma valid_ReadNvmData s :
  valid s -> SaveMode s = false -> valid (ReadNvmData s).
Proof.
  intros Hv Hsm. rewrite (ReadNvmData_eq s (v_sized s Hv)).
  destruct Hv as [[] ? ? ? ? ? ? ?].
  constructor; [constructor|..]; sets; try assumption; try reflexivity;
    cbn [map]; unfold decoded_modes, decoded_states; cbn [map];
    repeat (apply List.Forall_cons; [try reflexivity; try apply mode_field_range|]);
    try apply List.Forall_nil.
  all: repeat (apply List.Forall_cons; [try reflexivity; try apply mode_field_range|]);
    try apply List.Forall_nil.
  now intros _.
Qed.

Lemma valid_setup rom adcE adcS b0 b1 :
  length rom = 10%nat -> 0 <= adcE < 1024 -> 0 <= adcS < 1024 ->
  valid (setup rom adcE adcS b0 b1).
Proof.
  intros Hrom He Hs. unfold setup. cbv zeta.
  pose proof (adc_to_SelVal adcS Hs) as Hsv.
  destruct (adc_to_ExpVal adcE He) as [Hev Her].
  unfold word in Hsv, Hev. rewrite Z.mod_small in Hsv, Hev by lia.
  apply valid_ReadNvmData.
  - apply valid_DigPotsInit, valid_CheckBtns, valid_set_ExpVal; [lia|].
    apply valid_set_LastSelVal, valid_set_SelVal; [assumption|].
    now apply valid_power_on.
  - destruct b0, b1; reflexivity.
Qed.

(** Every reachable state is valid. *)
Lemma reachable_valid s : reachable s -> valid s.
Proof.
  induction 1 as [rom adcE adcS b0 b1 Hrom He Hs | s inp s' _ IH Hadc Hloop | s b0 b1 _ IH].
  - now apply valid_setup.
  - exact (valid_loop inp s s' IH Hadc Hloop).
  - now apply valid_IntTmr1.
Qed.
(** ** One pass of the main loop *)

(** [UpdateNvmData] writes the image and the EEPROM only. *)
Lemma UpdateNvmData_frame s :
  exists n e, UpdateNvmData s = set_Eeprom e (set_NvmData n s).
Proof.
  unfold UpdateNvmData. cbv zeta.
  set (P := fun t => exists n e, t = set_Eeprom e (set_NvmData n s)).
  assert (P0 : P s) by (exists (NvmData s), (Eeprom s); now destruct_state s).
  assert (Pn : forall t v, P t -> P (set_NvmData v t))
    by (intros t v (n & e & ->); now exists v, e).
  assert (Pe : forall t v, P t -> P (set_Eeprom v t))
    by (intros t v (n & e & ->); now exists n, v).
  match goal with |- exists n e, ?X = _ => change (P X) end.
  apply for_upto_ind; [intros; now apply Pe|].
  apply Pn. apply for_upto_ind; [intros; now apply Pn|].
  apply for_upto_ind; [intros; now apply Pn|]. now apply Pn.
Qed.

(** The copy loop of the commit writes the two patch tables only. *)
Lemma save_copy_frame s :
  exists pm pc,
    for_upto 4 save_copy s = set_PatchChnlState pc (set_PatchModeState pm s).
Proof.
  apply (for_upto_ind
           (fun t => exists pm pc, t = set_PatchChnlState pc (set_PatchModeState pm s))).
  - intros i t _ (pm & pc & ->). unfold save_copy. cbv zeta. sets. eauto.
  - exists (PatchModeState s), (PatchChnlState s). now destruct_state s.
Qed.

(** Name what the routines of a pass do to the state, so that field
    selections reduce. *)
Ltac frames :=
  repeat match goal with
  | E : wait_any_release _ ?x = Some ?u |- _ =>
      let H := fresh in
      destruct (wait_any_release_btns _ _ _ E) as (? & ? & ? & ? & H);
      clear E; subst u
  | E : wait_Btn1_release _ ?x = Some ?u |- _ =>
      let H := fresh in
      destruct (wait_Btn1_release_btns _ _ _ E) as (? & ? & ? & ? & H);
      clear E; subst u
  | |- context [UpdateNvmData ?x] =>
      let H := fresh in
      destruct (UpdateNvmData_frame x) as (? & ? & H); rewrite H; clear H
  | |- context [CheckLeds ?x] =>
      let H := fresh in
      destruct (CheckLeds_leds_only x) as (? & ? & ? & ? & H); rewrite H; clear H
  | |- context [for_upto 4 save_copy ?x] =>
      let H := fresh in
      destruct (save_copy_frame x) as (? & ? & H); rewrite H; clear H
  end;
  unfold ClrBtns, next_SelIndex, chk, set_btns, set_leds; cbv zeta;
  repeat split_if; sets.

(** The button handlers leave the pedal value and the output log alone. *)
Lemma loop_patch_buttons_io lv s t :
  loop_patch_buttons lv s = Some t ->
  PotLog t = PotLog s /\ ExpVal t = ExpVal s.
Proof.
  unfold loop_patch_buttons. repeat split_if; cbv zeta; try after_wait;
    intros [= <-]; frames; now split.
Qed.

Lemma loop_patch_selector_io s :
  PotLog (loop_patch_selector s) = PotLog s /\
  ExpVal (loop_patch_selector s) = ExpVal s.
Proof. unfold loop_patch_selector. split_if; cbv zeta; frames; now split. Qed.

Lemma loop_normal_buttons_io lv s t :
  loop_normal_buttons lv s = Some t ->
  PotLog t = PotLog s /\ ExpVal t = ExpVal s.
Proof.
  unfold loop_normal_buttons. repeat split_if; cbv zeta; try after_wait;
    intros [= <-]; frames; now split.
Qed.

Lemma loop_normal_selector_io s :
  PotLog (loop_normal_selector s) = PotLog s /\
  ExpVal (loop_normal_selector s) = ExpVal s.
Proof. unfold loop_normal_selector. split_if; cbv zeta; frames; now split. Qed.

Lemma loop_save_commit_io lv s t :
  loop_save_commit lv s = Some t -> PotLog t = PotLog s /\ ExpVal t = ExpVal s.
Proof.
  unfold loop_save_commit. cbv zeta. after_wait. intros [= <-]. frames; now split.
Qed.

Lemma loop_save_io lv s t :
  loop_save lv s = Some t -> PotLog t = PotLog s /\ ExpVal t = ExpVal s.
Proof.
  unfold loop_save. repeat split_if; cbv zeta.
  - destruct (loop_save_commit lv _) as [u|] eqn:E; simpl; [|discriminate].
    intros [= <-]. apply loop_save_commit_io in E. sets. exact E.
  - simpl. intros [= <-]. now split.
  - simpl. intros [= <-]. now split.
Qed.

(** Once the select button is let go, every wait of a pass ends. *)
Ltac wait_ends Hlv :=
  match goal with
  | |- is_Some (?w ≫= _) =>
      let Hp := fresh "Hp" in
      let u := fresh "u" in
      let E := fresh "E" in
      match w with
      | wait_any_release ?lv ?x =>
          assert (Hp : Btn1Pressed x = true);
          [| destruct (wait_any_release_total lv x Hp Hlv) as [u E];
             rewrite E; simpl; eauto ]
      | wait_Btn1_release ?lv ?x =>
          assert (Hp : Btn1Pressed x = true);
          [| destruct (wait_Btn1_release_total lv x Hp Hlv) as [u E];
             rewrite E; simpl; eauto ]
      end
  end.

Ltac bools :=
  repeat match goal with
  | H : _ && _ = true |- _ => apply andb_true_iff in H; destruct H
  | H : negb _ = true |- _ => apply negb_true_iff in H
  end.

Lemma loop_patch_buttons_returns lv s :
  release_seen lv -> is_Some (loop_patch_buttons lv s).
Proof.
  intros Hlv. unfold loop_patch_buttons. repeat split_if; cbv zeta; eauto.
  wait_ends Hlv. frames. bools. assumption.
Qed.

Lemma loop_normal_buttons_returns lv s :
  release_seen lv -> is_Some (loop_normal_buttons lv s).
Proof.
  intros Hlv. unfold loop_normal_buttons. repeat split_if; cbv zeta; eauto.
  - wait_ends Hlv. frames. bools. assumption.
  - wait_ends Hlv. frames. bools. assumption.
Qed.

Lemma loop_save_returns lv s :
  release_seen lv -> is_Some (loop_save lv s).
Proof.
  intros Hlv. unfold loop_save, loop_save_commit.
  repeat split_if; cbv zeta; simpl; eauto.
  match goal with |- is_Some ((?w ≫= ?f) ≫= ?g) =>
    assert (Hw : is_Some (w ≫= f)) end.
  { wait_ends Hlv. frames; bools; assumption. }
  destruct Hw as [u ->]. simpl. eauto.
Qed.

Lemma loop_returns inp s : release_seen (levels inp) -> is_Some (loop inp s).
Proof.
  intros Hlv. unfold loop. cbv zeta.
  generalize (CheckSelector (adcSel inp)
                (set_ExpVal (byte (Z.shiftr (word (adcExp inp)) 2)) s)).
  intros u. destruct (PatchMode u); [|destruct (negb false && negb (SaveMode u))].
  - unfold loop_patch.
    destruct (loop_patch_buttons_returns (levels inp) u Hlv) as [t ->]. simpl. eauto.
  - unfold loop_normal.
    destruct (loop_normal_buttons_returns (levels inp) u Hlv) as [t ->]. simpl. eauto.
  - now apply loop_save_returns.
Qed.

(** C1. A pass of the main loop in Normal mode writes, for each enabled
    channel [i] in order, the taper mapper's value of the input under
    [taper[i]] to output [i], and nothing else; in Patch mode it does the
    same with the enabled flags and tapers of the active patch, and writes
    nothing when no patch is active; a pass in Save mode writes nothing.
    The pass returns once a release of the select button is sampled. *)
Theorem loop_writes_taper_mapped s inp :
  valid s -> adc_ok inp ->
  (release_seen (levels inp) -> is_Some (loop inp s)) /\
  forall s', loop inp s = Some s' ->
    ExpVal s' = Z.shiftr (adcExp inp) 2 /\
    match op_mode s with
    | Normal =>
        PotLog s' = PotLog s
                    ++ expected_writes (ExpVal s') (ChnlState s') (ChnlMode s')
    | Patch =>
        PotLog s' = PotLog s
                    ++ (if PatchActive s' =? 255 then []
                        else expected_writes (ExpVal s')
                               (rd (PatchChnlState s') (PatchActive s'))
                               (rd (PatchModeState s') (PatchActive s')))
    | Save => PotLog s' = PotLog s
    end.
Proof.
  intros Hv [He Hs]. split; [apply loop_returns|].
  intros s'. unfold loop, op_mode. cbv zeta.
  destruct (adc_to_ExpVal _ He) as [-> Hr].
  assert (Hu : valid (CheckSelector (adcSel inp)
                        (set_ExpVal (Z.shiftr (adcExp inp) 2) s)))
    by (apply valid_CheckSelector; [assumption|]; now apply valid_set_ExpVal).
  assert (Hio : PotLog (CheckSelector (adcSel inp)
                          (set_ExpVal (Z.shiftr (adcExp inp) 2) s)) = PotLog s /\
                ExpVal (CheckSelector (adcSel inp)
                          (set_ExpVal (Z.shiftr (adcExp inp) 2) s))
                = Z.shiftr (adcExp inp) 2 /\
                PatchMode (CheckSelector (adcSel inp)
                          (set_ExpVal (Z.shiftr (adcExp inp) 2) s)) = PatchMode s /\
                SaveMode (CheckSelector (adcSel inp)
                          (set_ExpVal (Z.shiftr (adcExp inp) 2) s)) = SaveMode s)
    by (rewrite CheckSelector_eq; cbv zeta; sets; auto).
  revert Hu Hio.
  generalize (CheckSelector (adcSel inp) (set_ExpVal (Z.shiftr (adcExp inp) 2) s)).
  intros u Hu (Hlog & Hexp & Hpmu & Hsmu). rewrite Hpmu, Hsmu.
  destruct (PatchMode s) eqn:Hpm; [|destruct (SaveMode s) eqn:Hsm; simpl].
  - unfold loop_patch.
    destruct (loop_patch_buttons (levels inp) u) as [t|] eqn:E; simpl; [|discriminate].
    intros [= <-].
    destruct (loop_patch_buttons_io _ _ _ E) as [L1 E1].
    destruct (loop_patch_selector_io t) as [L2 E2].
    assert (Ht : valid (loop_patch_selector t))
      by (apply valid_loop_patch_selector; eapply valid_loop_patch_buttons; eauto).
    rewrite (loop_patch_outputs_eq _ Ht).
    destruct (PatchActive (loop_patch_selector t) =? 255) eqn:Hpa.
    + rewrite Hpa, app_nil_r. split; congruence.
    + sets. rewrite Hpa. split; congruence.
  - intros Hl. destruct (loop_save_io _ _ _ Hl). split; congruence.
  - unfold loop_normal.
    destruct (loop_normal_buttons (levels inp) u) as [t|] eqn:E; simpl; [|discriminate].
    intros [= <-].
    destruct (loop_normal_buttons_io _ _ _ E) as [L1 E1].
    destruct (loop_normal_selector_io t) as [L2 E2].
    assert (Ht : valid (loop_normal_selector t)).
    { apply valid_loop_normal_selector.
      eapply valid_loop_normal_buttons; [exact Hu| | |exact E]; congruence. }
    rewrite (loop_normal_outputs_eq _ Ht). sets. split; congruence.
Qed.

Lemma valid_example_normal : valid example_normal.
Proof.
  let v := eval vm_compute in example_normal in
  assert (E : example_normal = v) by (vm_compute; reflexivity).
  rewrite E. repeat constructor; cbn; lia.
Qed.

Lemma loop_writes_taper_mapped_witness :
  valid example_normal /\
  exists s',
    loop (mkInput 400 0 [(true, true)]) example_normal = Some s' /\
    PotLog s' = PotLog example_normal
                ++ expected_writes (ExpVal s') (ChnlState s') (ChnlMode s').
Proof.
  split; [exact valid_example_normal|].
  destruct (loop_writes_taper_mapped example_normal (mkInput 400 0 [(true, true)])
              valid_example_normal) as [Hsome Hlog].
  { split; simpl; lia. }
  destruct Hsome as [s' Hs']; [left; reflexivity|].
  exists s'. split; [exact Hs'|].
  assert (Hm : op_mode example_normal = Normal) by (vm_compute; reflexivity).
  specialize (Hlog s' Hs'). rewrite Hm in Hlog. apply Hlog.
Defined.

(** The example of the claim: channel 0 on with the linear taper and the
    pedal at 100 (ADC reading 400) writes 100 to output 0; the
    logarithmic channel 2 gets [LogPot[100]]. *)
Example loop_linear_100 :
  PotLog <$> loop (mkInput 400 0 []) example_normal
  = Some (PotLog example_normal ++ [(0, 100); (2, rd LogPot 100)]).
Proof. vm_compute. reflexivity. Qed.

(** ** The active patch *)

Lemma loop_patch_outputs_PatchActive s :
  PatchActive (loop_patch_outputs s) = PatchActive s.
Proof.
  unfold loop_patch_outputs. split_if; [|reflexivity].
  apply (for_upto_ind (fun t => PatchActive t = PatchActive s)); [|reflexivity].
  intros i t _ Ht. cbv zeta. unfold taper_switch, WritePotSPI, chk.
  repeat first [split_if | destruct (taper_value _ _)]; sets; exact Ht.
Qed.

Lemma loop_patch_selector_PatchActive s :
  PatchActive (loop_patch_selector s) = PatchActive s.
Proof. unfold loop_patch_selector. split_if; cbv zeta; frames; reflexivity. Qed.

(** C4. In every reachable state the active-patch pointer is 255 (none) or
    one index 0..3, so at most one patch is active; in Patch mode a tap on
    the On/Off button sets the pointer to none when the selected patch is
    the active one, and otherwise makes the selected patch the only active
    one. *)
Theorem one_active_patch s :
  reachable s ->
  (PatchActive s = 255 \/ 0 <= PatchActive s <= 3) /\
  (forall k m, patch_is_active s k -> patch_is_active s m -> k = m) /\
  (forall inp, op_mode s = Patch -> onoff_tap s ->
     exists s', loop inp s = Some s' /\
       PatchActive s' = (if SelIndex s =? PatchActive s then 255 else SelIndex s) /\
       (SelIndex s = PatchActive s -> forall m, ~ patch_is_active s' m) /\
       (SelIndex s <> PatchActive s ->
        forall m, patch_is_active s' m <-> m = SelIndex s)).
Proof.
  intros Hr. pose proof (reachable_valid s Hr) as Hv.
  split; [apply Hv|]. split.
  { intros k m [_ Hk] [_ Hm]. congruence. }
  intros inp Hmode (P0 & R0 & P1 & R1).
  assert (Hpm : PatchMode s = true).
  { unfold op_mode in Hmode. destruct (PatchMode s); [reflexivity|].
    destruct (negb false && negb (SaveMode s)); discriminate. }
  assert (Hloop : exists s', loop inp s = Some s' /\
            PatchActive s' = (if SelIndex s =? PatchActive s then 255 else SelIndex s)).
  { unfold loop. cbv zeta. rewrite CheckSelector_eq. cbv zeta. sets. rewrite Hpm.
    unfold loop_patch, loop_patch_buttons. sets. rewrite P0, R0, P1, R1.
    cbn [andb negb mbind option_bind]. eexists. split; [reflexivity|].
    rewrite loop_patch_outputs_PatchActive, loop_patch_selector_PatchActive.
    frames; reflexivity. }
  destruct Hloop as (s' & Hs' & Hpa). exists s'. split; [exact Hs'|].
  split; [exact Hpa|].
  pose proof (v_SelIndex s Hv) as Hsi. split.
  - intros Heq m [Hm Hact]. rewrite Hpa, Heq, Z.eqb_refl in Hact. lia.
  - intros Hne m. apply Z.eqb_neq in Hne. rewrite Hne in Hpa.
    unfold patch_is_active. rewrite Hpa. split; [intros [_ ?]; congruence|].
    intros ->. split; [lia | reflexivity].
Qed.

Lemma reachable_example_patch_tap : reachable example_patch_tap.
Proof.
  unfold example_patch_tap. apply reach_tick, reach_tick, reach_setup;
    [reflexivity | lia | lia].
Qed.

Lemma one_active_patch_witness :
  reachable example_patch_tap /\
  exists s', loop (mkInput 400 0 []) example_patch_tap = Some s' /\
             PatchActive s' = 0.
Proof.
  split; [exact reachable_example_patch_tap|].
  destruct (one_active_patch example_patch_tap reachable_example_patch_tap)
    as (_ & _ & Hloop).
  destruct (Hloop (mkInput 400 0 [])) as (s' & Hs' & Hpa & _).
  - vm_compute. reflexivity.
  - vm_compute. repeat split.
  - exists s'. split; [exact Hs'|]. rewrite Hpa.
    assert (Hsi : SelIndex example_patch_tap = 0) by (vm_compute; reflexivity).
    assert (Hp : PatchActive example_patch_tap = 255) by (vm_compute; reflexivity).
    rewrite Hsi, Hp. reflexivity.
Defined.

Example patch_tap_activates_then_deactivates :
  PatchActive <$> loop (mkInput 400 0 []) example_patch_tap = Some 0 /\
  (PatchActive <$>
     (loop (mkInput 400 0 []) example_patch_tap
        ≫= fun s => loop (mkInput 400 0 []) (IntTmr1 true true (IntTmr1 false true s))))
  = Some 255.
Proof. split; vm_compute; reflexivity. Qed.

(** ** Scripted runs stay within the reachable states *)

Lemma event_ok_adc inp : event_ok (Pass inp) = true -> adc_ok inp.
Proof.
  unfold event_ok, adc_ok. intros H.
  repeat (apply andb_true_iff in H; destruct H as [H ?]).
  repeat match goal with
         | H : (_ <=? _) = true |- _ => apply Z.leb_le in H
         | H : (_ <? _) = true |- _ => apply Z.ltb_lt in H
         end. lia.
Qed.

Lemma run_reachable evs s s' :
  reachable s -> forallb event_ok evs = true -> run evs s = Some s' ->
  reachable s'.
Proof.
  revert s. induction evs as [|[b0 b1|inp] evs IH]; intros s Hs Hok; simpl.
  - intros [= <-]. exact Hs.
  - simpl in Hok. apply IH; [now apply reach_tick | exact Hok].
  - simpl in Hok. apply andb_true_iff in Hok as [Hinp Hok].
    destruct (loop inp s) as [u|] eqn:E; simpl; [|discriminate].
    apply IH; [|exact Hok].
    eapply reach_loop; [exact Hs | exact (event_ok_adc inp Hinp) | exact E].
Qed.

Lemma reachable_demo_boot : reachable demo_boot.
Proof. apply reach_setup; [reflexivity | lia | lia]. Qed.


(** ** Mode transitions *)

(** The output loops write the log, and may record an index out of
    bounds; nothing else. *)
Lemma outputs_frame s :
  (exists l o, loop_patch_outputs s = set_OutOfBounds o (set_PotLog l s)) /\
  (exists l o, loop_normal_outputs s = set_OutOfBounds o (set_PotLog l s)).
Proof.
  set (P := fun t => exists l o, t = set_OutOfBounds o (set_PotLog l s)).
  assert (P0 : P s) by (exists (PotLog s), (OutOfBounds s); now destruct_state s).
  assert (Pw : forall i m t, P t -> P (taper_switch i m t)).
  { intros i m t (l & o & ->). unfold taper_switch, WritePotSPI.
    destruct (taper_value _ _); [split_if|]; sets; unfold P; eauto. }
  assert (Pc : forall n i t, P t -> P (chk n i t)).
  { intros n i t (l & o & ->). unfold chk. split_if; sets; unfold P; eauto. }
  split.
  - change (P (loop_patch_outputs s)). unfold loop_patch_outputs.
    split_if; [|exact P0]. apply for_upto_ind; [|exact P0].
    intros i t _ Ht. cbv zeta. split_if; auto.
  - change (P (loop_normal_outputs s)). unfold loop_normal_outputs.
    apply for_upto_ind; [|exact P0].
    intros i t _ Ht. split_if; auto.
Qed.

Ltac out_frames :=
  repeat match goal with
  | |- context [loop_patch_outputs ?x] =>
      let H := fresh in
      destruct (proj1 (outputs_frame x)) as (? & ? & H); rewrite H; clear H
  | |- context [loop_normal_outputs ?x] =>
      let H := fresh in
      destruct (proj2 (outputs_frame x)) as (? & ? & H); rewrite H; clear H
  end.

(** The selector handlers and the output loops leave the mode flags
    alone. *)
Lemma after_buttons_modes s :
  (PatchMode (loop_patch_outputs (loop_patch_selector s)) = PatchMode s /\
   SaveMode (loop_patch_outputs (loop_patch_selector s)) = SaveMode s) /\
  (PatchMode (loop_normal_outputs (loop_normal_selector s)) = PatchMode s /\
   SaveMode (loop_normal_outputs (loop_normal_selector s)) = SaveMode s).
Proof.
  split; out_frames; sets.
  - unfold loop_patch_selector. split_if; cbv zeta; frames; now split.
  - unfold loop_normal_selector. split_if; cbv zeta; frames; now split.
Qed.

Lemma loop_patch_buttons_modes lv s t :
  loop_patch_buttons lv s = Some t ->
  SaveMode t = SaveMode s /\
  PatchMode t = (if both_held s then false else PatchMode s).
Proof.
  unfold loop_patch_buttons, both_held.
  destruct (Btn0Pressed s), (Btn0Released s), (Btn1Pressed s), (Btn1Released s);
    cbn [negb andb]; cbv zeta; try after_wait; intros [= <-]; frames; now split.
Qed.

Lemma loop_normal_buttons_modes lv s t :
  loop_normal_buttons lv s = Some t ->
  PatchMode t = (if both_held s then true else PatchMode s) /\
  SaveMode t = (if negb (Btn0Pressed s) && negb (Btn0Released s)
                   && Btn1Pressed s && negb (Btn1Released s)
                   && (3 <? SaveModeCounter s)
                then true else SaveMode s).
Proof.
  unfold loop_normal_buttons, both_held.
  destruct (Btn0Pressed s), (Btn0Released s), (Btn1Pressed s), (Btn1Released s);
    cbn [negb andb]; cbv zeta; sets; try (destruct (3 <? SaveModeCounter s));
    cbv zeta; try after_wait; intros [= <-]; frames; now split.
Qed.

Lemma loop_save_modes lv s t :
  loop_save lv s = Some t ->
  PatchMode t = PatchMode s /\
  SaveMode t = (if Btn1Pressed s && negb (Btn1Released s) && (3 <? SaveModeCounter s)
                then false else SaveMode s).
Proof.
  unfold loop_save, loop_save_commit.
  destruct (Btn1Pressed s), (Btn1Released s); cbn [negb andb]; cbv zeta; sets;
    try (destruct (3 <? SaveModeCounter s)); cbv zeta;
    try (match goal with |- ((?w ≫= ?f) ≫= _) = _ -> _ =>
           let u := fresh "u" in let E := fresh "E" in
           destruct w as [u|] eqn:E; [|discriminate] end);
    cbn [mbind option_bind]; intros [= <-]; frames; now split.
Qed.

(** The modes a pass can go between, and the gesture each change takes. *)
Lemma mode_transitions s inp s' :
  valid s -> loop inp s = Some s' ->
  op_mode s' = op_mode s \/
  (op_mode s = Normal /\ op_mode s' = Patch /\ both_pressed s) \/
  (op_mode s = Patch /\ op_mode s' = Normal /\ both_pressed s) \/
  (op_mode s = Normal /\ op_mode s' = Save /\ select_held s /\
   3 < SaveModeCounter s) \/
  (op_mode s = Save /\ op_mode s' = Normal /\ Btn1Pressed s = true /\
   Btn1Released s = false /\ 3 < SaveModeCounter s).
Proof.
  intros Hv. unfold loop. cbv zeta. rewrite CheckSelector_eq. cbv zeta.
  set (u := set_LastSelVal _ _).
  assert (Hu : PatchMode u = PatchMode s /\ SaveMode u = SaveMode s /\
               Btn0Pressed u = Btn0Pressed s /\ Btn0Released u = Btn0Released s /\
               Btn1Pressed u = Btn1Pressed s /\ Btn1Released u = Btn1Released s /\
               SaveModeCounter u = SaveModeCounter s)
    by (subst u; sets; repeat split).
  clearbody u. destruct Hu as (Hpm & Hsm & P0 & R0 & P1 & R1 & Hc).
  pose proof (v_modes s Hv) as Hex.
  unfold op_mode, both_pressed, select_held. rewrite Hpm, Hsm.
  destruct (PatchMode s) eqn:Epm; [|destruct (SaveMode s) eqn:Esm; cbn [negb andb]].
  - unfold loop_patch.
    destruct (loop_patch_buttons (levels inp) u) as [t|] eqn:E;
      cbn [mbind option_bind]; [|discriminate]. intros [= <-].
    destruct (proj1 (after_buttons_modes t)) as [-> ->].
    destruct (loop_patch_buttons_modes _ _ _ E) as [-> ->]. unfold both_held.
    rewrite P0, R0, P1, R1, Hsm, Hpm, (Hex eq_refl).
    destruct (Btn0Pressed s), (Btn0Released s), (Btn1Pressed s), (Btn1Released s);
      cbn [negb andb]; auto 10.
  - intros E. destruct (loop_save_modes _ _ _ E) as [-> ->].
    rewrite P1, R1, Hc, Hpm, Hsm.
    destruct (Btn1Pressed s), (Btn1Released s), (3 <? SaveModeCounter s) eqn:Ec;
      cbn [negb andb]; auto.
    apply Z.ltb_lt in Ec. auto 10.
  - unfold loop_normal.
    destruct (loop_normal_buttons (levels inp) u) as [t|] eqn:E;
      cbn [mbind option_bind]; [|discriminate]. intros [= <-].
    destruct (proj2 (after_buttons_modes t)) as [-> ->].
    destruct (loop_normal_buttons_modes _ _ _ E) as [-> ->]. unfold both_held.
    rewrite P0, R0, P1, R1, Hc, Hpm, Hsm.
    destruct (Btn0Pressed s), (Btn0Released s), (Btn1Pressed s), (Btn1Released s),
             (3 <? SaveModeCounter s) eqn:Ec;
      cbn [negb andb]; auto 10.
    apply Z.ltb_lt in Ec. auto 15.
Qed.
(** ** The LED refresh in Patch mode with no active patch *)

Lemma CheckLeds_pins_OutOfBounds s :
  OutOfBounds (for_upto 4 CheckLeds_pins s) = OutOfBounds s.
Proof.
  apply (for_upto_ind (fun t => OutOfBounds t = OutOfBounds s)); [|reflexivity].
  intros i t _ Ht. unfold CheckLeds_pins, digitalWriteLed. cbv zeta.
  repeat split_if; sets; exact Ht.
Qed.

Lemma CheckLeds_patch_no_active i s :
  PatchActive s = 255 ->
  PatchActive (CheckLeds_patch i s) = 255 /\
  OutOfBounds (CheckLeds_patch i s) = Some 255.
Proof.
  intros Hpa. unfold CheckLeds_patch, chk. rewrite Hpa. cbn [Z.leb Z.ltb Z.compare andb Pos.compare Pos.compare_cont].
  cbv zeta. repeat split_if; sets; split; assumption || reflexivity.
Qed.

(** In Patch mode with the pointer at 255, [CheckLeds] reads
    [PatchChnlState[255]]. *)
Lemma CheckLeds_reads_row_255 s :
  PatchMode s = true -> PatchActive s = 255 ->
  OutOfBounds (CheckLeds s) = Some 255.
Proof.
  intros Hpm Hpa. unfold CheckLeds. rewrite Hpm. cbv zeta.
  rewrite CheckLeds_pins_OutOfBounds, for_upto_4.
  destruct (CheckLeds_patch_no_active 0 s Hpa) as [H0 _].
  destruct (CheckLeds_patch_no_active 1 _ H0) as [H1 _].
  destruct (CheckLeds_patch_no_active 2 _ H1) as [H2 _].
  apply (CheckLeds_patch_no_active 3 _ H2).
Qed.

Lemma CheckLeds_in_bounds_patch s :
  valid s -> PatchActive s <> 255 ->
  OutOfBounds (for_upto 4 CheckLeds_patch s) = OutOfBounds s.
Proof.
  intros Hv Hact.
  destruct (v_PatchActive s Hv) as [E|Hr]; [now destruct Hact|].
  apply (for_upto_ind (fun t => OutOfBounds t = OutOfBounds s /\ PatchActive t = PatchActive s));
      [|now split].
  intros i t _ [Ho Hp]. unfold CheckLeds_patch.
  rewrite chk_in_range by lia. cbv zeta. repeat split_if; sets; now split.
Qed.

Lemma CheckLeds_in_bounds_save s :
  OutOfBounds (for_upto 4 CheckLeds_save s) = OutOfBounds s.
Proof.
  apply (for_upto_ind (fun t => OutOfBounds t = OutOfBounds s)); [|reflexivity].
  intros i t _ Ho. unfold CheckLeds_save. cbv zeta. repeat split_if; sets; exact Ho.
Qed.

Lemma CheckLeds_normal_frame s :
  let t := for_upto 4 CheckLeds_normal s in
  OutOfBounds t = OutOfBounds s /\ SelIndex t = SelIndex s /\ ChnlMode t = ChnlMode s.
Proof.
  cbv zeta. apply for_upto_ind; [|repeat split].
  intros i t _ (Ho & Hi & Hm). unfold CheckLeds_normal. cbv zeta.
  repeat split_if; sets; repeat split; assumption.
Qed.

(** With a patch active, or outside Patch mode, every index of
    [CheckLeds] is inside its array. *)
Lemma CheckLeds_in_bounds s :
  valid s -> (PatchMode s = true -> PatchActive s <> 255) ->
  OutOfBounds (CheckLeds s) = OutOfBounds s.
Proof.
  intros Hv Hact. unfold CheckLeds. cbv zeta. rewrite CheckLeds_pins_OutOfBounds.
  destruct (PatchMode s) eqn:Hpm; [|destruct (negb false && negb (SaveMode s))].
  - now apply CheckLeds_in_bounds_patch, Hact.
  - pose proof (CheckLeds_normal_frame s) as Ht. cbv zeta in Ht. revert Ht.
    generalize (for_upto 4 CheckLeds_normal s). intros t (Ho & Hi & Hm).
    pose proof (v_SelIndex s Hv) as Hsi.
    assert (Hcm : taper_ok (rd (ChnlMode s) (SelIndex s))).
    { apply (rd_Forall taper_ok); [apply Hv|]. rewrite (sz_ChnlMode s (v_sized s Hv)). lia. }
    rewrite (chk_in_range 4 (SelIndex t) t) by lia.
    rewrite chk_in_range by (rewrite Hm, Hi; unfold taper_ok in Hcm; lia).
    sets. exact Ho.
  - apply CheckLeds_in_bounds_save.
Qed.

(** C9 at the failing input.  On the demo board in Normal mode with both
    buttons held, a state the firmware reaches with every index so far
    inside its array, the pass of [loop] that switches to Patch mode
    leaves no patch active and has [CheckLeds] index [PatchChnlState]
    with 255. *)
Theorem patch_mode_led_refresh_out_of_bounds :
  exists s s',
    run press_both demo_boot = Some s /\ reachable s /\
    op_mode s = Normal /\ OutOfBounds s = None /\
    loop (mkInput 400 0 [(true, true)]) s = Some s' /\
    op_mode s' = Patch /\ PatchActive s' = 255 /\ OutOfBounds s' = Some 255.
Proof.
  assert (H : (fun s => (op_mode s, OutOfBounds s)) <$> run press_both demo_boot
              = Some (Normal, None)) by (vm_compute; reflexivity).
  assert (H' : (fun s => (op_mode s, PatchActive s, OutOfBounds s))
                 <$> (run press_both demo_boot ≫= loop (mkInput 400 0 [(true, true)]))
               = Some (Patch, 255, Some 255)) by (vm_compute; reflexivity).
  assert (Hok : forallb event_ok press_both = true) by reflexivity.
  destruct (run press_both demo_boot) as [s|] eqn:E; [|discriminate].
  cbn [mbind option_bind] in H'.
  destruct (loop (mkInput 400 0 [(true, true)]) s) as [s'|] eqn:E'; [|discriminate].
  exists s, s'. injection H as H1 H2. injection H' as H3 H4 H5.
  pose proof (run_reachable _ _ _ reachable_demo_boot Hok E).
  repeat split; assumption.
Qed.
(** ** The selection index after a mode change, and the short press in
       Save mode *)

(** C5 at the failing input.  On the demo board switched to Patch mode,
    with both buttons held again and the selector turned from 0 to 2
    before the pass, the pass goes back to Normal mode, stores the record
    and leaves the selection index at 2, not 0: the selector handler of
    Patch mode runs after the reset.  With the selector left alone the
    index is 0. *)
Theorem combined_press_with_selector_move :
  exists s s' s0,
    run (press_both ++ [pass 0] ++ press_both) demo_boot = Some s /\
    reachable s /\ op_mode s = Patch /\ both_pressed s /\
    loop (mkInput 400 512 [(true, true)]) s = Some s' /\
    op_mode s' = Normal /\ Eeprom s' = NvmData (UpdateNvmData s') /\
    SelIndex s' = 2 /\
    loop (mkInput 400 0 [(true, true)]) s = Some s0 /\
    op_mode s0 = Normal /\ SelIndex s0 = 0.
Proof.
  set (script := press_both ++ [pass 0] ++ press_both).
  assert (H : (fun s => (op_mode s, Btn0Pressed s, Btn0Released s,
                         Btn1Pressed s, Btn1Released s))
                <$> run script demo_boot
              = Some (Patch, true, false, true, false)) by (vm_compute; reflexivity).
  assert (H' : (fun s => (op_mode s, SelIndex s,
                          bool_decide (Eeprom s = NvmData (UpdateNvmData s))))
                 <$> (run script demo_boot ≫= loop (mkInput 400 512 [(true, true)]))
               = Some (Normal, 2, true)) by (vm_compute; reflexivity).
  assert (H0 : (fun s => (op_mode s, SelIndex s))
                 <$> (run script demo_boot ≫= loop (mkInput 400 0 [(true, true)]))
               = Some (Normal, 0)) by (vm_compute; reflexivity).
  assert (Hok : forallb event_ok script = true) by reflexivity.
  destruct (run script demo_boot) as [s|] eqn:E; [|discriminate].
  cbn [mbind option_bind] in H', H0.
  destruct (loop (mkInput 400 512 [(true, true)]) s) as [s'|] eqn:E'; [|discriminate].
  destruct (loop (mkInput 400 0 [(true, true)]) s) as [s0|] eqn:E0; [|discriminate].
  exists s, s', s0. injection H as H1 H2 H3 H4 H5. injection H' as H6 H7 H8.
  injection H0 as H9 H10. apply bool_decide_eq_true in H8.
  pose proof (run_reachable _ _ _ reachable_demo_boot Hok E).
  unfold both_pressed. repeat split; assumption.
Qed.

(** Binding and mapping over a value that is there. *)
Lemma bind_Some {A B} (f : A -> option B) (x : A) : Some x ≫= f = f x.
Proof. reflexivity. Qed.

Lemma fmap_Some_eq {A B} (f : A -> B) (x : A) : f <$> Some x = Some (f x).
Proof. reflexivity. Qed.

(** C6 at the failing input.  On the demo board brought into Save mode,
    the select button is pressed, held over two 500 ms windows and let
    go.  The pass that follows leaves the mode and the patches as they
    were, but the counter stays at 2 and keeps counting: one window later
    it is 3.  The button flags stay latched, so the board remains in Save
    mode even after a further long press. *)
Theorem save_mode_short_press_keeps_counter :
  exists s s',
    run (long_press 0 ++ press_select ++ [pass 0] ++ hold_select 100
         ++ [Tick true true]) demo_boot = Some s /\
    reachable s /\ op_mode s = Save /\
    Btn1Pressed s = true /\ Btn1Released s = true /\ SaveModeCounter s = 2 /\
    loop (mkInput 400 0 [(true, true)]) s = Some s' /\
    op_mode s' = Save /\
    PatchChnlState s' = PatchChnlState s /\ PatchModeState s' = PatchModeState s /\
    SaveModeCounter s' = 2 /\ SvMdCntrActive s' = true /\
    SaveModeCounter <$> run (idle 50) s' = Some 3 /\
    op_mode <$> run (long_press 0) s' = Some Save.
Proof.
  set (script := long_press 0 ++ press_select ++ [pass 0] ++ hold_select 100
                 ++ [Tick true true]).
  assert (H : (fun s => (op_mode s, Btn1Pressed s, Btn1Released s, SaveModeCounter s))
                <$> run script demo_boot
              = Some (Save, true, true, 2)) by (vm_compute; reflexivity).
  assert (H' : (fun s => (op_mode s, SaveModeCounter s, SvMdCntrActive s))
                 <$> (run script demo_boot ≫= loop (mkInput 400 0 [(true, true)]))
               = Some (Save, 2, true)) by (vm_compute; reflexivity).
  assert (Hp : (run script demo_boot ≫= fun s =>
                  (fun s' => bool_decide (PatchChnlState s' = PatchChnlState s)
                             && bool_decide (PatchModeState s' = PatchModeState s))
                    <$> loop (mkInput 400 0 [(true, true)]) s)
               = Some true) by (vm_compute; reflexivity).
  assert (Hi : ((run script demo_boot ≫= loop (mkInput 400 0 [(true, true)]))
                  ≫= fun s' => SaveModeCounter <$> run (idle 50) s')
               = Some 3) by (vm_compute; reflexivity).
  assert (Hl : ((run script demo_boot ≫= loop (mkInput 400 0 [(true, true)]))
                  ≫= fun s' => op_mode <$> run (long_press 0) s')
               = Some Save) by (vm_compute; reflexivity).
  assert (Hok : forallb event_ok script = true) by (vm_compute; reflexivity).
  destruct (run script demo_boot) as [s|] eqn:E; [|discriminate H].
  rewrite bind_Some in H'. rewrite bind_Some in Hp. rewrite bind_Some in Hi.
  rewrite bind_Some in Hl.
  destruct (loop (mkInput 400 0 [(true, true)]) s) as [s'|] eqn:E'; [|discriminate H'].
  rewrite bind_Some in Hi. rewrite bind_Some in Hl.
  rewrite fmap_Some_eq in H. rewrite fmap_Some_eq in H'. rewrite fmap_Some_eq in Hp.
  exists s, s'. injection H as H1 H2 H3 H4. injection H' as H5 H6 H7.
  injection Hp as Hp. apply andb_true_iff in Hp as [Hp1 Hp2].
  apply bool_decide_eq_true in Hp1, Hp2.
  pose proof (run_reachable _ _ _ reachable_demo_boot Hok E).
  repeat split; assumption.
Qed.

(** C7 at the failing input.  On the demo board with channel 0 on and
    linear, channel 2 on and logarithmic, channels 1 and 3 off, Save mode
    is entered, the selector is set to 2 and the select button is held over
    four windows.  The pass that commits copies the channels into patch 2,
    returns to Normal mode and stores the record, and leaves the
    selection index at 2, the selector reading, not 0. *)
Theorem save_commit_leaves_selector_index :
  exists s s',
    run (set_channels ++ long_press 0 ++ [pass 512] ++ press_select
         ++ [pass 512] ++ hold_select 200) demo_boot = Some s /\
    reachable s /\ op_mode s = Save /\ SelIndex s = 2 /\
    Btn1Pressed s = true /\ Btn1Released s = false /\ 3 < SaveModeCounter s /\
    ChnlState s = [true; false; true; false] /\ ChnlMode s = [0; 0; 2; 0] /\
    loop (mkInput 400 512 [(true, true)]) s = Some s' /\
    op_mode s' = Normal /\
    rd (PatchChnlState s') 2 = [true; false; true; false] /\
    rd (PatchModeState s') 2 = [0; 0; 2; 0] /\
    Eeprom s' = NvmData (UpdateNvmData s') /\
    SelIndex s' = 2.
Proof.
  set (script := set_channels ++ long_press 0 ++ [pass 512] ++ press_select
                 ++ [pass 512] ++ hold_select 200).
  assert (H : (fun s => (op_mode s, SelIndex s, Btn1Pressed s, Btn1Released s,
                         3 <? SaveModeCounter s, ChnlState s, ChnlMode s))
                <$> run script demo_boot
              = Some (Save, 2, true, false, true, [true; false; true; false],
                      [0; 0; 2; 0])) by (vm_compute; reflexivity).
  assert (H' : (fun s => (op_mode s, rd (PatchChnlState s) 2, rd (PatchModeState s) 2,
                          bool_decide (Eeprom s = NvmData (UpdateNvmData s)),
                          SelIndex s))
                 <$> (run script demo_boot ≫= loop (mkInput 400 512 [(true, true)]))
               = Some (Normal, [true; false; true; false], [0; 0; 2; 0], true, 2))
    by (vm_compute; reflexivity).
  assert (Hok : forallb event_ok script = true) by (vm_compute; reflexivity).
  destruct (run script demo_boot) as [s|] eqn:E; [|discriminate H].
  rewrite bind_Some in H'.
  destruct (loop (mkInput 400 512 [(true, true)]) s) as [s'|] eqn:E';
    [|discriminate H'].
  rewrite fmap_Some_eq in H. rewrite fmap_Some_eq in H'.
  exists s, s'. injection H as H1 H2 H3 H4 H5 H6 H7. injection H' as G1 G2 G3 G4 G5.
  apply Z.ltb_lt in H5. apply bool_decide_eq_true in G4.
  pose proof (run_reachable _ _ _ reachable_demo_boot Hok E).
  repeat split; assumption.
Qed.
(** What the committing pass does in general: everything the commit is to
    do, except that the selection index ends as the selector reading. *)
Lemma save_commit_pass s inp :
  valid s -> adc_ok inp -> op_mode s = Save ->
  Btn1Pressed s = true -> Btn1Released s = false -> 3 < SaveModeCounter s ->
  release_seen (levels inp) ->
  exists s',
    loop inp s = Some s' /\ op_mode s' = Normal /\
    PatchChnlState s' = wr (PatchChnlState s) (SelIndex s) (ChnlState s) /\
    PatchModeState s' = wr (PatchModeState s) (SelIndex s) (ChnlMode s) /\
    Eeprom s' = NvmData (UpdateNvmData s') /\
    SelIndex s' = byte (Z.shiftr (word (adcSel inp)) 8).
Proof.
  intros Hv Hadc Hmode P1 R1 Hc Hrel.
  destruct (loop_returns inp s Hrel) as [s' Hs']. exists s'. split; [exact Hs'|].
  pose proof (valid_loop inp s s' Hv Hadc Hs') as Hv'.
  assert (Hpm : PatchMode s = false /\ SaveMode s = true).
  { unfold op_mode in Hmode. destruct (PatchMode s), (SaveMode s); try discriminate; auto. }
  destruct Hpm as [Hpm Hsm].
  rewrite (UpdateNvmData_eq s' (v_sized s' Hv')). sets.
  revert Hv' Hs'. unfold loop. cbv zeta. destruct Hadc as [He Hs].
  destruct (adc_to_ExpVal _ He) as [-> Hr].
  assert (Hu : valid (CheckSelector (adcSel inp)
                        (set_ExpVal (Z.shiftr (adcExp inp) 2) s)))
    by (apply valid_CheckSelector; [assumption|]; now apply valid_set_ExpVal).
  revert Hu. rewrite CheckSelector_eq. cbv zeta.
  set (u := set_LastSelVal _ _).
  assert (Hf : PatchMode u = false /\ SaveMode u = true /\
               Btn1Pressed u = true /\ Btn1Released u = false /\
               (3 <? SaveModeCounter u) = true /\
               SelIndex u = SelIndex s /\ ChnlState u = ChnlState s /\
               ChnlMode u = ChnlMode s /\ PatchChnlState u = PatchChnlState s /\
               PatchModeState u = PatchModeState s /\
               SelVal u = byte (Z.shiftr (word (adcSel inp)) 8)).
  { subst u. sets. repeat split; try assumption. now apply Z.ltb_lt. }
  clearbody u.
  destruct Hf as (Hpmu & Hsmu & P1u & R1u & Hcu & Hsi & Hcs & Hcm & Hpc & Hpms & Hsv).
  intros Hu. rewrite Hpmu, Hsmu. cbn [negb andb].
  unfold loop_save. rewrite P1u, R1u. cbn [negb andb]. cbv zeta. sets. rewrite Hcu.
  unfold loop_save_commit. cbv zeta.
  set (w := chk 4 _ _).
  assert (Hw : valid w /\ SelIndex w = SelIndex s /\ ChnlState w = ChnlState s /\
               ChnlMode w = ChnlMode s /\ PatchChnlState w = PatchChnlState s /\
               PatchModeState w = PatchModeState s /\ SelVal w = SelVal u /\
               PatchMode w = false).
  { subst w. split.
    - apply valid_chk, valid_set_SaveModeCounter, valid_set_SvMdCntrActive,
        valid_set_SvMdCntrActive, Hu.
    - unfold chk. split_if; sets; repeat split; first [assumption | reflexivity]. }
  clearbody w. destruct Hw as (Hw & Wsi & Wcs & Wcm & Wpc & Wpm & Wsv & Wmode).
  pose proof (valid_save_copy w Hw) as Hcopy. revert Hcopy.
  rewrite (save_copy_eq w Hw). rewrite Wsi, Wcs, Wcm, Wpc, Wpm. intros Hcopy.
  intros Hv'.
  match goal with |- context [wait_Btn1_release ?lv ?x] =>
    destruct (wait_Btn1_release lv x) as [t|] eqn:E end;
    cbn [mbind option_bind]; [|discriminate].
  intros [= <-].
  assert (Ht : valid t).
  { apply (valid_wait_Btn1_release _ _ _ E), valid_CheckLeds.
    apply valid_set_SaveMode_false, valid_set_SelValChng, valid_set_SelIndex;
      [lia | exact Hcopy]. }
  rewrite (UpdateNvmData_eq t (v_sized t Ht)). clear Ht Hv'.
  frames. unfold nvm_image, op_mode. sets. rewrite Wsv, Hsv, Wmode.
  repeat split.
Qed.

(** * Further properties of the firmware *)

(** ** The EEPROM follows the configuration *)

Lemma nvm_image_config s t : config s = config t -> nvm_image s = nvm_image t.
Proof.
  unfold config, nvm_image. intros [= -> -> -> ->]. reflexivity.
Qed.

(** Decoding the image of a valid state gives its configuration. *)
Lemma decode_nvm_image s : valid s -> decode_config (nvm_image s) = config s.
Proof.
  intros Hv. unfold decode_config, config.
  pose proof (valid_patch_rows s 0 Hv ltac:(lia)) as (S0 & L0 & T0).
  pose proof (valid_patch_rows s 1 Hv ltac:(lia)) as (S1 & L1 & T1).
  pose proof (valid_patch_rows s 2 Hv ltac:(lia)) as (S2 & L2 & T2).
  pose proof (valid_patch_rows s 3 Hv ltac:(lia)) as (S3 & L3 & T3).
  pose proof (pack_modes_layout _ (sz_ChnlMode s (v_sized s Hv)) (v_ChnlMode s Hv))
    as (Ec & _ & Dc & _).
  destruct (pack_modes_layout _ L0 T0) as (_ & _ & D0 & _).
  destruct (pack_modes_layout _ L1 T1) as (_ & _ & D1 & _).
  destruct (pack_modes_layout _ L2 T2) as (_ & _ & D2 & _).
  destruct (pack_modes_layout _ L3 T3) as (_ & _ & D3 & _).
  destruct (pack_states_layout _ S0) as (_ & E0 & _).
  destruct (pack_states_layout _ S1) as (_ & E1 & _).
  destruct (pack_states_layout _ S2) as (_ & E2 & _).
  destruct (pack_states_layout _ S3) as (_ & E3 & _).
  cbn [map].
  change (rd (nvm_image s) 9) with (bool_to_byte (PatchMode s)).
  change (rd (nvm_image s) 0) with (pack_ChnlMode (ChnlMode s)).
  change (rd (nvm_image s) (1 + 0 * 2)) with (pack_states (rd (PatchChnlState s) 0)).
  change (rd (nvm_image s) (2 + 0 * 2)) with (pack_modes (rd (PatchModeState s) 0)).
  change (rd (nvm_image s) (1 + 1 * 2)) with (pack_states (rd (PatchChnlState s) 1)).
  change (rd (nvm_image s) (2 + 1 * 2)) with (pack_modes (rd (PatchModeState s) 1)).
  change (rd (nvm_image s) (1 + 2 * 2)) with (pack_states (rd (PatchChnlState s) 2)).
  change (rd (nvm_image s) (2 + 2 * 2)) with (pack_modes (rd (PatchModeState s) 2)).
  change (rd (nvm_image s) (1 + 3 * 2)) with (pack_states (rd (PatchChnlState s) 3)).
  change (rd (nvm_image s) (2 + 3 * 2)) with (pack_modes (rd (PatchModeState s) 3)).
  rewrite Ec, Dc, D0, D1, D2, D3, E0, E1, E2, E3, byte_to_bool_to_byte.
  destruct Hv as [[] _ _ _ _ _ _ _].
  destruct (rows_4_inv (PatchModeState s)) as (?&?&?&?&?&?&?&?&?&?&?&?&?&?&?&?&->);
    try assumption.
  destruct (rows_4_inv (PatchChnlState s)) as (?&?&?&?&?&?&?&?&?&?&?&?&?&?&?&?&->);
    try assumption.
  reflexivity.
Qed.

Lemma config_ReadNvmData s :
  sized s -> config (ReadNvmData s) = decode_config (Eeprom s).
Proof. intros Hs. rewrite (ReadNvmData_eq s Hs). reflexivity. Qed.

Lemma same_store_refl s : same_store s s.
Proof. now split. Qed.

Lemma same_store_trans s t u : same_store s t -> same_store t u -> same_store s u.
Proof. intros [E1 C1] [E2 C2]. split; congruence. Qed.

Lemma same_store_leds_only s t : leds_only s t -> same_store s t.
Proof. intros (c & m & p & o & ->). now split. Qed.

Lemma stored_or_same_then s t u :
  stored_or_same s t -> same_store t u -> stored_or_same s u.
Proof.
  intros [Hst|Hst] [He Hc].
  - left. now apply (same_store_trans s t u).
  - right. rewrite He, Hst. now apply nvm_image_config.
Qed.

Lemma UpdateNvmData_stores s :
  sized s -> Eeprom (UpdateNvmData s) = nvm_image (UpdateNvmData s).
Proof. intros Hs. rewrite (UpdateNvmData_eq s Hs). reflexivity. Qed.

Lemma ClrBtns_UpdateNvmData_stores s :
  sized s ->
  Eeprom (ClrBtns (UpdateNvmData s)) = nvm_image (ClrBtns (UpdateNvmData s)).
Proof. intros Hs. rewrite (UpdateNvmData_eq s Hs). reflexivity. Qed.

(** The state a blocking wait returns is stored whole. *)
Ltac stored_waited E :=
  right;
  match goal with |- context [UpdateNvmData ?x] =>
    apply (ClrBtns_UpdateNvmData_stores x), v_sized end;
  first [apply (valid_wait_any_release _ _ _ E)
        |apply (valid_wait_Btn1_release _ _ _ E)].

Lemma loop_patch_buttons_store lv s t :
  valid s -> loop_patch_buttons lv s = Some t -> stored_or_same s t.
Proof.
  intros Hv. pose proof (v_SelIndex s Hv).
  unfold loop_patch_buttons. repeat split_if; cbv zeta;
    try after_wait; intros [= <-];
    try (left; frames; now split).
  stored_waited E.
  apply valid_CheckLeds, valid_set_SelIndex; [lia|]. auto with valid.
Qed.

Lemma loop_patch_selector_store s : same_store s (loop_patch_selector s).
Proof. unfold loop_patch_selector. split_if; cbv zeta; frames; now split. Qed.

Lemma outputs_store s :
  same_store s (loop_patch_outputs s) /\ same_store s (loop_normal_outputs s).
Proof.
  destruct (outputs_frame s) as [(l & o & ->) (l' & o' & ->)]. now repeat split.
Qed.

Lemma loop_normal_buttons_store lv s t :
  valid s -> PatchMode s = false -> SaveMode s = false ->
  loop_normal_buttons lv s = Some t -> stored_or_same s t.
Proof.
  intros Hv Hpm Hsm. pose proof (v_SelIndex s Hv).
  unfold loop_normal_buttons. repeat split_if; cbv zeta;
    try after_wait; intros [= <-];
    try (left; frames; now split).
  - stored_waited E.
    apply valid_CheckLeds, valid_set_PatchMode_true; [assumption|].
    apply valid_set_SelIndex; [lia|]. auto with valid.
  - stored_waited E.
    apply valid_CheckLeds, valid_set_SaveMode_true; [assumption|].
    apply valid_set_SvMdCntrActive, valid_set_SelIndex; [lia|]. auto with valid.
Qed.

Lemma loop_normal_selector_store s :
  valid s -> stored_or_same s (loop_normal_selector s).
Proof.
  intros Hv. unfold loop_normal_selector. split_if; cbv zeta.
  - right.
    match goal with |- context [UpdateNvmData ?x] =>
      apply (UpdateNvmData_stores x), v_sized end.
    auto 10 with valid.
  - left. apply same_store_refl.
Qed.

Lemma loop_save_store lv s t :
  valid s -> loop_save lv s = Some t -> stored_or_same s t.
Proof.
  intros Hv. unfold loop_save.
  match goal with |- (?m ≫= _) = _ -> _ =>
    assert (Hm : forall u, m = Some u -> stored_or_same s u) end.
  { intros u. repeat split_if; cbv zeta.
    - unfold loop_save_commit. cbv zeta. after_wait. intros [= <-].
      stored_waited E.
      apply valid_CheckLeds, valid_set_SaveMode_false, valid_set_SelValChng.
      apply valid_set_SelIndex; [lia|]. apply valid_save_copy. auto with valid.
    - intros [= <-]. left. now split.
    - intros [= <-]. left. apply same_store_refl. }
  destruct (_ : option State) as [u|] eqn:E; cbn [mbind option_bind]; [|discriminate].
  intros [= <-]. apply (stored_or_same_then s u); [now apply Hm|]. now split.
Qed.

Lemma loop_store inp s s' :
  valid s -> adc_ok inp -> loop inp s = Some s' -> stored_or_same s s'.
Proof.
  intros Hv [He Hs]. unfold loop. cbv zeta.
  destruct (adc_to_ExpVal _ He) as [-> Hr].
  assert (Hu : valid (CheckSelector (adcSel inp)
                        (set_ExpVal (Z.shiftr (adcExp inp) 2) s)))
    by (apply valid_CheckSelector; [assumption|]; now apply valid_set_ExpVal).
  assert (Hsame : same_store s (CheckSelector (adcSel inp)
                                  (set_ExpVal (Z.shiftr (adcExp inp) 2) s)))
    by (rewrite CheckSelector_eq; cbv zeta; now split).
  revert Hu Hsame.
  generalize (CheckSelector (adcSel inp) (set_ExpVal (Z.shiftr (adcExp inp) 2) s)).
  intros u Hu Hsu.
  assert (Hgo : forall t, stored_or_same u t -> stored_or_same s t).
  { intros t [[E C]|E]; [left|now right]. destruct Hsu. split; congruence. }
  destruct (PatchMode u) eqn:Hpm; [|destruct (SaveMode u) eqn:Hsm; cbn [negb andb]].
  - unfold loop_patch.
    destruct (loop_patch_buttons (levels inp) u) as [t|] eqn:E;
      cbn [mbind option_bind]; [|discriminate]. intros [= <-]. apply Hgo.
    apply (stored_or_same_then u (loop_patch_selector t)); [|apply outputs_store].
    apply (stored_or_same_then u t); [|apply loop_patch_selector_store].
    exact (loop_patch_buttons_store _ _ _ Hu E).
  - intros E. apply Hgo. exact (loop_save_store _ _ _ Hu E).
  - unfold loop_normal.
    destruct (loop_normal_buttons (levels inp) u) as [t|] eqn:E;
      cbn [mbind option_bind]; [|discriminate]. intros [= <-]. apply Hgo.
    apply (stored_or_same_then u (loop_normal_selector t)); [|apply outputs_store].
    pose proof (valid_loop_normal_buttons _ _ _ Hu Hpm Hsm E) as Ht.
    destruct (loop_normal_buttons_store _ _ _ Hu Hpm Hsm E) as [Hbt|Hbt];
      destruct (loop_normal_selector_store t Ht) as [Hsel|Hsel].
    + left. now apply (same_store_trans u t).
    + now right.
    + right. destruct Hsel as [He' Hc']. rewrite He', Hbt. now apply nvm_image_config.
    + now right.
Qed.

Lemma IntTmr1_same_store b0 b1 s : same_store s (IntTmr1 b0 b1 s).
Proof.
  unfold IntTmr1, Tmr10msTask, Tmr500msTask.
  set (s1 := CheckBtns b0 b1 (set_TimerCount (byte (TimerCount s + 1)) s)).
  assert (H1 : same_store s s1).
  { subst s1. destruct (CheckBtns_btns b0 b1 (set_TimerCount (byte (TimerCount s + 1)) s))
      as (p0 & r0 & r1 & -> & _). now split. }
  clearbody s1. cbv zeta.
  set (s2 := if TimerCount s1 mod 10 =? 0 then Tmr100msTask s1 else s1).
  assert (H2 : same_store s s2).
  { subst s2. destruct (_ =? 0); [|assumption].
    apply (same_store_trans s s1); [assumption|]. unfold Tmr100msTask.
    apply (same_store_trans s1 (CheckLeds s1)); apply same_store_leds_only;
      [apply CheckLeds_leds_only | apply LedsFastBlink_leds_only]. }
  clearbody s2.
  set (s3 := if TimerCount s2 mod 25 =? 0 then Tmr250msTask s2 else s2).
  assert (H3 : same_store s s3).
  { subst s3. destruct (_ =? 0); [|assumption].
    apply (same_store_trans s s2); [assumption|].
    apply same_store_leds_only, LedsSlowBlink_leds_only. }
  clearbody s3.
  destruct (_ =? 0); [|assumption].
  apply (same_store_trans s s3); [assumption|].
  unfold CheckSaveMode. destruct (SvMdCntrActive s3); now split.
Qed.

(** Start-up leaves the EEPROM as it finds it and loads the persisted
    variables from it. *)
Lemma setup_store rom adcE adcS b0 b1 :
  length rom = 10%nat ->
  Eeprom (setup rom adcE adcS b0 b1) = rom /\
  config (setup rom adcE adcS b0 b1) = decode_config rom.
Proof.
  intros Hlen. destruct (length_10_inv _ Hlen) as (r0&r1&r2&r3&r4&r5&r6&r7&r8&r9&->).
  split; destruct b0, b1; run_arrays; reflexivity.
Qed.

(** In every reachable state the EEPROM decodes to the persisted
    variables. *)
Lemma reachable_stored s : reachable s -> decode_config (Eeprom s) = config s.
Proof.
  intros Hr. pose proof (reachable_valid s Hr) as Hv. revert Hv.
  induction Hr as [rom adcE adcS b0 b1 Hrom He Hs | s inp s' Hr IH Hadc Hloop
                  | s b0 b1 Hr IH]; intros Hv.
  - destruct (setup_store rom adcE adcS b0 b1 Hrom) as [-> ->]. reflexivity.
  - pose proof (reachable_valid s Hr) as Hvs.
    destruct (loop_store inp s s' Hvs Hadc Hloop) as [[He Hc]|He].
    + rewrite He, Hc. now apply IH.
    + rewrite He. now apply decode_nvm_image.
  - destruct (IntTmr1_same_store b0 b1 s) as [He Hc]. rewrite He, Hc.
    apply IH. now apply reachable_valid.
Qed.

(** X1. Whatever state the firmware has reached, a restart from the EEPROM
    as it is then brings back the same channel tapers, the same patches
    and the same Normal or Patch flag. *)
Theorem restart_restores_config s adcE adcS b0 b1 :
  reachable s -> config (setup (Eeprom s) adcE adcS b0 b1) = config s.
Proof.
  intros Hr. rewrite <- (reachable_stored s Hr).
  apply setup_store, sz_Eeprom, v_sized, reachable_valid, Hr.
Qed.

(** ** Timer ticks *)

Lemma ticks_cons b0 b1 lv s :
  ticks ((b0, b1) :: lv) s = ticks lv (IntTmr1 b0 b1 s).
Proof. reflexivity. Qed.

Lemma CheckBtns_latch b0 b1 s :
  CheckBtns b0 b1 s
  = set_btns (fst (latch b0 (Btn0Pressed s, Btn0Released s)))
             (snd (latch b0 (Btn0Pressed s, Btn0Released s)))
             (fst (latch b1 (Btn1Pressed s, Btn1Released s)))
             (snd (latch b1 (Btn1Pressed s, Btn1Released s))) s.
Proof.
  destruct_state s. destruct b0, b1, b0p, b0r, b1p, b1r; reflexivity.
Qed.

(** One tick: the divider, the long-press counter, the buttons and the
    LEDs, nothing else. *)
Lemma IntTmr1_frame b0 b1 s :
  exists c m p o,
    IntTmr1 b0 b1 s
    = set_tick (if byte (TimerCount s + 1) mod 50 =? 0 then 0
                else byte (TimerCount s + 1))
               (if (byte (TimerCount s + 1) mod 50 =? 0) && SvMdCntrActive s
                then byte (SaveModeCounter s + 1) else SaveModeCounter s)
               (fst (latch b0 (Btn0Pressed s, Btn0Released s)))
               (snd (latch b0 (Btn0Pressed s, Btn0Released s)))
               (fst (latch b1 (Btn1Pressed s, Btn1Released s)))
               (snd (latch b1 (Btn1Pressed s, Btn1Released s)))
               c m p o s.
Proof.
  unfold IntTmr1, Tmr10msTask, Tmr500msTask. cbv zeta.
  rewrite CheckBtns_latch.
  set (s1 := set_btns _ _ _ _ (set_TimerCount _ s)).
  set (s2 := if TimerCount s1 mod 10 =? 0 then Tmr100msTask s1 else s1).
  assert (H2 : leds_only s1 s2).
  { subst s2. destruct (_ =? 0); [|apply leds_only_refl]. unfold Tmr100msTask.
    apply (leds_only_step s1 (CheckLeds s1));
      [apply CheckLeds_leds_only | apply LedsFastBlink_leds_only]. }
  clearbody s2.
  set (s3 := if TimerCount s2 mod 25 =? 0 then Tmr250msTask s2 else s2).
  assert (H3 : leds_only s1 s3).
  { subst s3. destruct (_ =? 0); [|assumption].
    apply (leds_only_step s1 s2); [assumption | apply LedsSlowBlink_leds_only]. }
  clearbody s3. clear H2 s2.
  destruct H3 as (c & m & p & o & ->). exists c, m, p, o.
  subst s1. unfold CheckSaveMode, set_tick, set_leds, set_btns. sets.
  destruct_state s. sets.
  destruct (byte (tc + 1) mod 50 =? 0); [destruct sca|]; reflexivity.
Qed.





(** X3. The timer interrupt writes no pot and no EEPROM cell, and changes
    neither the mode, the selection, the channel states, the tapers nor
    the patches: whatever levels the ticks sample, all of that is as
    before. *)
Theorem ticks_leave_settings lv s : beyond_tick (ticks lv s) = beyond_tick s.
Proof.
  revert s. induction lv as [|[b0 b1] lv IH]; intros s; [reflexivity|].
  rewrite ticks_cons, IH.
  destruct (IntTmr1_frame b0 b1 s) as (c & m & p & o & ->). reflexivity.
Qed.

(** ** Button flags *)

Lemma IntTmr1_latch b0 b1 s :
  (Btn0Pressed (IntTmr1 b0 b1 s), Btn0Released (IntTmr1 b0 b1 s))
  = latch b0 (Btn0Pressed s, Btn0Released s) /\
  (Btn1Pressed (IntTmr1 b0 b1 s), Btn1Released (IntTmr1 b0 b1 s))
  = latch b1 (Btn1Pressed s, Btn1Released s).
Proof.
  destruct (IntTmr1_frame b0 b1 s) as (c & m & p & o & ->).
  unfold set_tick, set_leds, set_btns. sets. now split.
Qed.

Lemma press_first_latch b0 b1 s : press_first s -> press_first (IntTmr1 b0 b1 s).
Proof.
  intros [H0 H1]. destruct (IntTmr1_latch b0 b1 s) as [E0 E1].
  unfold latch in E0, E1. cbn [fst snd] in E0, E1.
  injection E0 as P0 R0. injection E1 as P1 R1.
  unfold press_first. rewrite P0, R0, P1, R1. split.
  - destruct b0, (Btn0Pressed s), (Btn0Released s); cbn; auto.
  - destruct b1, (Btn1Pressed s), (Btn1Released s); cbn; auto.
Qed.

(** A pass hands the button flags on as they are or cleared. *)
Lemma loop_patch_buttons_btns lv s t :
  loop_patch_buttons lv s = Some t ->
  btns t = btns s \/ btns t = (false, false, false, false).
Proof.
  unfold loop_patch_buttons. repeat split_if; cbv zeta;
    try after_wait; intros [= <-]; unfold btns;
    first [left; reflexivity | right; frames; reflexivity].
Qed.

Lemma loop_normal_buttons_btns lv s t :
  loop_normal_buttons lv s = Some t ->
  btns t = btns s \/ btns t = (false, false, false, false).
Proof.
  unfold loop_normal_buttons. repeat split_if; cbv zeta;
    try after_wait; intros [= <-]; unfold btns;
    first [left; reflexivity | right; frames; reflexivity].
Qed.

Lemma loop_save_btns lv s t :
  loop_save lv s = Some t ->
  btns t = btns s \/ btns t = (false, false, false, false).
Proof.
  unfold loop_save, loop_save_commit.
  destruct (Btn1Pressed s), (Btn1Released s); cbn [negb andb]; cbv zeta; sets;
    try (destruct (3 <? SaveModeCounter s)); cbv zeta;
    try (match goal with |- ((?w ≫= ?f) ≫= _) = _ -> _ =>
           let u := fresh "u" in let E := fresh "E" in
           destruct w as [u|] eqn:E; [|discriminate] end);
    cbn [mbind option_bind]; intros [= <-]; unfold btns;
    first [left; reflexivity | right; frames; reflexivity].
Qed.

Lemma selector_outputs_btns s :
  btns (loop_patch_outputs (loop_patch_selector s)) = btns s /\
  btns (loop_normal_outputs (loop_normal_selector s)) = btns s.
Proof.
  unfold loop_patch_selector, loop_normal_selector, btns.
  split; out_frames; split_if; cbv zeta; frames; reflexivity.
Qed.

Lemma loop_btns inp s s' :
  loop inp s = Some s' ->
  btns s' = btns s \/ btns s' = (false, false, false, false).
Proof.
  unfold loop. cbv zeta. rewrite CheckSelector_eq. cbv zeta.
  set (u := set_LastSelVal _ _).
  assert (Hu : btns u = btns s) by reflexivity. clearbody u. rewrite <- Hu.
  destruct (PatchMode u); [|destruct (negb false && negb (SaveMode u))].
  - unfold loop_patch.
    destruct (loop_patch_buttons (levels inp) u) as [t|] eqn:E;
      cbn [mbind option_bind]; [|discriminate]. intros [= <-].
    rewrite (proj1 (selector_outputs_btns t)).
    exact (loop_patch_buttons_btns _ _ _ E).
  - unfold loop_normal.
    destruct (loop_normal_buttons (levels inp) u) as [t|] eqn:E;
      cbn [mbind option_bind]; [|discriminate]. intros [= <-].
    rewrite (proj2 (selector_outputs_btns t)).
    exact (loop_normal_buttons_btns _ _ _ E).
  - apply loop_save_btns.
Qed.

Lemma press_first_setup rom adcE adcS b0 b1 :
  length rom = 10%nat -> press_first (setup rom adcE adcS b0 b1).
Proof.
  intros Hlen. destruct (length_10_inv _ Hlen) as (r0&r1&r2&r3&r4&r5&r6&r7&r8&r9&->).
  unfold press_first. destruct b0, b1; run_arrays; split; discriminate.
Qed.

(** X4. The firmware never has a release on record without its press: in
    every state it can reach, a set released flag comes with the set
    pressed flag of the same button. *)
Theorem release_follows_press s : reachable s -> press_first s.
Proof.
  induction 1 as [rom adcE adcS b0 b1 Hrom He Hs | s inp s' _ IH Hadc Hloop
                 | s b0 b1 _ IH].
  - now apply press_first_setup.
  - destruct (loop_btns inp s s' Hloop) as [E|E]; unfold btns in E;
      injection E as E0 E1 E2 E3; unfold press_first.
    + rewrite E0, E1, E2, E3. exact IH.
    + rewrite E1, E3. split; discriminate.
  - now apply press_first_latch.
Qed.

Lemma ticks_app lv lv' s : ticks (lv ++ lv') s = ticks lv' (ticks lv s).
Proof. unfold ticks. apply foldl_app. Qed.

(** X5. A tap is kept until the main loop takes it: once a button has
    both its flags set, no tick changes either of them, whatever the
    button does in the meantime. *)
Theorem latched_tap_is_kept lv s :
  (Btn0Pressed s = true -> Btn0Released s = true ->
   Btn0Pressed (ticks lv s) = true /\ Btn0Released (ticks lv s) = true) /\
  (Btn1Pressed s = true -> Btn1Released s = true ->
   Btn1Pressed (ticks lv s) = true /\ Btn1Released (ticks lv s) = true).
Proof.
  revert s. induction lv as [|[b0 b1] lv IH]; intros s; [now split|].
  rewrite ticks_cons. destruct (IH (IntTmr1 b0 b1 s)) as [I0 I1].
  destruct (IntTmr1_latch b0 b1 s) as [E0 E1].
  unfold latch in E0, E1. cbn [fst snd] in E0, E1.
  injection E0 as P0 R0. injection E1 as P1 R1.
  split; intros Hp Hr; [apply I0 | apply I1]; rewrite ?P0, ?R0, ?P1, ?R1, Hp, Hr;
    reflexivity.
Qed.

(** ** The front panel *)

Lemma length_8_inv {A} (l : list A) :
  length l = 8%nat ->
  exists a0 a1 a2 a3 a4 a5 a6 a7, l = [a0; a1; a2; a3; a4; a5; a6; a7].
Proof.
  destruct l as [|a0 [|a1 [|a2 [|a3 [|a4 [|a5 [|a6 [|a7 [|a8 l]]]]]]]]];
    try discriminate.
  intros _. do 8 eexists. reflexivity.
Qed.

(** One round of a blink loop, as one write of the pin row. *)
Lemma blink_body k (body : Z -> State -> State) i p s :
  body = (fun i s =>
     let s := if rd (ChnlLedState s) i =? k then toggleLed i s else s in
     if rd (ModeLedState s) i =? k then toggleLed (i + 4) s else s) ->
  body i (set_LedPins p s)
  = set_LedPins
      (toggle_if (rd (ModeLedState s) i =? k) (i + 4)
         (toggle_if (rd (ChnlLedState s) i =? k) i p)) s.
Proof.
  intros ->. cbv beta zeta. unfold toggleLed, digitalWriteLed, toggle_if.
  destruct_state s. sets.
  destruct (rd cls i =? k); sets; destruct (rd mls i =? k); reflexivity.
Qed.

Lemma toggle_if_row (t0 t1 t2 t3 u0 u1 u2 u3 p0 p1 p2 p3 p4 p5 p6 p7 : bool) :
  toggle_if u3 (3 + 4) (toggle_if t3 3
    (toggle_if u2 (2 + 4) (toggle_if t2 2
      (toggle_if u1 (1 + 4) (toggle_if t1 1
        (toggle_if u0 (0 + 4) (toggle_if t0 0
          [p0; p1; p2; p3; p4; p5; p6; p7])))))))
  = [if t0 then negb p0 else p0; if t1 then negb p1 else p1;
     if t2 then negb p2 else p2; if t3 then negb p3 else p3;
     if u0 then negb p4 else p4; if u1 then negb p5 else p5;
     if u2 then negb p6 else p6; if u3 then negb p7 else p7].
Proof. destruct t0, t1, t2, t3, u0, u1, u2, u3; reflexivity. Qed.

Lemma set_LedPins_same s : set_LedPins (LedPins s) s = s.
Proof. now destruct_state s. Qed.

Lemma blink_loop k s :
  length (LedPins s) = 8%nat ->
  for_upto 4 (fun i s =>
    let s := if rd (ChnlLedState s) i =? k then toggleLed i s else s in
    if rd (ModeLedState s) i =? k then toggleLed (i + 4) s else s) s
  = set_LedPins (blink_pins k s) s.
Proof.
  intros Hp. remember (fun (i : Z) (s : State) => _) as body eqn:Hb.
  rewrite for_upto_4. rewrite <- (set_LedPins_same s) at 1.
  rewrite (blink_body k body 0 _ _ Hb), (blink_body k body 1 _ _ Hb),
    (blink_body k body 2 _ _ Hb), (blink_body k body 3 _ _ Hb).
  f_equal. unfold blink_pins.
  destruct (length_8_inv _ Hp) as (p0&p1&p2&p3&p4&p5&p6&p7&->).
  apply toggle_if_row.
Qed.

(** X6. The fast blinker inverts exactly the pins of the LEDs whose table
    entry is 3, the slow blinker those whose entry is 2; every other pin
    and everything else in the state is left as it is. *)
Theorem blinkers_toggle s :
  length (LedPins s) = 8%nat ->
  LedsFastBlink s = set_LedPins (blink_pins 3 s) s /\
  LedsSlowBlink s = set_LedPins (blink_pins 2 s) s.
Proof.
  intros Hp. split; [apply (blink_loop 3 s Hp) | apply (blink_loop 2 s Hp)].
Qed.

(** ** What the LEDs show *)

(** Take a state apart down to the entries of its LED tables, its pin row
    and its channel tables. *)
Ltac panel_shapes s Hv Hp :=
  let Hsz := fresh "Hsz" in
  pose proof (v_sized s Hv) as Hsz;
  destruct Hp as (Hp1 & Hp2 & Hp3);
  destruct_state s; fields;
  destruct Hsz as [szPM szPMr szPC szPCr szCS szCM szNvm szEe]; fields;
  destruct (length_8_inv _ Hp3) as (p0&p1&p2&p3&p4&p5&p6&p7&->);
  destruct (length_4_inv _ Hp1) as (c0&c1&c2&c3&->);
  destruct (length_4_inv _ Hp2) as (l0&l1&l2&l3&->).

(** X7. In Normal mode a LED refresh shows, on the channel LEDs, each
    channel that is not selected as steadily on or off and leaves the
    selected one to the blinkers, fast when it is on and slow when it is
    off; of the mode LEDs exactly the one of the selected channel's taper
    is lit. *)
Theorem CheckLeds_normal_panel s :
  valid s -> panel_sized s -> PatchMode s = false -> SaveMode s = false ->
  ChnlLedState (CheckLeds s)
  = map (fun i => if SelIndex s =? i
                  then (if rd (ChnlState s) i then 3 else 2)
                  else (if rd (ChnlState s) i then 1 else 0)) [0; 1; 2; 3] /\
  ModeLedState (CheckLeds s)
  = map (fun i => if rd (ChnlMode s) (SelIndex s) =? i then 1 else 0) [0; 1; 2; 3] /\
  LedPins (CheckLeds s)
  = map (fun i => if SelIndex s =? i then rd (LedPins s) i else rd (ChnlState s) i)
        [0; 1; 2; 3] ++
    map (fun i => rd (ChnlMode s) (SelIndex s) =? i) [0; 1; 2; 3].
Proof.
  intros Hv Hp Hpm Hsm.
  pose proof (v_SelIndex s Hv) as Hsel.
  assert (Hm : taper_ok (rd (ChnlMode s) (SelIndex s))).
  { apply rd_Forall; [apply (v_ChnlMode s Hv)|].
    rewrite (sz_ChnlMode s (v_sized s Hv)). lia. }
  apply taper_cases in Hm. apply index_cases in Hsel.
  panel_shapes s Hv Hp. subst pm sm.
  destruct (length_4_inv _ szCS) as (a0&a1&a2&a3&->).
  destruct (length_4_inv _ szCM) as (m0&m1&m2&m3&->).
  clear Hv Hp1 Hp2 Hp3.
  destruct Hsel as [-> | [-> | [-> | -> ]]];
    cbv [rd lookup_total list_lookup_total Z.to_nat Pos.to_nat Pos.iter_op
         Init.Nat.add] in Hm;
    destruct Hm as [-> | [-> | [-> | -> ]]];
    destruct a0, a1, a2, a3; vm_compute; repeat split.
Qed.

(** X8. In Save mode a LED refresh puts every channel LED steadily on or
    off as the channel is, hands the mode LED of the selected patch slot
    to the fast blinker and switches the other three mode LEDs off. *)
Theorem CheckLeds_save_panel s :
  valid s -> panel_sized s -> PatchMode s = false -> SaveMode s = true ->
  ChnlLedState (CheckLeds s)
  = map (fun i => bool_to_byte (rd (ChnlState s) i)) [0; 1; 2; 3] /\
  ModeLedState (CheckLeds s)
  = map (fun i => if SelIndex s =? i then 3 else 0) [0; 1; 2; 3] /\
  LedPins (CheckLeds s)
  = map (fun i => rd (ChnlState s) i) [0; 1; 2; 3] ++
    map (fun i => if SelIndex s =? i then rd (LedPins s) (i + 4) else false)
        [0; 1; 2; 3] /\
  OutOfBounds (CheckLeds s) = OutOfBounds s.
Proof.
  intros Hv Hp Hpm Hsm.
  pose proof (v_SelIndex s Hv) as Hsel. apply index_cases in Hsel.
  panel_shapes s Hv Hp. subst pm sm.
  destruct (length_4_inv _ szCS) as (a0&a1&a2&a3&->).
  clear Hv Hp1 Hp2 Hp3.
  destruct Hsel as [-> | [-> | [-> | -> ]]];
    destruct a0, a1, a2, a3; vm_compute; repeat split.
Qed.

(** X9. In Patch mode with a patch active a LED refresh shows the channels
    of the active patch on the channel LEDs, steadily; the mode LED of
    the active patch is lit when another slot is selected and blinks fast
    when it is the selected one, the LED of a selected slot that is not
    active blinks slowly, and the remaining mode LEDs are off.  No index
    leaves its array. *)
Theorem CheckLeds_patch_panel s :
  valid s -> panel_sized s -> PatchMode s = true -> 0 <= PatchActive s <= 3 ->
  ChnlLedState (CheckLeds s)
  = map (fun i => bool_to_byte (rd (rd (PatchChnlState s) (PatchActive s)) i))
        [0; 1; 2; 3] /\
  ModeLedState (CheckLeds s)
  = map (fun i => if PatchActive s =? i
                  then (if SelIndex s =? i then 3 else 1)
                  else (if SelIndex s =? i then 2 else 0)) [0; 1; 2; 3] /\
  LedPins (CheckLeds s)
  = map (fun i => rd (rd (PatchChnlState s) (PatchActive s)) i) [0; 1; 2; 3] ++
    map (fun i => if SelIndex s =? i then rd (LedPins s) (i + 4)
                  else PatchActive s =? i) [0; 1; 2; 3] /\
  OutOfBounds (CheckLeds s) = OutOfBounds s.
Proof.
  intros Hv Hp Hpm Hpa.
  pose proof (v_SelIndex s Hv) as Hsel. apply index_cases in Hsel.
  apply index_cases in Hpa.
  panel_shapes s Hv Hp. subst pm.
  destruct (rows_4_inv _ szPC szPCr)
    as (a00&a01&a02&a03&a10&a11&a12&a13&a20&a21&a22&a23&a30&a31&a32&a33&->).
  clear Hv Hp1 Hp2 Hp3.
  destruct Hpa as [-> | [-> | [-> | -> ]]].
  - destruct Hsel as [-> | [-> | [-> | -> ]]];
      destruct a00, a01, a02, a03; vm_compute; repeat split.
  - destruct Hsel as [-> | [-> | [-> | -> ]]];
      destruct a10, a11, a12, a13; vm_compute; repeat split.
  - destruct Hsel as [-> | [-> | [-> | -> ]]];
      destruct a20, a21, a22, a23; vm_compute; repeat split.
  - destruct Hsel as [-> | [-> | [-> | -> ]]];
      destruct a30, a31, a32, a33; vm_compute; repeat split.
Qed.

(** ** Gestures, one pass at a time *)

(** What a pass sees of the state after it has read the two inputs. *)
Lemma loop_eq inp s :
  loop inp s
  = let u := CheckSelector (adcSel inp)
               (set_ExpVal (byte (Z.shiftr (word (adcExp inp)) 2)) s) in
    if PatchMode s then loop_patch (levels inp) u
    else if SaveMode s then loop_save (levels inp) u
    else loop_normal (levels inp) u.
Proof.
  unfold loop. cbv zeta. rewrite CheckSelector_eq. cbv zeta. sets.
  now destruct (PatchMode s), (SaveMode s).
Qed.

Lemma op_mode_Normal s :
  op_mode s = Normal <-> PatchMode s = false /\ SaveMode s = false.
Proof.
  unfold op_mode. destruct (PatchMode s), (SaveMode s); cbn; split;
    (discriminate || tauto || (intros []; discriminate)).
Qed.

(** X10. In Normal mode a tap on the On/Off button switches the selected
    channel, the other three channels stay as they are, the selection,
    the mode and the patches are kept, the flags of the tap are cleared
    and the long-press counter is reset; the pass does not wait. *)
Theorem normal_onoff_tap inp s :
  op_mode s = Normal -> onoff_tap s ->
  exists s', loop inp s = Some s' /\
    ChnlState s'
    = wr (ChnlState s) (SelIndex s) (negb (rd (ChnlState s) (SelIndex s))) /\
    SelIndex s' = SelIndex s /\ op_mode s' = Normal /\
    btns s' = (false, false, false, false) /\
    SaveModeCounter s' = 0 /\ SvMdCntrActive s' = false /\
    PatchActive s' = PatchActive s /\
    PatchChnlState s' = PatchChnlState s /\ PatchModeState s' = PatchModeState s.
Proof.
  intros Hm (P0 & R0 & P1 & R1). apply op_mode_Normal in Hm. destruct Hm as [Hpm Hsm].
  rewrite loop_eq. cbv zeta. rewrite Hpm, Hsm, CheckSelector_eq. cbv zeta.
  unfold loop_normal, loop_normal_buttons. sets. rewrite P0, R0, P1, R1.
  cbn [negb andb mbind option_bind]. cbv zeta.
  eexists. split; [reflexivity|].
  rewrite op_mode_Normal. unfold btns, loop_normal_selector. out_frames.
  split_if; cbv zeta; frames; rewrite ?Hpm, ?Hsm; repeat split.
Qed.

Lemma next_SelIndex_eq s :
  0 <= SelIndex s <= 3 ->
  next_SelIndex s = set_SelIndex ((SelIndex s + 1) mod 4) s.
Proof.
  intros H. unfold next_SelIndex. cbv zeta. sets. unfold byte.
  rewrite (Z.mod_small (SelIndex s + 1) 256) by lia.
  destruct (Z.ltb_spec 3 (SelIndex s + 1)).
  - replace (SelIndex s + 1) with 4 by lia. now destruct_state s.
  - now rewrite Z.mod_small by lia.
Qed.

(** X11. In Normal mode a tap on the select button moves the selection on
    by one channel, from channel 3 back to channel 0; the channels, the
    mode and the patches are kept, the flags of the tap are cleared and
    the long-press counter is reset. *)
Theorem normal_select_tap inp s :
  valid s -> op_mode s = Normal -> select_tap s ->
  exists s', loop inp s = Some s' /\
    SelIndex s' = (SelIndex s + 1) mod 4 /\
    ChnlState s' = ChnlState s /\ op_mode s' = Normal /\
    btns s' = (false, false, false, false) /\
    SaveModeCounter s' = 0 /\ SvMdCntrActive s' = false /\
    PatchActive s' = PatchActive s /\
    PatchChnlState s' = PatchChnlState s /\ PatchModeState s' = PatchModeState s.
Proof.
  intros Hv Hm (P0 & R0 & P1 & R1). apply op_mode_Normal in Hm.
  destruct Hm as [Hpm Hsm]. pose proof (v_SelIndex s Hv) as Hsel.
  rewrite loop_eq. cbv zeta. rewrite Hpm, Hsm, CheckSelector_eq. cbv zeta.
  unfold loop_normal, loop_normal_buttons. sets. rewrite P0, R0, P1, R1.
  cbn [negb andb mbind option_bind]. cbv zeta.
  rewrite next_SelIndex_eq by (sets; exact Hsel).
  eexists. split; [reflexivity|].
  rewrite op_mode_Normal. unfold btns, loop_normal_selector. out_frames.
  split_if; cbv zeta; frames; rewrite ?Hpm, ?Hsm; repeat split.
Qed.

(** X12. In Normal mode, with no button gesture pending, a move of the
    selector makes the reading the taper of the selected channel and
    stores the configuration at once: the pass ends with the EEPROM
    holding the record of the new state.  The other tapers, the channel
    states and the selection are as before. *)
Theorem normal_selector_move inp s :
  valid s -> adc_ok inp -> op_mode s = Normal ->
  btns s = (false, false, false, false) -> selector_moved inp s ->
  exists s', loop inp s = Some s' /\
    SelVal s' = adcSel inp / 256 /\
    ChnlMode s' = wr (ChnlMode s) (SelIndex s) (adcSel inp / 256) /\
    Eeprom s' = nvm_image s' /\ SelValChng s' = false /\
    ChnlState s' = ChnlState s /\ SelIndex s' = SelIndex s /\
    op_mode s' = Normal.
Proof.
  intros Hv [He Hs] Hm Hb Hmv. apply op_mode_Normal in Hm.
  destruct Hm as [Hpm Hsm]. unfold btns in Hb. injection Hb as P0 R0 P1 R1.
  assert (Hrd : byte (Z.shiftr (word (adcSel inp)) 8) = adcSel inp / 256).
  { unfold byte, word. rewrite (Z.mod_small (adcSel inp)) by lia.
    rewrite Z.shiftr_div_pow2 by lia. change (2 ^ 8) with 256.
    apply Z.mod_small. split; [apply Z.div_pos; lia|].
    apply Z.lt_trans with 4; [apply Z.div_lt_upper_bound; lia | lia]. }
  assert (Hrange : 0 <= adcSel inp / 256 <= 3)
    by (rewrite <- Hrd; now apply adc_to_SelVal).
  destruct (adc_to_ExpVal _ He) as [Hev Her].
  rewrite loop_eq. cbv zeta. rewrite Hpm, Hsm.
  set (u := CheckSelector _ _).
  assert (Hu : valid u).
  { subst u. apply valid_CheckSelector; [assumption|]. rewrite Hev.
    now apply valid_set_ExpVal. }
  assert (Eu : u = set_LastSelVal (adcSel inp / 256)
                     (set_SelValChng true
                        (set_SelVal (adcSel inp / 256)
                           (set_ExpVal (byte (Z.shiftr (word (adcExp inp)) 2)) s)))).
  { subst u. rewrite CheckSelector_eq. cbv zeta. rewrite Hrd. sets.
    f_equal. f_equal. destruct Hmv as [->|Hne]; [reflexivity|].
    rewrite Hrd in Hne. destruct (Z.eqb_spec (adcSel inp / 256) (LastSelVal s));
      [contradiction|]. apply orb_true_r. }
  unfold loop_normal, loop_normal_buttons.
  replace (Btn0Pressed u) with false by (rewrite Eu; sets; congruence).
  replace (Btn0Released u) with false by (rewrite Eu; sets; congruence).
  replace (Btn1Pressed u) with false by (rewrite Eu; sets; congruence).
  replace (Btn1Released u) with false by (rewrite Eu; sets; congruence).
  cbn [negb andb mbind option_bind].
  eexists. split; [reflexivity|].
  unfold loop_normal_selector.
  replace (SelValChng u) with true by (rewrite Eu; reflexivity). cbv zeta.
  rewrite (chk_in_range 4 (SelIndex u) u) by (pose proof (v_SelIndex u Hu); lia).
  assert (Hx : valid (CheckLeds (set_SelValChng false
                 (set_ChnlMode (wr (ChnlMode u) (SelIndex u) (SelVal u)) u))))
    by (apply valid_CheckLeds, valid_set_SelValChng, (valid_set_taper u Hu)).
  rewrite op_mode_Normal.
  rewrite loop_normal_outputs_eq by (now apply valid_UpdateNvmData).
  rewrite (UpdateNvmData_eq _ (v_sized _ Hx)).
  clear Hx. destruct (CheckLeds_leds_only (set_SelValChng false
                 (set_ChnlMode (wr (ChnlMode u) (SelIndex u) (SelVal u)) u)))
    as (c & m & p & o & ->).
  unfold set_leds. rewrite Eu. sets. rewrite Hpm, Hsm. repeat split.
Qed.

(** ** What a pass can change, and when it can wait *)

Lemma loop_patch_buttons_changes lv s t :
  loop_patch_buttons lv s = Some t ->
  ChnlState t = ChnlState s /\ ChnlMode t = ChnlMode s /\
  PatchChnlState t = PatchChnlState s /\ PatchModeState t = PatchModeState s /\
  (PatchActive t = PatchActive s \/ onoff_tap s).
Proof.
  unfold loop_patch_buttons, onoff_tap.
  destruct (Btn0Pressed s), (Btn0Released s), (Btn1Pressed s), (Btn1Released s);
    cbn [negb andb]; cbv zeta; try after_wait; intros [= <-]; frames;
    repeat split; auto.
Qed.

Lemma loop_normal_buttons_changes lv s t :
  loop_normal_buttons lv s = Some t ->
  ChnlMode t = ChnlMode s /\ PatchActive t = PatchActive s /\
  PatchChnlState t = PatchChnlState s /\ PatchModeState t = PatchModeState s /\
  (ChnlState t = ChnlState s \/ onoff_tap s).
Proof.
  unfold loop_normal_buttons, onoff_tap.
  destruct (Btn0Pressed s), (Btn0Released s), (Btn1Pressed s), (Btn1Released s);
    cbn [negb andb]; cbv zeta; sets; try (destruct (3 <? SaveModeCounter s));
    cbv zeta; try after_wait; intros [= <-]; frames; repeat split; auto.
Qed.

Lemma loop_save_changes lv s t :
  loop_save lv s = Some t ->
  ChnlState t = ChnlState s /\ ChnlMode t = ChnlMode s /\
  PatchActive t = PatchActive s /\
  ((PatchChnlState t = PatchChnlState s /\ PatchModeState t = PatchModeState s) \/
   (select_down s /\ 3 < SaveModeCounter s)).
Proof.
  unfold loop_save, loop_save_commit, select_down.
  destruct (Btn1Pressed s), (Btn1Released s); cbn [negb andb]; cbv zeta; sets;
    try (destruct (3 <? SaveModeCounter s) eqn:Ec); cbv zeta;
    try (match goal with |- ((?w ≫= ?f) ≫= _) = _ -> _ =>
           let u := fresh "u" in let E := fresh "E" in
           destruct w as [u|] eqn:E; [|discriminate] end);
    cbn [mbind option_bind]; intros [= <-]; frames; repeat split; auto.
  all: right; split; [now split | now apply Z.ltb_lt].
Qed.

Lemma selector_outputs_changes s :
  (let t := loop_patch_outputs (loop_patch_selector s) in
   ChnlState t = ChnlState s /\ ChnlMode t = ChnlMode s /\
   PatchActive t = PatchActive s /\
   PatchChnlState t = PatchChnlState s /\ PatchModeState t = PatchModeState s) /\
  (let t := loop_normal_outputs (loop_normal_selector s) in
   ChnlState t = ChnlState s /\ PatchActive t = PatchActive s /\
   PatchChnlState t = PatchChnlState s /\ PatchModeState t = PatchModeState s).
Proof.
  unfold loop_patch_selector, loop_normal_selector.
  split; cbv zeta; out_frames; split_if; cbv zeta; frames; repeat split.
Qed.

(** X13. What a pass of the main loop can change, and by which gesture: a
    channel is switched only by an On/Off tap in Normal mode, a taper is
    set only in Normal mode, the active patch changes only by an On/Off
    tap in Patch mode, and the stored patches change only in Save mode
    with the select button down and the long-press counter above 3. *)
Theorem pass_changes_by_gesture inp s s' :
  loop inp s = Some s' ->
  (ChnlState s' = ChnlState s \/ (op_mode s = Normal /\ onoff_tap s)) /\
  (ChnlMode s' = ChnlMode s \/ op_mode s = Normal) /\
  (PatchActive s' = PatchActive s \/ (op_mode s = Patch /\ onoff_tap s)) /\
  ((PatchChnlState s' = PatchChnlState s /\ PatchModeState s' = PatchModeState s) \/
   (op_mode s = Save /\ select_down s /\ 3 < SaveModeCounter s)).
Proof.
  rewrite loop_eq. cbv zeta. rewrite CheckSelector_eq. cbv zeta.
  set (u := set_LastSelVal _ _).
  assert (Hu : ChnlState u = ChnlState s /\ ChnlMode u = ChnlMode s /\
               PatchActive u = PatchActive s /\
               PatchChnlState u = PatchChnlState s /\
               PatchModeState u = PatchModeState s /\
               btns u = btns s /\ SaveModeCounter u = SaveModeCounter s)
    by (subst u; unfold btns; sets; repeat split).
  clearbody u. destruct Hu as (U1 & U2 & U3 & U4 & U5 & Ub & Uc).
  unfold btns in Ub. injection Ub as P0 R0 P1 R1.
  unfold op_mode, onoff_tap, select_down. rewrite <- P0, <- R0, <- P1, <- R1, <- Uc.
  rewrite <- U1, <- U2, <- U3, <- U4, <- U5.
  destruct (PatchMode s); [|destruct (SaveMode s); cbn [negb andb]].
  - unfold loop_patch.
    destruct (loop_patch_buttons (levels inp) u) as [t|] eqn:E;
      cbn [mbind option_bind]; [|discriminate]. intros [= <-].
    destruct (proj1 (selector_outputs_changes t)) as (-> & -> & -> & -> & ->).
    destruct (loop_patch_buttons_changes _ _ _ E) as (-> & -> & -> & -> & [->|H]);
      auto 10.
  - intros E.
    destruct (loop_save_changes _ _ _ E) as (-> & -> & -> & [[-> ->]|H]); auto 10.
  - unfold loop_normal.
    destruct (loop_normal_buttons (levels inp) u) as [t|] eqn:E;
      cbn [mbind option_bind]; [|discriminate]. intros [= <-].
    destruct (proj2 (selector_outputs_changes t)) as (-> & -> & -> & ->).
    destruct (loop_normal_buttons_changes _ _ _ E) as (_ & -> & -> & -> & [->|H]);
      auto 10.
Qed.

(** X14. A pass of the main loop waits only for the select button: it
    returns whenever that button is not down at its start, whatever the
    levels sampled afterwards, and when it does not return the button
    was down and none of the sampled levels showed it released. *)
Theorem loop_blocks_only_on_hold inp s :
  loop inp s = None -> select_down s /\ ~ release_seen (levels inp).
Proof.
  intros Hn. split.
  - revert Hn. rewrite loop_eq. cbv zeta. rewrite CheckSelector_eq. cbv zeta.
    unfold select_down, loop_patch, loop_normal, loop_save, loop_patch_buttons,
      loop_normal_buttons, loop_save_commit. sets.
    destruct (Btn1Pressed s), (Btn1Released s); [| auto | |];
      destruct (PatchMode s), (SaveMode s), (Btn0Pressed s), (Btn0Released s);
      cbn [negb andb mbind option_bind]; cbv zeta; discriminate.
  - intros Hr. destruct (loop_returns inp s Hr) as [s' Hs']. congruence.
Qed.

(** ** Array bounds *)

Lemma CheckLeds_cases x :
  valid x ->
  exists c m p o,
    CheckLeds x = set_leds c m p o x /\ (o = OutOfBounds x \/ patchless x).
Proof.
  intros Hv. destruct (CheckLeds_leds_only x) as (c & m & p & o & E).
  exists c, m, p, o. split; [exact E|]. unfold patchless.
  destruct (PatchMode x) eqn:Hpm; [destruct (Z.eq_dec (PatchActive x) 255) as [Hpa|Hpa]|].
  - now right.
  - left. pose proof (CheckLeds_in_bounds x Hv (fun _ => Hpa)) as H.
    rewrite E in H. exact H.
  - left. assert (Hc : PatchMode x = true -> PatchActive x <> 255) by congruence.
    pose proof (CheckLeds_in_bounds x Hv Hc) as H. rewrite E in H. exact H.
Qed.

Lemma valid_PatchActive_none s : valid s -> valid (set_PatchActive 255 s).
Proof. apply valid_set_PatchActive. now left. Qed.

Lemma valid_PatchActive_sel s : valid s -> valid (set_PatchActive (SelIndex s) s).
Proof. intros Hv. apply valid_set_PatchActive; [right; apply Hv | exact Hv]. Qed.

Lemma valid_SelIndex_0 s : valid s -> valid (set_SelIndex 0 s).
Proof. apply valid_set_SelIndex. lia. Qed.

Lemma valid_SelIndex_SelVal s : valid s -> valid (set_SelIndex (SelVal s) s).
Proof. intros Hv. apply valid_set_SelIndex; [apply Hv | exact Hv]. Qed.

(** Name the LED refresh of a branch, with what it does to the record of
    an index out of bounds. *)
Ltac leds_cases :=
  repeat match goal with
  | E : wait_any_release _ ?x = Some ?u |- _ =>
      destruct (wait_any_release_btns _ _ _ E) as (? & ? & ? & ? & ?);
      clear E; subst u
  | E : wait_Btn1_release _ ?x = Some ?u |- _ =>
      destruct (wait_Btn1_release_btns _ _ _ E) as (? & ? & ? & ? & ?);
      clear E; subst u
  end;
  match goal with
  | |- context [CheckLeds ?x] =>
      let Hx := fresh "Hx" in
      let Ho := fresh "Ho" in
      assert (Hx : valid x);
      [ | destruct (CheckLeds_cases x Hx) as (? & ? & ? & ? & -> & Ho); clear Hx;
          revert Ho; unfold patchless; frames;
          (intros [-> | [? ?]]; [left; reflexivity | right; now split]) ]
  end.

Lemma loop_patch_buttons_bounds lv s t :
  valid s -> loop_patch_buttons lv s = Some t ->
  OutOfBounds t = OutOfBounds s \/ patchless t.
Proof.
  intros Hv. unfold loop_patch_buttons. repeat split_if; cbv zeta;
    try after_wait; intros [= <-]; try (left; reflexivity); leds_cases;
    auto 10 using valid_PatchActive_none, valid_PatchActive_sel, valid_SelIndex_0
      with valid.
Qed.

Lemma loop_patch_selector_bounds s :
  valid s ->
  OutOfBounds (loop_patch_selector s) = OutOfBounds s \/
  patchless (loop_patch_selector s).
Proof.
  intros Hv. unfold loop_patch_selector. split_if; cbv zeta;
    try (left; reflexivity); leds_cases.
  now apply valid_SelIndex_SelVal.
Qed.

Lemma loop_normal_buttons_bounds lv s t :
  valid s -> PatchMode s = false -> SaveMode s = false ->
  loop_normal_buttons lv s = Some t ->
  OutOfBounds t = OutOfBounds s \/ patchless t.
Proof.
  intros Hv Hpm Hsm. pose proof (v_SelIndex s Hv) as Hsel.
  unfold loop_normal_buttons.
  rewrite (chk_in_range 4 (SelIndex s) s) by lia.
  repeat split_if; cbv zeta;
    try after_wait; intros [= <-]; try (left; reflexivity); leds_cases.
  - auto 10 with valid.
  - auto 10 with valid.
  - apply valid_set_PatchMode_true; [assumption|].
    apply valid_SelIndex_0. auto with valid.
  - apply valid_set_SaveMode_true; [assumption|].
    apply valid_set_SvMdCntrActive, valid_SelIndex_0. auto with valid.
Qed.

Lemma loop_normal_selector_bounds s :
  valid s ->
  OutOfBounds (loop_normal_selector s) = OutOfBounds s \/
  patchless (loop_normal_selector s).
Proof.
  intros Hv. pose proof (v_SelIndex s Hv) as Hsel. unfold loop_normal_selector.
  rewrite (chk_in_range 4 (SelIndex s) s) by lia.
  split_if; cbv zeta; try (left; reflexivity); leds_cases.
  auto 10 with valid.
Qed.

Lemma loop_save_bounds lv s t :
  valid s -> loop_save lv s = Some t ->
  OutOfBounds t = OutOfBounds s \/ patchless t.
Proof.
  intros Hv. pose proof (v_SelIndex s Hv) as Hsel.
  unfold loop_save, loop_save_commit. cbv zeta. sets.
  rewrite (chk_in_range 4 (SelIndex s)) by lia.
  destruct (Btn1Pressed s), (Btn1Released s); cbn [negb andb]; cbv zeta; sets;
    try (destruct (3 <? SaveModeCounter s)); cbv zeta;
    try (match goal with |- ((?w ≫= ?f) ≫= _) = _ -> _ =>
           let u := fresh "u" in let E := fresh "E" in
           destruct w as [u|] eqn:E; [|discriminate] end);
    cbn [mbind option_bind]; intros [= <-]; try (left; reflexivity); leds_cases.
  apply valid_set_SaveMode_false, valid_set_SelValChng, valid_SelIndex_0.
  apply valid_save_copy. auto with valid.
Qed.

Lemma outputs_bounds s :
  valid s ->
  OutOfBounds (loop_patch_outputs s) = OutOfBounds s /\
  OutOfBounds (loop_normal_outputs s) = OutOfBounds s.
Proof.
  intros Hv. rewrite loop_patch_outputs_eq, loop_normal_outputs_eq by assumption.
  split; [now destruct (PatchActive s =? 255) | reflexivity].
Qed.

Lemma patchless_outputs s :
  (patchless s -> patchless (loop_patch_outputs s)) /\
  (patchless s -> patchless (loop_normal_outputs s)).
Proof.
  unfold patchless.
  destruct (outputs_frame s) as [(l & o & ->) (l' & o' & ->)]. now split.
Qed.

Lemma patchless_selector s :
  (patchless s -> patchless (loop_patch_selector s)) /\
  (patchless s -> patchless (loop_normal_selector s)).
Proof.
  unfold patchless, loop_patch_selector, loop_normal_selector.
  split; split_if; cbv zeta; frames; tauto.
Qed.

(** X15. A pass of the main loop from a valid state keeps the selection
    index, the active-patch pointer and the selected taper, wherever it
    uses one of them as an array index, inside the array, unless the pass
    ends in Patch mode with no patch active. *)
Theorem pass_in_bounds inp s s' :
  valid s -> adc_ok inp -> loop inp s = Some s' ->
  OutOfBounds s' = OutOfBounds s \/ patchless s'.
Proof.
  intros Hv [He Hs]. rewrite loop_eq. cbv zeta.
  destruct (adc_to_ExpVal _ He) as [Hev Her].
  set (u := CheckSelector _ _).
  assert (Hu : valid u).
  { subst u. apply valid_CheckSelector; [assumption|]. rewrite Hev.
    now apply valid_set_ExpVal. }
  assert (Eu : OutOfBounds u = OutOfBounds s /\ PatchMode u = PatchMode s /\
               SaveMode u = SaveMode s)
    by (subst u; rewrite CheckSelector_eq; cbv zeta; sets; now repeat split).
  clearbody u. destruct Eu as (<- & Hpm & Hsm). rewrite <- Hpm, <- Hsm.
  destruct (PatchMode u) eqn:Epm; [|destruct (SaveMode u) eqn:Esm].
  - unfold loop_patch.
    destruct (loop_patch_buttons (levels inp) u) as [t|] eqn:E;
      cbn [mbind option_bind]; [|discriminate]. intros [= <-].
    pose proof (valid_loop_patch_buttons _ _ _ Hu E) as Ht.
    pose proof (valid_loop_patch_selector t Ht) as Ht'.
    rewrite (proj1 (outputs_bounds _ Ht')).
    destruct (loop_patch_selector_bounds t Ht) as [->|Hp];
      [|right; now apply patchless_outputs].
    destruct (loop_patch_buttons_bounds _ _ _ Hu E) as [->|Hp]; [now left|].
    right. now apply patchless_outputs, patchless_selector.
  - apply loop_save_bounds, Hu.
  - unfold loop_normal.
    destruct (loop_normal_buttons (levels inp) u) as [t|] eqn:E;
      cbn [mbind option_bind]; [|discriminate]. intros [= <-].
    pose proof (valid_loop_normal_buttons _ _ _ Hu Epm Esm E) as Ht.
    pose proof (valid_loop_normal_selector t Ht) as Ht'.
    rewrite (proj2 (outputs_bounds _ Ht')).
    destruct (loop_normal_selector_bounds t Ht) as [->|Hp];
      [|right; now apply patchless_outputs].
    destruct (loop_normal_buttons_bounds _ _ _ Hu Epm Esm E) as [->|Hp]; [now left|].
    right. now apply patchless_outputs, patchless_selector.
Qed.

Lemma blinkers_bounds s :
  OutOfBounds (LedsFastBlink s) = OutOfBounds s /\
  OutOfBounds (LedsSlowBlink s) = OutOfBounds s.
Proof.
  unfold LedsFastBlink, LedsSlowBlink, toggleLed, digitalWriteLed.
  split; apply (for_upto_ind (fun t => OutOfBounds t = OutOfBounds s));
    try reflexivity; intros i t _ Ht; cbv zeta; repeat split_if; sets; exact Ht.
Qed.

(** X16. A timer tick on a valid state keeps the same indices inside
    their arrays, unless the state is in Patch mode with no patch
    active. *)
Theorem tick_in_bounds b0 b1 s :
  valid s -> OutOfBounds (IntTmr1 b0 b1 s) = OutOfBounds s \/ patchless s.
Proof.
  intros Hv. unfold patchless.
  destruct (PatchMode s) eqn:Hpm;
    [destruct (Z.eq_dec (PatchActive s) 255) as [Hpa|Hpa]; [now right|]|]; left.
  all: unfold IntTmr1, Tmr10msTask, Tmr100msTask, Tmr250msTask, Tmr500msTask,
         CheckSaveMode; cbv zeta; rewrite CheckBtns_latch;
       set (s1 := set_btns _ _ _ _ (set_TimerCount _ s));
       assert (H1 : OutOfBounds (LedsFastBlink (CheckLeds s1)) = OutOfBounds s)
         by (rewrite (proj1 (blinkers_bounds _)), CheckLeds_in_bounds;
             [reflexivity
             | subst s1; now apply valid_set_btns, valid_set_TimerCount
             | subst s1; unfold set_btns; sets; congruence]);
       assert (E1 : OutOfBounds s1 = OutOfBounds s) by reflexivity;
       clearbody s1;
       set (s2 := if TimerCount s1 mod 10 =? 0 then _ else s1);
       assert (H2 : OutOfBounds s2 = OutOfBounds s)
         by (subst s2; now destruct (_ =? 0));
       clearbody s2;
       set (s3 := if TimerCount s2 mod 25 =? 0 then LedsSlowBlink s2 else s2);
       assert (H3 : OutOfBounds s3 = OutOfBounds s)
         by (subst s3; destruct (_ =? 0);
             [now rewrite (proj2 (blinkers_bounds _)) | assumption]);
       clearbody s3;
       destruct (_ =? 0); [destruct (SvMdCntrActive s3)|]; sets; exact H3.
Qed.

(** ** Power-up *)

(** X17. Whatever the EEPROM holds, the board comes up with every channel
    switched off, no patch active, channel or slot 0 selected and Save
    mode off; the four potentiometers have each been written once, with
    the pedal position, and the EEPROM is as it was. *)
Theorem power_up_state rom adcE adcS b0 b1 :
  length rom = 10%nat -> 0 <= adcE < 1024 -> 0 <= adcS < 1024 ->
  ChnlState (setup rom adcE adcS b0 b1) = [false; false; false; false] /\
  PatchActive (setup rom adcE adcS b0 b1) = 255 /\
  SelIndex (setup rom adcE adcS b0 b1) = 0 /\
  SaveMode (setup rom adcE adcS b0 b1) = false /\
  PotLog (setup rom adcE adcS b0 b1)
  = [(0, adcE / 4); (1, adcE / 4); (2, adcE / 4); (3, adcE / 4)] /\
  Eeprom (setup rom adcE adcS b0 b1) = rom /\
  OutOfBounds (setup rom adcE adcS b0 b1) = None.
Proof.
  intros Hlen He Hs.
  destruct (length_10_inv _ Hlen) as (r0&r1&r2&r3&r4&r5&r6&r7&r8&r9&->).
  assert (Hb : byte (byte (Z.shiftr adcE 2)) = adcE / 4).
  { rewrite Z.shiftr_div_pow2 by lia. change (2 ^ 2) with 4. unfold byte.
    assert (0 <= adcE / 4 < 256)
      by (split; [apply Z.div_pos; lia | apply Z.div_lt_upper_bound; lia]).
    rewrite (Z.mod_small (adcE / 4) 256) by lia. now apply Z.mod_small. }
  rewrite <- Hb. destruct b0, b1; run_arrays; repeat split.
Qed.

(** ** Taps *)

Lemma ticks_latch lv s :
  (Btn0Pressed (ticks lv s), Btn0Released (ticks lv s))
  = foldl (fun f l => latch (fst l) f) (Btn0Pressed s, Btn0Released s) lv /\
  (Btn1Pressed (ticks lv s), Btn1Released (ticks lv s))
  = foldl (fun f l => latch (snd l) f) (Btn1Pressed s, Btn1Released s) lv.
Proof.
  revert s. induction lv as [|[b0 b1] lv IH]; intros s; [now split|].
  rewrite ticks_cons. destruct (IH (IntTmr1 b0 b1 s)) as [-> ->].
  destruct (IntTmr1_latch b0 b1 s) as [-> ->]. now split.
Qed.

(** One button over a press of any length and its release, and over
    samples that show it up. *)
Lemma latch_press {A} (lvl : A -> bool) (a : A) n :
  lvl a = false ->
  foldl (fun f l => latch (lvl l) f) (false, false) (repeat a (S n)) = (true, false).
Proof.
  intros Ha. cbn [repeat foldl]. unfold latch at 2. rewrite Ha. cbn [fst snd negb andb orb].
  induction n as [|n IH]; [reflexivity|].
  cbn [repeat foldl]. unfold latch at 2. rewrite Ha. exact IH.
Qed.

Lemma latch_kept {A} (lvl : A -> bool) lv :
  foldl (fun f l => latch (lvl l) f) (true, true) lv = (true, true).
Proof. induction lv as [|a lv IH]; [reflexivity|]. cbn [foldl]. exact IH. Qed.

Lemma latch_idle {A} (lvl : A -> bool) lv :
  Forall (fun l => lvl l = true) lv ->
  foldl (fun f l => latch (lvl l) f) (false, false) lv = (false, false).
Proof.
  induction 1 as [|a lv Ha _ IH]; [reflexivity|].
  cbn [foldl]. unfold latch at 2. rewrite Ha. exact IH.
Qed.

Lemma Forall_repeat_same {A} (P : A -> Prop) a n : P a -> Forall P (repeat a n).
Proof. intros Ha. induction n; constructor; assumption. Qed.

(** X18. With no flag set, a press of the On/Off button of any length and
    its release are latched as an On/Off tap, and stay so whatever that
    button does afterwards, as long as the select button is up; the same
    holds for the select button with the roles exchanged. *)
Theorem tap_is_recognised n rest s :
  btns s = (false, false, false, false) ->
  (Forall (fun l => snd l = true) rest ->
   onoff_tap (ticks (repeat (false, true) (S n) ++ (true, true) :: rest) s)) /\
  (Forall (fun l => fst l = true) rest ->
   select_tap (ticks (repeat (true, false) (S n) ++ (true, true) :: rest) s)).
Proof.
  intros Hb. unfold btns in Hb. injection Hb as P0 R0 P1 R1.
  unfold onoff_tap, select_tap. split; intros Hrest.
  - destruct (ticks_latch (repeat (false, true) (S n) ++ (true, true) :: rest) s)
      as [E0 E1].
    set (t := ticks _ s) in *. clearbody t.
    rewrite P0, R0, foldl_app, (latch_press fst) in E0 by reflexivity.
    cbn [foldl] in E0. change (latch (true, true).1 (true, false)) with (true, true) in E0.
    rewrite latch_kept in E0.
    rewrite P1, R1, (latch_idle snd) in E1.
    + injection E0 as -> ->. injection E1 as -> ->. now repeat split.
    + apply Forall_app. split; [|constructor; [reflexivity | assumption]].
      now apply Forall_repeat_same.
  - destruct (ticks_latch (repeat (true, false) (S n) ++ (true, true) :: rest) s)
      as [E0 E1].
    set (t := ticks _ s) in *. clearbody t.
    rewrite P1, R1, foldl_app, (latch_press snd) in E1 by reflexivity.
    cbn [foldl] in E1. change (latch (true, true).2 (true, false)) with (true, true) in E1.
    rewrite latch_kept in E1.
    rewrite P0, R0, (latch_idle fst) in E0.
    + injection E0 as -> ->. injection E1 as -> ->. now repeat split.
    + apply Forall_app. split; [|constructor; [reflexivity | assumption]].
      now apply Forall_repeat_same.
Qed.

(** ** The pass nothing happens in *)

(** X19. Outside Save mode, a pass that finds no button flag set and the
    selector where it was changes nothing but the pedal value and the
    selector value it has read and the log of pot writes: no mode, no
    selection, no channel, no taper, no patch, no LED, no EEPROM cell. *)
Theorem idle_pass inp s :
  valid s -> adc_ok inp -> SaveMode s = false ->
  btns s = (false, false, false, false) -> ~ selector_moved inp s ->
  exists l,
    loop inp s
    = Some (set_PotLog l (set_SelVal (LastSelVal s) (set_ExpVal (adcExp inp / 4) s))).
Proof.
  intros Hv [He Hs] Hsm Hb Hmv. unfold btns in Hb. injection Hb as P0 R0 P1 R1.
  assert (Hc : SelValChng s = false).
  { destruct (SelValChng s) eqn:E; [|reflexivity]. exfalso. apply Hmv. now left. }
  assert (Hl : byte (Z.shiftr (word (adcSel inp)) 8) = LastSelVal s).
  { destruct (Z.eq_dec (byte (Z.shiftr (word (adcSel inp)) 8)) (LastSelVal s));
      [assumption|]. exfalso. apply Hmv. now right. }
  destruct (adc_to_ExpVal _ He) as [Hev Her].
  assert (Hdiv : Z.shiftr (adcExp inp) 2 = adcExp inp / 4)
    by (rewrite Z.shiftr_div_pow2 by lia; reflexivity).
  pose proof (adc_to_SelVal _ Hs) as Hsv. rewrite Hl in Hsv.
  set (u := set_SelVal (LastSelVal s) (set_ExpVal (adcExp inp / 4) s)).
  assert (Hu : valid u).
  { subst u. apply valid_set_SelVal; [assumption|]. apply valid_set_ExpVal; [lia|].
    assumption. }
  assert (Eu : CheckSelector (adcSel inp)
                 (set_ExpVal (byte (Z.shiftr (word (adcExp inp)) 2)) s) = u).
  { rewrite CheckSelector_eq. cbv zeta. rewrite Hl, Hev, Hdiv. subst u. sets.
    rewrite Hc, Z.eqb_refl. clear -Hc. destruct_state s. sets. now subst svc. }
  rewrite loop_eq. cbv zeta. rewrite Eu, Hsm.
  assert (Fu : Btn0Pressed u = false /\ Btn0Released u = false /\
               Btn1Pressed u = false /\ Btn1Released u = false /\
               SelValChng u = false) by (subst u; sets; now repeat split).
  clearbody u. destruct Fu as (Q0 & S0 & Q1 & S1 & Qc).
  unfold loop_patch, loop_normal, loop_patch_buttons, loop_normal_buttons,
    loop_patch_selector, loop_normal_selector.
  rewrite Q0, S0, Q1, S1. cbn [negb andb mbind option_bind]. cbv zeta.
  rewrite Qc, loop_patch_outputs_eq, loop_normal_outputs_eq by assumption.
  destruct (PatchMode s); [destruct (PatchActive u =? 255)|]; eauto.
  exists (PotLog u). now rewrite set_PotLog_same.
Qed.

(** ** The theorems above at the example boards *)

Lemma reachable_example_onoff_tap : reachable example_onoff_tap.
Proof. apply reach_tick, reach_tick, reachable_demo_boot. Qed.

Lemma reachable_example_select_tap : reachable example_select_tap.
Proof. apply reach_tick, reach_tick, reachable_demo_boot. Qed.

Lemma valid_example_save : valid example_save.
Proof.
  apply valid_set_SaveMode_true; [vm_compute; reflexivity | exact valid_example_normal].
Qed.

Lemma valid_example_patch : valid example_patch.
Proof.
  apply valid_set_PatchActive; [right; lia|].
  apply valid_setup; [reflexivity | lia | lia].
Qed.

Lemma restart_restores_config_witness :
  reachable example_patch_tap /\
  config (setup (Eeprom example_patch_tap) 0 0 true true) = config example_patch_tap.
Proof.
  split; [exact reachable_example_patch_tap|].
  apply restart_restores_config, reachable_example_patch_tap.
Defined.

Lemma release_follows_press_witness :
  reachable example_onoff_tap /\ press_first example_onoff_tap.
Proof.
  split; [exact reachable_example_onoff_tap|].
  apply release_follows_press, reachable_example_onoff_tap.
Defined.

Lemma latched_tap_is_kept_witness :
  Btn0Pressed (ticks [(false, true); (true, false)] example_onoff_tap) = true /\
  Btn0Released (ticks [(false, true); (true, false)] example_onoff_tap) = true.
Proof.
  apply (proj1 (latched_tap_is_kept [(false, true); (true, false)] example_onoff_tap));
    vm_compute; reflexivity.
Defined.

Lemma tap_is_recognised_witness :
  onoff_tap (ticks (repeat (false, true) 3 ++ [(true, true); (false, true)]) demo_boot).
Proof.
  destruct (tap_is_recognised 2 [(false, true)] demo_boot) as [H _];
    [vm_compute; reflexivity|].
  apply H. repeat constructor.
Defined.

Lemma blinkers_toggle_witness :
  length (LedPins example_onoff_tap) = 8%nat /\
  LedsFastBlink example_onoff_tap
  = set_LedPins (blink_pins 3 example_onoff_tap) example_onoff_tap.
Proof.
  assert (H : length (LedPins example_onoff_tap) = 8%nat) by (vm_compute; reflexivity).
  split; [exact H | exact (proj1 (blinkers_toggle example_onoff_tap H))].
Defined.

Lemma panel_sized_examples :
  panel_sized example_normal /\ panel_sized example_save /\ panel_sized example_patch.
Proof. repeat split; vm_compute; reflexivity. Qed.

Lemma CheckLeds_normal_panel_witness :
  valid example_normal /\ panel_sized example_normal /\
  LedPins (CheckLeds example_normal)
  = [false; false; true; false; true; false; false; false].
Proof.
  destruct panel_sized_examples as (Hp & _ & _).
  split; [exact valid_example_normal | split; [exact Hp|]].
  destruct (CheckLeds_normal_panel example_normal valid_example_normal Hp)
    as (_ & _ & E); [vm_compute; reflexivity | vm_compute; reflexivity |].
  rewrite E. vm_compute. reflexivity.
Defined.

Lemma CheckLeds_save_panel_witness :
  valid example_save /\ panel_sized example_save /\
  ModeLedState (CheckLeds example_save) = [3; 0; 0; 0].
Proof.
  destruct panel_sized_examples as (_ & Hp & _).
  split; [exact valid_example_save | split; [exact Hp|]].
  destruct (CheckLeds_save_panel example_save valid_example_save Hp)
    as (_ & E & _); [vm_compute; reflexivity | vm_compute; reflexivity |].
  rewrite E. vm_compute. reflexivity.
Defined.

Lemma CheckLeds_patch_panel_witness :
  valid example_patch /\ panel_sized example_patch /\
  ModeLedState (CheckLeds example_patch) = [2; 1; 0; 0] /\
  OutOfBounds (CheckLeds example_patch) = None.
Proof.
  destruct panel_sized_examples as (_ & _ & Hp).
  split; [exact valid_example_patch | split; [exact Hp|]].
  destruct (CheckLeds_patch_panel example_patch valid_example_patch Hp)
    as (_ & E & _ & Eo); [vm_compute; reflexivity | vm_compute; split; discriminate |].
  rewrite E, Eo. split; vm_compute; reflexivity.
Defined.

Lemma normal_onoff_tap_witness :
  exists s', loop (mkInput 400 0 []) example_onoff_tap = Some s' /\
             ChnlState s' = [true; false; false; false].
Proof.
  destruct (normal_onoff_tap (mkInput 400 0 []) example_onoff_tap)
    as (s' & Hs' & E & _).
  - vm_compute. reflexivity.
  - vm_compute. repeat split.
  - exists s'. split; [exact Hs'|]. rewrite E. vm_compute. reflexivity.
Defined.

Lemma normal_select_tap_witness :
  exists s', loop (mkInput 400 0 []) example_select_tap = Some s' /\ SelIndex s' = 1.
Proof.
  destruct (normal_select_tap (mkInput 400 0 []) example_select_tap)
    as (s' & Hs' & E & _).
  - exact (reachable_valid _ reachable_example_select_tap).
  - vm_compute. reflexivity.
  - vm_compute. repeat split.
  - exists s'. split; [exact Hs'|]. rewrite E. vm_compute. reflexivity.
Defined.

Lemma normal_selector_move_witness :
  exists s', loop (mkInput 400 512 []) demo_boot = Some s' /\
             ChnlMode s' = [2; 0; 2; 0] /\ Eeprom s' = nvm_image s'.
Proof.
  destruct (normal_selector_move (mkInput 400 512 []) demo_boot)
    as (s' & Hs' & _ & E & Ee & _).
  - exact (reachable_valid _ reachable_demo_boot).
  - split; cbn; lia.
  - vm_compute. reflexivity.
  - vm_compute. reflexivity.
  - right. vm_compute. discriminate.
  - exists s'. split; [exact Hs'|]. split; [|exact Ee]. rewrite E.
    vm_compute. reflexivity.
Defined.

Lemma pass_changes_by_gesture_witness :
  exists s', loop (mkInput 400 0 [(true, true)]) example_patch_tap = Some s' /\
             ChnlMode s' = ChnlMode example_patch_tap.
Proof.
  destruct (loop_returns (mkInput 400 0 [(true, true)]) example_patch_tap)
    as [s' Hs']; [left; reflexivity|].
  exists s'. split; [exact Hs'|].
  destruct (pass_changes_by_gesture _ _ _ Hs') as (_ & [E|E] & _); [exact E|].
  vm_compute in E. discriminate E.
Defined.

Lemma loop_blocks_only_on_hold_witness :
  loop (mkInput 400 0 [(true, false)]) example_held = None /\
  select_down example_held.
Proof.
  assert (H : loop (mkInput 400 0 [(true, false)]) example_held = None)
    by (vm_compute; reflexivity).
  split; [exact H | exact (proj1 (loop_blocks_only_on_hold _ _ H))].
Defined.

Lemma pass_in_bounds_witness :
  valid example_onoff_tap /\
  exists s', loop (mkInput 400 0 [(true, true)]) example_onoff_tap = Some s' /\
             (OutOfBounds s' = OutOfBounds example_onoff_tap \/ patchless s').
Proof.
  pose proof (reachable_valid _ reachable_example_onoff_tap) as Hv.
  split; [exact Hv|].
  destruct (loop_returns (mkInput 400 0 [(true, true)]) example_onoff_tap)
    as [s' Hs']; [left; reflexivity|].
  exists s'. split; [exact Hs'|].
  apply (pass_in_bounds (mkInput 400 0 [(true, true)]) example_onoff_tap s' Hv);
    [split; cbn; lia | exact Hs'].
Defined.

Lemma tick_in_bounds_witness :
  valid example_onoff_tap /\
  OutOfBounds (IntTmr1 true true example_onoff_tap) = OutOfBounds example_onoff_tap.
Proof.
  pose proof (reachable_valid _ reachable_example_onoff_tap) as Hv.
  split; [exact Hv|].
  destruct (tick_in_bounds true true example_onoff_tap Hv) as [E|[E _]]; [exact E|].
  vm_compute in E. discriminate E.
Defined.

Lemma power_up_state_witness :
  PotLog (setup example_rom 400 512 true true) = [(0, 100); (1, 100); (2, 100); (3, 100)] /\
  ChnlState (setup example_rom 400 512 true true) = [false; false; false; false].
Proof.
  destruct (power_up_state example_rom 400 512 true true) as (E1 & _ & _ & _ & E2 & _);
    [reflexivity | lia | lia |].
  split; [exact E2 | exact E1].
Defined.

Lemma idle_pass_witness :
  exists l,
    loop (mkInput 400 0 []) demo_boot
    = Some (set_PotLog l (set_SelVal (LastSelVal demo_boot)
                            (set_ExpVal (400 / 4) demo_boot))).
Proof.
  apply (idle_pass (mkInput 400 0 []) demo_boot).
  - exact (reachable_valid _ reachable_demo_boot).
  - split; cbn; lia.
  - vm_compute. reflexivity.
  - vm_compute. reflexivity.
  - intros [H|H]; vm_compute in H; [discriminate H | now apply H].
Defined.
